(** * Voice-first idea submission front end: model and verified properties

    A shallow embedding of the browser client:

    - [Js]            the fragment of ECMAScript the components rely on
                      (string trimming and searching, truthiness, rounding,
                      blobs and files);
    - [Types]         lib/types.ts;
    - [Api]           lib/api.ts (the [http] wrapper and the four endpoints);
    - [Handler]       event handlers as state-passing computations that also
                      record the effects they request (network calls, timers);
    - [IdeaForm]      components/IdeaForm.tsx;
    - [AudioRecorder] components/AudioRecorder.tsx;
    - [Page]          app/page.tsx together with components/ModeSelector.tsx;
    - [ThemeToggle]   components/ThemeToggle.tsx.

    The value an awaited call settles with is an argument of the handler
    that awaits it.  A handler is the run of the function from its first
    statement to its last; the [start] of the recorder and the
    [runProcess] of the page are also given in their parts, cut at each
    [await], so that what happens to the component can be interleaved as
    the browser interleaves it.  Strings are UTF-8 byte strings; [trim]
    decodes them and strips every code point ECMAScript counts as white
    space or as a line terminator. *)

From Stdlib Require Import ZArith NArith QArith Qround String Ascii List Lia.
From stdpp Require Import base option gmap list strings pretty.
Import ListNotations.
Local Open Scope string_scope.

(* ===================================================================== *)
(** * The ECMAScript fragment                                             *)
(* ===================================================================== *)

Module Js.

(** The text of a string is UTF-8: [byte c] is the value of one byte. *)
Definition byte (c : ascii) : N := N_of_ascii c.

(** The code points [String.prototype.trim] strips, WhiteSpace and
    LineTerminator of ECMAScript: U+0009 to U+000D, U+0020, U+00A0,
    U+1680, U+2000 to U+200A, U+2028, U+2029, U+202F, U+205F, U+3000 and
    U+FEFF. *)
Definition isWhiteSpace (cp : N) : bool :=
  (((9 <=? cp) && (cp <=? 13)) || (cp =? 32) || (cp =? 160) || (cp =? 5760)
   || ((8192 <=? cp) && (cp <=? 8202)) || (cp =? 8232) || (cp =? 8233)
   || (cp =? 8239) || (cp =? 8287) || (cp =? 12288) || (cp =? 65279))%N.

(** A byte 10xxxxxx. *)
Definition isContinuation (c : ascii) : bool :=
  ((128 <=? byte c) && (byte c <=? 191))%N.

(** The code point a sequence of one, two, three or four bytes encodes, if
    the sequence is well formed: 0xxxxxxx; 110xxxxx 10xxxxxx from U+0080;
    1110xxxx 10xxxxxx 10xxxxxx from U+0800; 11110xxx and three
    continuation bytes from U+10000 to U+10FFFF. *)
Definition codePoint1 (a : ascii) : option N :=
  if (byte a <? 128)%N then Some (byte a) else None.

Definition codePoint2 (a b : ascii) : option N :=
  if ((194 <=? byte a) && (byte a <=? 223))%N && isContinuation b
  then Some ((byte a - 192) * 64 + (byte b - 128))%N
  else None.

Definition codePoint3 (a b c : ascii) : option N :=
  if ((224 <=? byte a) && (byte a <=? 239))%N && isContinuation b && isContinuation c
  then
    let cp := ((byte a - 224) * 4096 + (byte b - 128) * 64 + (byte c - 128))%N in
    if (2048 <=? cp)%N then Some cp else None
  else None.

Definition codePoint4 (a b c d : ascii) : option N :=
  if ((240 <=? byte a) && (byte a <=? 244))%N
     && isContinuation b && isContinuation c && isContinuation d
  then
    let cp := ((byte a - 240) * 262144 + (byte b - 128) * 4096
               + (byte c - 128) * 64 + (byte d - 128))%N in
    if ((65536 <=? cp) && (cp <=? 1114111))%N then Some cp else None
  else None.

(** The UTF-8 text of one code point. *)
Definition utf8 (cp : N) : string :=
  let b (n : N) := ascii_of_N n in
  (if cp <? 128 then String (b cp) ""
   else if cp <? 2048 then
     String (b (192 + cp / 64)) (String (b (128 + cp mod 64)) "")
   else if cp <? 65536 then
     String (b (224 + cp / 4096))
       (String (b (128 + (cp / 64) mod 64)) (String (b (128 + cp mod 64)) ""))
   else
     String (b (240 + cp / 262144))
       (String (b (128 + (cp / 4096) mod 64))
          (String (b (128 + (cp / 64) mod 64)) (String (b (128 + cp mod 64)) ""))))%N.

(** [s.trimStart()]: the leading code points that are white space are
    dropped.  No white-space code point needs four bytes. *)
Fixpoint trimStart (s : string) : string :=
  match s with
  | EmptyString => EmptyString
  | String a r1 =>
      match codePoint1 a with
      | Some cp => if isWhiteSpace cp then trimStart r1 else s
      | None =>
          match r1 with
          | EmptyString => s
          | String b r2 =>
              match codePoint2 a b with
              | Some cp => if isWhiteSpace cp then trimStart r2 else s
              | None =>
                  match r2 with
                  | EmptyString => s
                  | String c r3 =>
                      match codePoint3 a b c with
                      | Some cp => if isWhiteSpace cp then trimStart r3 else s
                      | None => s
                      end
                  end
              end
          end
      end
  end.

(** Whether a text is a sequence of white-space code points. *)
Fixpoint isBlank (s : string) : bool :=
  match s with
  | EmptyString => true
  | String a r1 =>
      match codePoint1 a with
      | Some cp => isWhiteSpace cp && isBlank r1
      | None =>
          match r1 with
          | EmptyString => false
          | String b r2 =>
              match codePoint2 a b with
              | Some cp => isWhiteSpace cp && isBlank r2
              | None =>
                  match r2 with
                  | EmptyString => false
                  | String c r3 =>
                      match codePoint3 a b c with
                      | Some cp => isWhiteSpace cp && isBlank r3
                      | None => false
                      end
                  end
              end
          end
      end
  end.

(** [s.trimEnd()]: the text is cut where what remains is white space
    only. *)
Fixpoint trimEnd (s : string) : string :=
  match s with
  | EmptyString => EmptyString
  | String c r => if isBlank s then EmptyString else String c (trimEnd r)
  end.

(** [s.trim()] *)
Definition trim (s : string) : string := trimEnd (trimStart s).

(** [hay.includes(needle)] *)
Fixpoint includes (hay needle : string) : bool :=
  String.prefix needle hay
  || match hay with
     | EmptyString => false
     | String _ r => includes r needle
     end.

(** [parts.join(sep)] *)
Fixpoint join (sep : string) (parts : list string) : string :=
  match parts with
  | [] => ""
  | [p] => p
  | p :: ps => p ++ sep ++ join sep ps
  end.

(** [s.replace(/_/g, " ")] *)
Fixpoint replaceUnderscores (s : string) : string :=
  match s with
  | EmptyString => EmptyString
  | String c r =>
      String (if Ascii.eqb c "_" then " "%char else c) (replaceUnderscores r)
  end.

(** The class [\w]: ASCII letters, digits and the underscore. *)
Definition isWordChar (c : ascii) : bool :=
  let n := nat_of_ascii c in
  (((48 <=? n) && (n <=? 57)) || ((65 <=? n) && (n <=? 90))
   || ((97 <=? n) && (n <=? 122)) || (n =? 95))%nat.

(** [c.toUpperCase()] on one ASCII code unit. *)
Definition toUpperCase (c : ascii) : ascii :=
  let n := nat_of_ascii c in
  if ((97 <=? n) && (n <=? 122))%nat then ascii_of_nat (n - 32) else c.

(** [s.replace(/\b\w/g, c => c.toUpperCase())]: a word character that
    follows a non-word character, or starts the string, is upper-cased.
    [prevWord] tells whether the preceding code unit is a word character. *)
Fixpoint capitalizeFrom (prevWord : bool) (s : string) : string :=
  match s with
  | EmptyString => EmptyString
  | String c r =>
      let w := isWordChar c in
      String (if w && negb prevWord then toUpperCase c else c) (capitalizeFrom w r)
  end.

Definition capitalizeWords (s : string) : string := capitalizeFrom false s.

(** [a || b] on strings: the empty string is falsy. *)
Definition orElse (a b : string) : string :=
  match a with EmptyString => b | _ => a end.

(** Values a JSON payload can put in an object field, as far as the
    components distinguish them.  [Number] covers the integer-valued
    numbers; [Object] stands for any array or object. *)
Inductive value : Type :=
| Undefined
| Null
| Bool (b : bool)
| Number (z : Z)
| Str (s : string)
| Object.

(** [!!v] *)
Definition truthy (v : value) : bool :=
  match v with
  | Undefined | Null => false
  | Bool b => b
  | Number z => negb (z =? 0)%Z
  | Str s => negb (String.eqb s "")
  | Object => true
  end.

(** [Math.round] of a number given exactly: the nearest integer, halves
    going up.  The form rounds k / 6 * 100 for k from 0 to 6, none of
    which is near a half. *)
Definition Math_round (x : Q) : Z := Qfloor (x + (1 # 2)).

(** A thrown [Error]; handlers only read its [message]. *)
Record Error : Type := mkError { message : string }.

(** [c.toLowerCase()] on one ASCII code unit. *)
Definition toLowerCase (c : ascii) : ascii :=
  let n := nat_of_ascii c in
  if ((65 <=? n) && (n <=? 90))%nat then ascii_of_nat (n + 32) else c.

Fixpoint lowerCase (s : string) : string :=
  match s with
  | EmptyString => EmptyString
  | String c r => String (toLowerCase c) (lowerCase r)
  end.

(** Whether every character lies in U+0020 to U+007E. *)
Fixpoint isPrintable (s : string) : bool :=
  match s with
  | EmptyString => true
  | String c r =>
      ((32 <=? nat_of_ascii c) && (nat_of_ascii c <=? 126))%nat && isPrintable r
  end.

(** The [type] a [Blob] or a [File] shows for the [type] it was built
    with: empty when that has a character outside U+0020 to U+007E,
    lower-cased otherwise. *)
Definition normalizeType (type : string) : string :=
  if isPrintable type then lowerCase type else "".

(** A [Blob]: its bytes and the [type] option it was built with. *)
Record Blob : Type := mkBlob { blob_data : list Byte.byte; blob_option : string }.

(** [blob.type] *)
Definition blob_type (b : Blob) : string := normalizeType (blob_option b).

Definition blob_size (b : Blob) : nat := List.length (blob_data b).

(** [new Blob(parts, { type })] concatenates the parts' bytes. *)
Definition newBlob (parts : list Blob) (type : string) : Blob :=
  {| blob_data := List.concat (List.map blob_data parts); blob_option := type |}.

(** A [File] as the page and the server see it: [file_type] is
    [file.type]. *)
Record File : Type :=
  mkFile { file_name : string; file_data : list Byte.byte; file_type : string }.

(** [new File(parts, name, { type })] *)
Definition newFile (parts : list Blob) (name type : string) : File :=
  {| file_name := name;
     file_data := List.concat (List.map blob_data parts);
     file_type := normalizeType type |}.

End Js.

(* ===================================================================== *)
(** * lib/types.ts                                                        *)
(* ===================================================================== *)

Module Types.

Inductive InputMode : Type := record | upload | text.

Inductive Language : Type := ar | en | mixed | unknown.

Definition languageName (l : Language) : string :=
  match l with ar => "ar" | en => "en" | mixed => "mixed" | unknown => "unknown" end.

Record TranscribeResponse : Type := {
  transcript : string;
  language : Language;
  dialect_hint : option string;
}.

(** A draft is a JavaScript object: a finite map from field names to
    values.  The components read it with [(draft as any)[f]], so a field
    that is absent reads as [undefined]. *)
Abbreviation DraftIdea := (gmap string Js.value).

Definition getField (d : DraftIdea) (f : string) : Js.value :=
  default Js.Undefined (d !! f).

Inductive FieldStatus : Type := confirmed | guessed | missing.

Record FieldMeta : Type := { status : FieldStatus; confidence : Q }.

(** [ExtractionResponse] and [ClarifyResponse] have the same shape.  The
    form reads [field_meta], [missing_fields] and [questions] through
    [x || default], so they are optional here. *)
Record ExtractionResponse : Type := {
  draft : DraftIdea;
  field_meta : option (gmap string FieldMeta);
  missing_fields : option (list string);
  questions : option (list string);
}.

Abbreviation ClarifyResponse := ExtractionResponse.

Record SubmitResponse : Type := { id : string }.

End Types.

(* ===================================================================== *)
(** * lib/api.ts                                                          *)
(* ===================================================================== *)

Module Api.
Import Types.

(** The body handed to [fetch]; [JSON.stringify] is not modelled, the
    body is the parameter object itself. *)
Inductive Body : Type :=
| TranscribeBody (file : Js.File)
| ExtractBody (text : string) (language_hint dialect_hint : option string)
| ClarifyBody (draft : DraftIdea) (answers_text : string) (questions : list string)
| SubmitBody (transcript : string) (language dialect_hint : option string)
             (draft : DraftIdea).

Record Request : Type := { path : string; method : string; body : Body }.

(** What the server answered: [text] is [None] when reading the body
    fails, [json] is [inl e] when parsing it fails. *)
Record Response (T : Type) : Type := {
  status : Z;
  statusText : string;
  text : option string;
  json : Js.Error + T;
}.
Arguments status {T}.
Arguments statusText {T}.
Arguments text {T}.
Arguments json {T}.

(** How [fetch] settles. *)
Inductive FetchOutcome (T : Type) : Type :=
| Rejected (e : Js.Error)
| Fulfilled (r : Response T).
Arguments Rejected {T}.
Arguments Fulfilled {T}.

(** [res.ok] *)
Definition ok {T} (r : Response T) : bool :=
  ((200 <=? status r) && (status r <=? 299))%Z.

(** [http]: the value the returned promise settles with. *)
Definition http {T} (o : FetchOutcome T) : Js.Error + T :=
  match o with
  | Rejected e => inl e
  | Fulfilled res =>
      if negb (ok res) then
        let text := default "" (text res) in
        inl (Js.mkError
               ("API " ++ pretty (status res) ++ ": "
                ++ Js.orElse text (statusText res)))
      else json res
  end.

Definition transcribeAudioRequest (file : Js.File) : Request :=
  {| path := "/v1/voice/transcribe"; method := "POST"; body := TranscribeBody file |}.

Definition extractIdeaRequest (text : string) (language_hint dialect_hint : option string)
  : Request :=
  {| path := "/v1/voice/extract"; method := "POST";
     body := ExtractBody text language_hint dialect_hint |}.

Definition clarifyIdeaRequest (draft : DraftIdea) (answers_text : string)
    (questions : list string) : Request :=
  {| path := "/v1/voice/clarify"; method := "POST";
     body := ClarifyBody draft answers_text questions |}.

Definition submitIdeaRequest (transcript : string) (language dialect_hint : option string)
    (draft : DraftIdea) : Request :=
  {| path := "/v1/ideas"; method := "POST";
     body := SubmitBody transcript language dialect_hint draft |}.

(** [s.replace(/\/$/, "")]: one slash at the very end is dropped. *)
Fixpoint stripTrailingSlash (s : string) : string :=
  match s with
  | EmptyString => EmptyString
  | String c EmptyString => if Ascii.eqb c "/" then EmptyString else s
  | String c r => String c (stripTrailingSlash r)
  end.

(** [BASE], given [process.env.NEXT_PUBLIC_API_BASE_URL]. *)
Definition BASE (env : option string) : string :=
  Js.orElse (default "" (stripTrailingSlash <$> env)) "http://localhost:8000".

(** The address [http] fetches: [`${BASE}${path}`]. *)
Definition url (env : option string) (r : Request) : string := BASE env ++ path r.

End Api.

(* ===================================================================== *)
(** * Event handlers                                                      *)
(* ===================================================================== *)

(** A handler runs on the component state [S], returns a value and records,
    in order, the effects [E] it asked the browser for. *)
Module Handler.
Section Defs.
Context {S E : Type}.

Definition t (A : Type) : Type := S -> A * S * list E.

Definition ret {A} (a : A) : t A := fun s => (a, s, []).

Definition bind {A B} (m : t A) (k : A -> t B) : t B :=
  fun s =>
    let '(a, s1, e1) := m s in
    let '(b, s2, e2) := k a s1 in
    (b, s2, (e1 ++ e2)%list).

Definition get : t S := fun s => (s, s, []).
Definition modify (f : S -> S) : t unit := fun s => (tt, f s, []).
Definition emit (e : E) : t unit := fun s => (tt, s, [e]).

Definition state_of {A} (r : A * S * list E) : S := snd (fst r).
Definition effects_of {A} (r : A * S * list E) : list E := snd r.
End Defs.
Arguments t : clear implicits.

#[global] Instance handler_ret {S E} : MRet (t S E) := @ret S E.
#[global] Instance handler_bind {S E} : MBind (t S E) := fun A B k m => bind m k.

End Handler.

(* ===================================================================== *)
(** * components/IdeaForm.tsx                                             *)
(* ===================================================================== *)

Module IdeaForm.
Import Handler.

Record Props : Type := {
  transcript : string;
  language : option string;
  dialect_hint : option string;
  extraction : Types.ExtractionResponse;
}.

Definition REQUIRED_FIELDS : list string :=
  [ "title"; "summary"; "problem"; "proposed_solution";
    "target_audience"; "expected_impact" ].

Definition labelOf (k : string) : string :=
  Js.capitalizeWords (Js.replaceUnderscores k).

Inductive ToastType : Type := ok | err.

Record Toast : Type := { type : ToastType; text : string }.

(** The hooks of the component. *)
Record State : Type := mkState {
  draft : Types.DraftIdea;
  questions : list string;
  missingFields : list string;
  fieldMeta : gmap string Types.FieldMeta;
  answersText : string;
  isClarifying : bool;
  isSubmitting : bool;
  isRecording : bool;
  isTranscribing : bool;
  toast : option Toast;
}.

(** The [useState] initialisers. *)
Definition init (p : Props) : State :=
  {| draft := Types.draft (extraction p);
     questions := default [] (Types.questions (extraction p));
     missingFields := default [] (Types.missing_fields (extraction p));
     fieldMeta := default ∅ (Types.field_meta (extraction p));
     answersText := "";
     isClarifying := false;
     isSubmitting := false;
     isRecording := false;
     isTranscribing := false;
     toast := None |}.

Definition setDraft (f : Types.DraftIdea -> Types.DraftIdea) (s : State) : State :=
  mkState (f (draft s)) (questions s) (missingFields s) (fieldMeta s) (answersText s)
          (isClarifying s) (isSubmitting s) (isRecording s) (isTranscribing s) (toast s).

Definition setQuestions (q : list string) (s : State) : State :=
  mkState (draft s) q (missingFields s) (fieldMeta s) (answersText s)
          (isClarifying s) (isSubmitting s) (isRecording s) (isTranscribing s) (toast s).

Definition setMissingFields (m : list string) (s : State) : State :=
  mkState (draft s) (questions s) m (fieldMeta s) (answersText s)
          (isClarifying s) (isSubmitting s) (isRecording s) (isTranscribing s) (toast s).

Definition setFieldMeta
    (f : gmap string Types.FieldMeta -> gmap string Types.FieldMeta) (s : State) : State :=
  mkState (draft s) (questions s) (missingFields s) (f (fieldMeta s)) (answersText s)
          (isClarifying s) (isSubmitting s) (isRecording s) (isTranscribing s) (toast s).

Definition setAnswersText (a : string) (s : State) : State :=
  mkState (draft s) (questions s) (missingFields s) (fieldMeta s) a
          (isClarifying s) (isSubmitting s) (isRecording s) (isTranscribing s) (toast s).

Definition setIsClarifying (b : bool) (s : State) : State :=
  mkState (draft s) (questions s) (missingFields s) (fieldMeta s) (answersText s)
          b (isSubmitting s) (isRecording s) (isTranscribing s) (toast s).

Definition setIsSubmitting (b : bool) (s : State) : State :=
  mkState (draft s) (questions s) (missingFields s) (fieldMeta s) (answersText s)
          (isClarifying s) b (isRecording s) (isTranscribing s) (toast s).

Definition setToast (t : option Toast) (s : State) : State :=
  mkState (draft s) (questions s) (missingFields s) (fieldMeta s) (answersText s)
          (isClarifying s) (isSubmitting s) (isRecording s) (isTranscribing s) t.

(** What a handler asks of the browser.  The only callback ever passed to
    [window.setTimeout] is [() => setToast(null)]. *)
Inductive Effect : Type :=
| Fetch (r : Api.Request)
| SetTimeout (ms : Z).

Abbreviation Handler := (Handler.t State Effect).

(** The test both memos apply to a required field:
    [typeof v === "string" ? v.trim().length > 0 : !!v]. *)
Definition isFilled (v : Js.value) : bool :=
  match v with
  | Js.Str s => (0 <? String.length (Js.trim s))%nat
  | _ => Js.truthy v
  end.

Definition have (d : Types.DraftIdea) : nat :=
  List.length (List.filter (fun f => isFilled (Types.getField d f)) REQUIRED_FIELDS).

Definition completeness (d : Types.DraftIdea) : Z :=
  Js.Math_round
    (inject_Z (Z.of_nat (have d)) / inject_Z (Z.of_nat (List.length REQUIRED_FIELDS)) * 100).

Definition stillMissing (d : Types.DraftIdea) : list string :=
  List.filter (fun f => negb (isFilled (Types.getField d f))) REQUIRED_FIELDS.

Definition updateField (k : string) (value : Js.value) : Handler unit :=
  modify (setDraft (fun d => <[k := value]> d));;
  modify (setFieldMeta
            (fun m => <[k := {| Types.status := Types.confirmed; Types.confidence := 1 |}]> m)).

Definition showToast (ty : ToastType) (msg : string) : Handler unit :=
  modify (setToast (Some {| type := ty; text := msg |}));;
  emit (SetTimeout 3500).

(** The callback scheduled by [showToast]. *)
Definition toastTimeout : Handler unit := modify (setToast None).

(** An endpoint of lib/api.ts called from the form: the request goes out
    and the promise settles as [http] says for the reply [o]. *)
Definition call {T} (r : Api.Request) (o : Api.FetchOutcome T) : Handler (Js.Error + T) :=
  emit (Fetch r);; mret (Api.http o).

Definition runClarification (reply : Api.FetchOutcome Types.ExtractionResponse)
  : Handler unit :=
  s ← get;
  if negb (Js.truthy (Js.Str (Js.trim (answersText s)))) then
    showToast err "Type or record your answers first (one message is fine)."
  else
    modify (setIsClarifying true);;
    r ← call (Api.clarifyIdeaRequest (draft s) (answersText s) (questions s)) reply;
    match r with
    | inr res =>
        modify (setDraft (fun _ => Types.draft res));;
        modify (setFieldMeta (fun _ => default ∅ (Types.field_meta res)));;
        modify (setMissingFields (default [] (Types.missing_fields res)));;
        modify (setQuestions (default [] (Types.questions res)));;
        modify (setAnswersText "");;
        showToast ok "Updated with your clarification ✅"
    | inl e => showToast err (Js.orElse (Js.message e) "Clarification failed.")
    end;;
    modify (setIsClarifying false).

Definition runSubmit (p : Props) (reply : Api.FetchOutcome Types.SubmitResponse)
  : Handler unit :=
  s ← get;
  if (0 <? List.length (stillMissing (draft s)))%nat then
    showToast err
      ("Missing required fields: " ++ Js.join ", " (List.map labelOf (stillMissing (draft s))))
  else
    modify (setIsSubmitting true);;
    r ← call (Api.submitIdeaRequest (transcript p) (language p) (dialect_hint p) (draft s)) reply;
    match r with
    | inr res => showToast ok ("Submitted ✅ (id: " ++ Types.id res ++ ")")
    | inl e => showToast err (Js.orElse (Js.message e) "Submit failed.")
    end;;
    modify (setIsSubmitting false).

(** A draft as [DraftIdea] types it: six required strings. *)
Definition mkDraft (title summary problem proposed_solution target_audience
                    expected_impact : string) : Types.DraftIdea :=
  <["title" := Js.Str title]>
  (<["summary" := Js.Str summary]>
  (<["problem" := Js.Str problem]>
  (<["proposed_solution" := Js.Str proposed_solution]>
  (<["target_audience" := Js.Str target_audience]>
  (<["expected_impact" := Js.Str expected_impact]> ∅))))).

(** [getApiBaseUrl], given the environment variable and
    [window.__API_BASE_URL__]. *)
Definition getApiBaseUrl (env win : option string) : string :=
  Js.orElse (default "" env) (Js.orElse (default "" win) "http://localhost:8000").

Definition setIsRecording (b : bool) (s : State) : State :=
  mkState (draft s) (questions s) (missingFields s) (fieldMeta s) (answersText s)
          (isClarifying s) (isSubmitting s) b (isTranscribing s) (toast s).

Definition setIsTranscribing (b : bool) (s : State) : State :=
  mkState (draft s) (questions s) (missingFields s) (fieldMeta s) (answersText s)
          (isClarifying s) (isSubmitting s) (isRecording s) b (toast s).

(** [onChange] of the answer box and [onClick] of Clear. *)
Definition onAnswersChange (value : string) : Handler unit := modify (setAnswersText value).

(** The functional update of [transcribeAndFill]:
    [(prev) => { const p = (prev || "").trim(); ... }]. *)
Definition appendVoice (text prev : string) : string :=
  match Js.trim prev with
  | EmptyString => text
  | p => p ++ String "010" (String "010" "[Voice]") ++ String "010" text
  end.

(** [transcribeAndFill(audioBlob)].  [now] is [Date.now()]; the reply's
    JSON is reduced to [data?.transcript]. *)
Definition transcribeAndFill (audioBlob : Js.Blob) (now : Z)
    (reply : Api.FetchOutcome (option string)) : Handler unit :=
  modify (setIsTranscribing true);;
  emit (Fetch
          {| Api.path := "/v1/voice/transcribe"; Api.method := "POST";
             Api.body :=
               Api.TranscribeBody
                 (Js.newFile [audioBlob] ("answer-" ++ pretty now ++ ".webm")
                    (Js.blob_type audioBlob)) |});;
  match reply with
  | Api.Rejected e => showToast err (Js.orElse (Js.message e) "Transcription failed.")
  | Api.Fulfilled resp =>
      if negb (Api.ok resp) then
        showToast err
          (Js.orElse ("Transcription failed (" ++ pretty (Api.status resp) ++ "). "
                      ++ default "" (Api.text resp))
             "Transcription failed.")
      else
        match Api.json resp with
        | inl e => showToast err (Js.orElse (Js.message e) "Transcription failed.")
        | inr data =>
            let text := Js.trim (Js.orElse (default "" data) "") in
            if negb (Js.truthy (Js.Str text)) then
              showToast err "Transcription returned empty text."
            else
              s ← get;
              modify (setAnswersText (appendVoice text (answersText s)));;
              showToast ok "Voice added to answers ✅"
        end
  end;;
  modify (setIsTranscribing false).

(** The recorder of the answer box: the stream it records, the type it
    reports and whether [recorder.state] is other than "inactive". *)
Record Recorder : Type := {
  recorder_stream : nat;
  recorder_mimeType : string;
  recorder_active : bool;
}.

(** The hooks together with the three refs of the answer-box recorder. *)
Record Voice : Type := mkVoice {
  hooks : State;
  mediaRecorderRef : option Recorder;
  chunksRef : list Js.Blob;
  streamRef : option nat;
}.

Definition setHooks (f : State -> State) (v : Voice) : Voice :=
  mkVoice (f (hooks v)) (mediaRecorderRef v) (chunksRef v) (streamRef v).

Definition setMediaRecorderRef (r : option Recorder) (v : Voice) : Voice :=
  mkVoice (hooks v) r (chunksRef v) (streamRef v).

Definition setVoiceChunks (c : list Js.Blob) (v : Voice) : Voice :=
  mkVoice (hooks v) (mediaRecorderRef v) c (streamRef v).

Definition setVoiceStream (r : option nat) (v : Voice) : Voice :=
  mkVoice (hooks v) (mediaRecorderRef v) (chunksRef v) r.

(** What stopping the answer-box recorder asks of the browser, beside
    what the form asks: [StopTracks s] is
    [s.getTracks().forEach((t) => t.stop())]. *)
Inductive VoiceEffect : Type :=
| Form (e : Effect)
| StopTracks (stream : nat).

Abbreviation VoiceHandler := (Handler.t Voice VoiceEffect).

(** A handler of the form, run on the hooks. *)
Definition onHooks {A} (h : Handler A) : VoiceHandler A :=
  fun v =>
    let '(a, s, es) := h (hooks v) in
    (a, setHooks (fun _ => s) v, List.map Form es).

(** What the browser contributes when the recorder is stopped: the data
    it delivers, the clock, and the reply to the transcription request. *)
Record VoiceEnv : Type := {
  finalData : Js.Blob;
  now : Z;
  transcription : Api.FetchOutcome (option string);
}.

(** [recorder.ondataavailable] *)
Definition voiceData (data : Js.Blob) : VoiceHandler unit :=
  if (0 <? Js.blob_size data)%nat
  then v ← get; modify (setVoiceChunks (chunksRef v ++ [data])%list)
  else mret tt.

(** [recorder.onstop], for the recorder [r] and the stream it was built
    on, both captured when the handler was installed. *)
Definition voiceStopped (r : Recorder) (e : VoiceEnv) : VoiceHandler unit :=
  emit (StopTracks (recorder_stream r));;
  modify (setVoiceStream None);;
  v ← get;
  let blob := Js.newBlob (chunksRef v) (Js.orElse (recorder_mimeType r) "audio/webm") in
  modify (setVoiceChunks []);;
  onHooks (transcribeAndFill blob (now e) (transcription e)).

(** [stopRecording]; a recorder that is told to stop becomes inactive,
    and once the function has returned it delivers its data and fires
    [stop]. *)
Definition stopRecording (e : VoiceEnv) : VoiceHandler unit :=
  v ← get;
  match mediaRecorderRef v with
  | Some r =>
      if recorder_active r then
        modify (setMediaRecorderRef
                  (Some {| recorder_stream := recorder_stream r;
                           recorder_mimeType := recorder_mimeType r;
                           recorder_active := false |}));;
        onHooks (modify (setIsRecording false));;
        onHooks (showToast ok "Recording stopped. Transcribing…");;
        voiceData (finalData e);;
        voiceStopped r e
      else
        onHooks (modify (setIsRecording false));;
        onHooks (showToast ok "Recording stopped. Transcribing…")
  | None =>
      onHooks (modify (setIsRecording false));;
      onHooks (showToast ok "Recording stopped. Transcribing…")
  end.

Definition voiceReleased (log : list VoiceEffect) : list nat :=
  List.flat_map (fun e => match e with StopTracks s => [s] | _ => [] end) log.

Definition voiceRequests (log : list VoiceEffect) : list Api.Request :=
  List.flat_map (fun e => match e with Form (Fetch r) => [r] | _ => [] end) log.

(** The requests among the effects of a form handler. *)
Definition requests (log : list Effect) : list Api.Request :=
  List.flat_map (fun e => match e with Fetch r => [r] | _ => [] end) log.

End IdeaForm.

(* ===================================================================== *)
(** * components/AudioRecorder.tsx                                        *)
(* ===================================================================== *)

Module AudioRecorder.
Import Handler.

(** What the page can see of the browser's recording support:
    [typeof MediaRecorder !== "undefined"] and, when the static method
    exists, [MediaRecorder.isTypeSupported]. *)
Record Browser : Type := {
  mediaRecorderDefined : bool;
  isTypeSupported : option (string -> bool);
}.

Definition candidates : list string :=
  [ "audio/webm;codecs=opus"; "audio/webm"; "audio/ogg;codecs=opus"; "audio/ogg" ].

(** The test of the loop in [pickMimeType]. *)
Definition supports (b : Browser) (c : string) : bool :=
  mediaRecorderDefined b
  && match isTypeSupported b with
     | Some f => f c
     | None => false
     end.

Fixpoint firstSupported (b : Browser) (cs : list string) : string :=
  match cs with
  | [] => ""
  | c :: rest => if supports b c then c else firstSupported b rest
  end.

Definition pickMimeType (b : Browser) : string := firstSupported b candidates.

(** A device stream handed out by [getUserMedia], named by a number. *)
Abbreviation MediaStream := nat.

(** A [MediaRecorder] as the component uses it: the stream it records,
    the [mimeType] it reports and whether its [state] is "recording". *)
Record MediaRecorder : Type := {
  rec_stream : MediaStream;
  rec_mimeType : string;
  rec_recording : bool;
}.

(** [new MediaRecorder(stream, mimeType ? { mimeType } : undefined)]: a
    recorder built with a type reports that type; one built without
    reports the user agent's own choice [ua], which may be empty.  A new
    recorder is inactive. *)
Definition newMediaRecorder (stream : MediaStream) (mimeType ua : string) : MediaRecorder :=
  {| rec_stream := stream;
     rec_mimeType := match mimeType with EmptyString => ua | _ => mimeType end;
     rec_recording := false |}.

(** The recorder once [rec.start()] has returned. *)
Definition recording (rec : MediaRecorder) : MediaRecorder :=
  {| rec_stream := rec_stream rec; rec_mimeType := rec_mimeType rec;
     rec_recording := true |}.

(** The hooks and refs of the component.  [audioUrl] holds the blob the
    object URL stands for. *)
Record State : Type := mkState {
  supported : bool;
  permissionError : option string;
  isRecording : bool;
  seconds : nat;
  audioUrl : option Js.Blob;
  streamRef : option MediaStream;
  recorderRef : option MediaRecorder;
  chunksRef : list Js.Blob;
  timerRef : option positive;
}.

(** The state after mount: the initialisers, then the effect that checks
    [window.MediaRecorder]. *)
Definition init (b : Browser) : State :=
  {| supported := mediaRecorderDefined b;
     permissionError := None;
     isRecording := false;
     seconds := 0;
     audioUrl := None;
     streamRef := None;
     recorderRef := None;
     chunksRef := [];
     timerRef := None |}.

Definition setPermissionError (e : option string) (s : State) : State :=
  mkState (supported s) e (isRecording s) (seconds s) (audioUrl s)
          (streamRef s) (recorderRef s) (chunksRef s) (timerRef s).

Definition setIsRecording (r : bool) (s : State) : State :=
  mkState (supported s) (permissionError s) r (seconds s) (audioUrl s)
          (streamRef s) (recorderRef s) (chunksRef s) (timerRef s).

Definition setSeconds (f : nat -> nat) (s : State) : State :=
  mkState (supported s) (permissionError s) (isRecording s) (f (seconds s)) (audioUrl s)
          (streamRef s) (recorderRef s) (chunksRef s) (timerRef s).

Definition setAudioUrl (u : option Js.Blob) (s : State) : State :=
  mkState (supported s) (permissionError s) (isRecording s) (seconds s) u
          (streamRef s) (recorderRef s) (chunksRef s) (timerRef s).

Definition setStreamRef (r : option MediaStream) (s : State) : State :=
  mkState (supported s) (permissionError s) (isRecording s) (seconds s) (audioUrl s)
          r (recorderRef s) (chunksRef s) (timerRef s).

Definition setRecorderRef (r : option MediaRecorder) (s : State) : State :=
  mkState (supported s) (permissionError s) (isRecording s) (seconds s) (audioUrl s)
          (streamRef s) r (chunksRef s) (timerRef s).

Definition setChunksRef (c : list Js.Blob) (s : State) : State :=
  mkState (supported s) (permissionError s) (isRecording s) (seconds s) (audioUrl s)
          (streamRef s) (recorderRef s) c (timerRef s).

Definition setTimerRef (t : option positive) (s : State) : State :=
  mkState (supported s) (permissionError s) (isRecording s) (seconds s) (audioUrl s)
          (streamRef s) (recorderRef s) (chunksRef s) t.

(** What the component asks of the browser and of its parent.
    [StopTracks s] is [s.getTracks().forEach((t) => t.stop())], the release
    of the device; [GetUserMedia r] records that a request for the
    microphone settled with [r]. *)
Inductive Effect : Type :=
| GetUserMedia (r : Js.Error + MediaStream)
| StopTracks (stream : MediaStream)
| OnRecordedFile (file : Js.File)
| SetInterval (id : positive)
| ClearInterval (id : positive).

Abbreviation Handler := (Handler.t State Effect).

(** What the browser contributes to one run of [start] or [stop]: how
    [getUserMedia] settles, what [new MediaRecorder] and [rec.start()]
    throw, if they throw, the type a recorder built without one reports,
    the id [setInterval] returns, and the data the recorder delivers when
    it is stopped. *)
Record Env : Type := {
  media : Js.Error + MediaStream;
  constructorThrows : option Js.Error;
  startThrows : option Js.Error;
  defaultMimeType : string;
  timer : positive;
  finalData : Js.Blob;
}.

Definition stopTimer : Handler unit :=
  s ← get;
  match timerRef s with
  | Some id => emit (ClearInterval id);; modify (setTimerRef None)
  | None => mret tt
  end.

Definition startTimer (id : positive) : Handler unit :=
  stopTimer;;
  emit (SetInterval id);;
  modify (setTimerRef (Some id)).

(** The interval callback. *)
Definition tick : Handler unit := modify (setSeconds (fun n => n + 1)%nat).

(** [rec.ondataavailable] *)
Definition ondataavailable (data : Js.Blob) : Handler unit :=
  if (0 <? Js.blob_size data)%nat
  then s ← get; modify (setChunksRef (chunksRef s ++ [data])%list)
  else mret tt.

(** The type the blob and the file are tagged with. *)
Definition blobType (rec : MediaRecorder) : string :=
  Js.orElse (rec_mimeType rec) "audio/webm".

Definition extension (rec : MediaRecorder) : string :=
  if Js.includes (blobType rec) "ogg" then "ogg" else "webm".

(** [rec.onstop] *)
Definition onstop (rec : MediaRecorder) : Handler unit :=
  s ← get;
  let blob := Js.newBlob (chunksRef s) (blobType rec) in
  modify (setAudioUrl (Some blob));;
  let file := Js.newFile [blob] ("recording." ++ extension rec) (blobType rec) in
  emit (OnRecordedFile file);;
  match streamRef s with
  | Some stream => emit (StopTracks stream)
  | None => mret tt
  end;;
  modify (setStreamRef None).

(** [start] up to its [await]: the three setters and the request for the
    microphone, which is then pending. *)
Definition startRequest : Handler unit :=
  modify (setPermissionError None);;
  modify (setAudioUrl None);;
  modify (setSeconds (fun _ => 0%nat)).

(** The [catch] clause of [start]. *)
Definition startFailed (error : Js.Error) : Handler unit :=
  modify (setPermissionError
            (Some (Js.orElse (Js.message error) "Microphone permission denied."))).

(** [start] from its [await] on, run when the request settles. *)
Definition startSettled (b : Browser) (e : Env) : Handler unit :=
  emit (GetUserMedia (media e));;
  match media e with
  | inr stream =>
      modify (setStreamRef (Some stream));;
      modify (setChunksRef []);;
      match constructorThrows e with
      | Some error => startFailed error
      | None =>
          let rec := newMediaRecorder stream (pickMimeType b) (defaultMimeType e) in
          modify (setRecorderRef (Some rec));;
          match startThrows e with
          | Some error => startFailed error
          | None =>
              modify (setRecorderRef (Some (recording rec)));;
              modify (setIsRecording true);;
              startTimer (timer e)
          end
      end
  | inl error => startFailed error
  end.

(** [start] with nothing else running between its two halves. *)
Definition start (b : Browser) (e : Env) : Handler unit :=
  startRequest;; startSettled b e.

(** [stop]; a recorder that is recording, once told to stop, delivers the
    data it holds and then fires [stop], which runs the two callbacks
    [start] installed; a recorder that is inactive does nothing. *)
Definition stop (e : Env) : Handler unit :=
  stopTimer;;
  modify (setIsRecording false);;
  s ← get;
  modify (setRecorderRef None);;
  match recorderRef s with
  | Some rec =>
      if rec_recording rec then ondataavailable (finalData e);; onstop rec else mret tt
  | None => mret tt
  end.

(** The button, rendered only when [supported]:
    [onClick={isRecording ? stop : start}].  A click that calls [start]
    runs it up to its [await]. *)
Definition onClick (e : Env) : Handler unit :=
  s ← get;
  if negb (supported s) then mret tt
  else if isRecording s then stop e else startRequest.

(** What happens to the component: a click on the button, or a pending
    request for the microphone settles. *)
Inductive Event : Type :=
| Click (e : Env)
| Settled (e : Env).

(** The events in order; [pending] counts the requests for the
    microphone that have not settled yet, and only a pending request can
    settle. *)
Fixpoint play (b : Browser) (evs : list Event) (pending : nat) : Handler unit :=
  match evs with
  | [] => mret tt
  | Click e :: rest =>
      s ← get;
      onClick e;;
      play b rest (if supported s && negb (isRecording s) then S pending else pending)
  | Settled e :: rest =>
      match pending with
      | O => play b rest O
      | S n => startSettled b e;; play b rest n
      end
  end.

Fixpoint sequence (hs : list (Handler unit)) : Handler unit :=
  match hs with
  | [] => mret tt
  | h :: rest => h;; sequence rest
  end.

(** The streams acquired, the streams released and the files handed to
    the parent, read off a log of effects. *)
Definition acquired (log : list Effect) : list MediaStream :=
  List.flat_map (fun e => match e with GetUserMedia (inr s) => [s] | _ => [] end) log.

Definition released (log : list Effect) : list MediaStream :=
  List.flat_map (fun e => match e with StopTracks s => [s] | _ => [] end) log.

Definition recordedFiles (log : list Effect) : list Js.File :=
  List.flat_map (fun e => match e with OnRecordedFile f => [f] | _ => [] end) log.

(** The intervals started and the intervals cleared, read off a log. *)
Definition intervalsSet (log : list Effect) : list positive :=
  List.flat_map (fun e => match e with SetInterval id => [id] | _ => [] end) log.

Definition intervalsCleared (log : list Effect) : list positive :=
  List.flat_map (fun e => match e with ClearInterval id => [id] | _ => [] end) log.

End AudioRecorder.

(* ===================================================================== *)
(** * app/page.tsx and components/ModeSelector.tsx                        *)
(* ===================================================================== *)

Module Page.
Import Handler.

Record State : Type := mkState {
  mode : Types.InputMode;
  audioFile : option Js.File;
  manualText : string;
  transcribe : option Types.TranscribeResponse;
  extraction : option Types.ExtractionResponse;
  busy : bool;
  error : option string;
}.

Definition init : State :=
  {| mode := Types.record; audioFile := None; manualText := "";
     transcribe := None; extraction := None; busy := false; error := None |}.

Definition setMode (m : Types.InputMode) (s : State) : State :=
  mkState m (audioFile s) (manualText s) (transcribe s) (extraction s) (busy s) (error s).

Definition setAudioFile (f : option Js.File) (s : State) : State :=
  mkState (mode s) f (manualText s) (transcribe s) (extraction s) (busy s) (error s).

Definition setManualText (t : string) (s : State) : State :=
  mkState (mode s) (audioFile s) t (transcribe s) (extraction s) (busy s) (error s).

Definition setTranscribe (t : option Types.TranscribeResponse) (s : State) : State :=
  mkState (mode s) (audioFile s) (manualText s) t (extraction s) (busy s) (error s).

Definition setExtraction (x : option Types.ExtractionResponse) (s : State) : State :=
  mkState (mode s) (audioFile s) (manualText s) (transcribe s) x (busy s) (error s).

Definition setBusy (b : bool) (s : State) : State :=
  mkState (mode s) (audioFile s) (manualText s) (transcribe s) (extraction s) b (error s).

Definition setError (e : option string) (s : State) : State :=
  mkState (mode s) (audioFile s) (manualText s) (transcribe s) (extraction s) (busy s) e.

Abbreviation Handler := (Handler.t State Api.Request).

Definition transcriptText (s : State) : string :=
  match mode s with
  | Types.text => Js.trim (manualText s)
  | _ =>
      match transcribe s with
      | Some t => Js.orElse (Js.trim (Types.transcript t)) ""
      | None => ""
      end
  end.

(** The [setMode] prop handed to [ModeSelector]. *)
Definition selectMode (m : Types.InputMode) : Handler unit :=
  modify (setMode m);;
  modify (setAudioFile None);;
  modify (setTranscribe None);;
  modify (setExtraction None);;
  modify (setError None).

(** The [onRecordedFile] prop handed to [AudioRecorder]. *)
Definition onRecordedFile (f : Js.File) : Handler unit :=
  modify (setAudioFile (Some f));;
  modify (setTranscribe None);;
  modify (setExtraction None);;
  modify (setError None).

(** [onChange] of the file input. *)
Definition onUploadChange (f : option Js.File) : Handler unit :=
  modify (setAudioFile f);;
  modify (setTranscribe None);;
  modify (setExtraction None);;
  modify (setError None).

(** [onChange] of the text area. *)
Definition onTextChange (value : string) : Handler unit :=
  modify (setManualText value);;
  modify (setTranscribe None);;
  modify (setExtraction None);;
  modify (setError None).

Definition call {T} (r : Api.Request) (o : Api.FetchOutcome T) : Handler (Js.Error + T) :=
  emit r;; mret (Api.http o).

(** The first half of the [try] block of [runProcess]: the transcript
    and the two hints, or the error thrown. *)
Definition gatherInput (tr : Api.FetchOutcome Types.TranscribeResponse)
  : Handler (Js.Error + (string * option string * option string)) :=
  s ← get;
  match mode s with
  | Types.text =>
      if negb (Js.truthy (Js.Str (Js.trim (manualText s))))
      then mret (inl (Js.mkError "Please paste/type your idea text first."))
      else mret (inr (Js.trim (manualText s), Some "unknown", None))
  | _ =>
      match audioFile s with
      | None => mret (inl (Js.mkError "Please record or upload an audio file first."))
      | Some file =>
          t ← call (Api.transcribeAudioRequest file) tr;
          match t with
          | inl e => mret (inl e)
          | inr t =>
              modify (setTranscribe (Some t));;
              mret (inr (Types.transcript t,
                         Some (Types.languageName (Types.language t)),
                         Types.dialect_hint t))
          end
      end
  end.

(** [runProcess], from its first statement to its last: what the
    function itself does to the page, given what its calls settle with.
    While a call is pending only the Process button is disabled, so in the
    browser other handlers may run in between; they are not part of this
    run. *)
Definition runProcess (tr : Api.FetchOutcome Types.TranscribeResponse)
    (er : Api.FetchOutcome Types.ExtractionResponse) : Handler unit :=
  modify (setError None);;
  modify (setExtraction None);;
  modify (setBusy true);;
  input ← gatherInput tr;
  r ← match input with
      | inl e => mret (inl e)
      | inr (transcript, language, dialect_hint) =>
          if negb (Js.truthy (Js.Str (Js.trim transcript)))
          then mret (inl (Js.mkError "Transcript is empty."))
          else
            ex ← call (Api.extractIdeaRequest transcript language dialect_hint) er;
            match ex with
            | inl e => mret (inl e)
            | inr ex => modify (setExtraction (Some ex));; mret (inr tt)
            end
      end;
  match r with
  | inl e => modify (setError (Some (Js.orElse (Js.message e) "Something went wrong.")))
  | inr _ => mret tt
  end;;
  modify (setBusy false).

(** The user's actions on the page. *)
Inductive Event : Type :=
| SelectMode (m : Types.InputMode)
| RecordedFile (f : Js.File)
| UploadChange (f : option Js.File)
| TextChange (value : string)
| Process (tr : Api.FetchOutcome Types.TranscribeResponse)
          (er : Api.FetchOutcome Types.ExtractionResponse).

Definition handle (ev : Event) : Handler unit :=
  match ev with
  | SelectMode m => selectMode m
  | RecordedFile f => onRecordedFile f
  | UploadChange f => onUploadChange f
  | TextChange v => onTextChange v
  | Process tr er => runProcess tr er
  end.

Definition isTextChange (ev : Event) : bool :=
  match ev with TextChange _ => true | _ => false end.

Fixpoint run (evs : list Event) (s : State) : State :=
  match evs with
  | [] => s
  | ev :: rest => run rest (state_of (handle ev s))
  end.

(** Where a call of [runProcess] is waiting: at
    [await transcribeAudio(audioFile)] or at [await extractIdea(...)]. *)
Inductive Await : Type := AwaitTranscribe | AwaitExtract.

(** The [catch] and [finally] clauses of [runProcess]. *)
Definition processFailed (e : Js.Error) : Handler (option Await) :=
  modify (setError (Some (Js.orElse (Js.message e) "Something went wrong.")));;
  modify (setBusy false);;
  mret None.

(** [runProcess] from the transcript to its second [await]. *)
Definition requestExtraction (transcript : string) (language dialect_hint : option string)
  : Handler (option Await) :=
  if negb (Js.truthy (Js.Str (Js.trim transcript)))
  then processFailed (Js.mkError "Transcript is empty.")
  else emit (Api.extractIdeaRequest transcript language dialect_hint);;
       mret (Some AwaitExtract).

(** [runProcess] up to its first [await], or to its end when it throws
    before. *)
Definition processBegin : Handler (option Await) :=
  modify (setError None);;
  modify (setExtraction None);;
  modify (setBusy true);;
  s ← get;
  match mode s with
  | Types.text =>
      if negb (Js.truthy (Js.Str (Js.trim (manualText s))))
      then processFailed (Js.mkError "Please paste/type your idea text first.")
      else requestExtraction (Js.trim (manualText s)) (Some "unknown") None
  | _ =>
      match audioFile s with
      | None => processFailed (Js.mkError "Please record or upload an audio file first.")
      | Some file => emit (Api.transcribeAudioRequest file);; mret (Some AwaitTranscribe)
      end
  end.

(** [runProcess] from its first [await] on, when the transcription has
    settled. *)
Definition processTranscribed (tr : Api.FetchOutcome Types.TranscribeResponse)
  : Handler (option Await) :=
  match Api.http tr with
  | inl e => processFailed e
  | inr t =>
      modify (setTranscribe (Some t));;
      requestExtraction (Types.transcript t)
        (Some (Types.languageName (Types.language t))) (Types.dialect_hint t)
  end.

(** [runProcess] from its second [await] on, when the extraction has
    settled. *)
Definition processExtracted (er : Api.FetchOutcome Types.ExtractionResponse)
  : Handler (option Await) :=
  match Api.http er with
  | inl e => processFailed e
  | inr ex => modify (setExtraction (Some ex));; modify (setBusy false);; mret None
  end.

(** What happens to the page: an action of the user on a control other
    than the Process button, a click on that button, or a pending call
    settles. *)
Inductive Occurrence : Type :=
| SelectsMode (m : Types.InputMode)
| RecordsFile (f : Js.File)
| ChoosesFile (f : option Js.File)
| TypesText (value : string)
| ClicksProcess
| TranscriptionSettles (tr : Api.FetchOutcome Types.TranscribeResponse)
| ExtractionSettles (er : Api.FetchOutcome Types.ExtractionResponse).

(** One occurrence, given where the call of [runProcess] in flight is
    waiting, if one is; the result is where it waits afterwards.  The
    Process button is disabled while [busy]; a call settles only if it
    is being awaited. *)
Definition occur (o : Occurrence) (waiting : option Await) : Handler (option Await) :=
  match o with
  | SelectsMode m => selectMode m;; mret waiting
  | RecordsFile f => onRecordedFile f;; mret waiting
  | ChoosesFile f => onUploadChange f;; mret waiting
  | TypesText v => onTextChange v;; mret waiting
  | ClicksProcess => s ← get; if busy s then mret waiting else processBegin
  | TranscriptionSettles tr =>
      match waiting with
      | Some AwaitTranscribe => processTranscribed tr
      | _ => mret waiting
      end
  | ExtractionSettles er =>
      match waiting with
      | Some AwaitExtract => processExtracted er
      | _ => mret waiting
      end
  end.

(** The occurrences in order. *)
Fixpoint unfold (os : list Occurrence) (waiting : option Await) : Handler (option Await) :=
  match os with
  | [] => mret waiting
  | o :: rest => w ← occur o waiting; unfold rest w
  end.

End Page.

Module ModeSelector.

Record Item : Type := { key : Types.InputMode; title : string; desc : string }.

Definition items : list Item :=
  [ {| key := Types.record; title := "Live Recording"; desc := "Speak freely (Arabic/English)." |};
    {| key := Types.upload; title := "Audio Upload"; desc := "Upload a voice note or file." |};
    {| key := Types.text; title := "Manual Text"; desc := "Paste or type your idea." |} ].

(** [onClick] of the button of item [it], given the [setMode] prop. *)
Definition onClick {H} (setMode : Types.InputMode -> H) (it : Item) : H := setMode (key it).

(** [it.key === mode] *)
Definition active (mode : Types.InputMode) (it : Item) : bool :=
  match key it, mode with
  | Types.record, Types.record | Types.upload, Types.upload | Types.text, Types.text => true
  | _, _ => false
  end.

End ModeSelector.

(* ===================================================================== *)
(** * components/ThemeToggle.tsx                                          *)
(* ===================================================================== *)

Module ThemeToggle.

(** The hook of the component and the two pieces of the page it touches:
    [localStorage] and the class list of the document element. *)
Record World : Type := mkWorld {
  isDark : bool;
  localStorage : gmap string string;
  classList : gset string;
}.

(** [classList.toggle(cls, force)] *)
Definition classToggle (cls : string) (force : bool) (l : gset string) : gset string :=
  if force then {[ cls ]} ∪ l else l ∖ {[ cls ]}.

(** The component as first rendered on a page: [useState(false)]. *)
Definition render (storage : gmap string string) (classes : gset string) : World :=
  mkWorld false storage classes.

(** The decision of the mount effect:
    [stored ? stored === "dark" : !!prefersDark]. *)
Definition shouldDark (stored : option string) (prefersDark : option bool) : bool :=
  match stored with
  | Some (String _ _ as st) => String.eqb st "dark"
  | _ => default false prefersDark
  end.

(** The mount effect; [prefersDark] is
    [window.matchMedia?.("(prefers-color-scheme: dark)")?.matches]. *)
Definition mount (prefersDark : option bool) (w : World) : World :=
  let dark := shouldDark (localStorage w !! "theme") prefersDark in
  mkWorld dark (localStorage w) (classToggle "dark" dark (classList w)).

Definition toggle (w : World) : World :=
  let next := negb (isDark w) in
  mkWorld next
    (<["theme" := if next then "dark" else "light"]> (localStorage w))
    (classToggle "dark" next (classList w)).

(** The caption of the button. *)
Definition caption (w : World) : string := if isDark w then "Dark" else "Light".

End ThemeToggle.

(* ===================================================================== *)
(** * The specification's vocabulary                                      *)
(* ===================================================================== *)

(** Notions the prose specification uses, written after its words so that
    they can be compared with what the components compute. *)
Module Spec.

(** "Non-empty", read to the letter: a string field is non-empty when it
    is not the empty string; any other value counts as the form counts it. *)
Definition nonEmpty (v : Js.value) : bool :=
  match v with
  | Js.Str s => negb (String.eqb s "")
  | _ => Js.truthy v
  end.

Definition nonEmptyCount (d : Types.DraftIdea) : nat :=
  List.length
    (List.filter (fun f => nonEmpty (Types.getField d f)) IdeaForm.REQUIRED_FIELDS).

(** "100 * (# non-empty required fields) / 6, rounded to nearest integer". *)
Definition completeness (d : Types.DraftIdea) : Z :=
  Js.Math_round (100 * inject_Z (Z.of_nat (nonEmptyCount d)) / 6).

(** "The empty required fields". *)
Definition emptyFields (d : Types.DraftIdea) : list string :=
  List.filter (fun f => negb (nonEmpty (Types.getField d f))) IdeaForm.REQUIRED_FIELDS.

(** The characters of a text: the code points its bytes encode.  A byte
    that starts no well-formed sequence reads as U+FFFD. *)
Fixpoint codePoints (s : string) : list N :=
  match s with
  | EmptyString => []
  | String a r1 =>
      match Js.codePoint1 a with
      | Some cp => cp :: codePoints r1
      | None =>
          match r1 with
          | EmptyString => [65533%N]
          | String b r2 =>
              match Js.codePoint2 a b with
              | Some cp => cp :: codePoints r2
              | None =>
                  match r2 with
                  | EmptyString => 65533%N :: codePoints r1
                  | String c r3 =>
                      match Js.codePoint3 a b c with
                      | Some cp => cp :: codePoints r3
                      | None =>
                          match r3 with
                          | EmptyString => 65533%N :: codePoints r1
                          | String d r4 =>
                              match Js.codePoint4 a b c d with
                              | Some cp => cp :: codePoints r4
                              | None => 65533%N :: codePoints r1
                              end
                          end
                      end
                  end
              end
          end
      end
  end.

(** "Consists only of whitespace characters": every character is white
    space. *)
Definition onlyWhiteSpace (s : string) : bool :=
  forallb Js.isWhiteSpace (codePoints s).

(** What follows the white-space character a text starts with, if it
    starts with one. *)
Definition afterWhiteSpace (s : string) : option string :=
  match s with
  | EmptyString => None
  | String a r1 =>
      match Js.codePoint1 a with
      | Some cp => if Js.isWhiteSpace cp then Some r1 else None
      | None =>
          match r1 with
          | EmptyString => None
          | String b r2 =>
              match Js.codePoint2 a b with
              | Some cp => if Js.isWhiteSpace cp then Some r2 else None
              | None =>
                  match r2 with
                  | EmptyString => None
                  | String c r3 =>
                      match Js.codePoint3 a b c with
                      | Some cp => if Js.isWhiteSpace cp then Some r3 else None
                      | None => None
                      end
                  end
              end
          end
      end
  end.

(** [f] holds of [k], [k + 1], ..., [k + fuel - 1]. *)
Fixpoint allFrom (f : N -> bool) (k : N) (fuel : nat) : bool :=
  match fuel with
  | O => true
  | S m => f k && allFrom f (N.succ k) m
  end.

(** The device stream the recorder component holds, if any. *)
Definition held (s : AudioRecorder.State) : list AudioRecorder.MediaStream :=
  match AudioRecorder.streamRef s with
  | Some stream => [stream]
  | None => []
  end.

(** The chunks a recorder keeps: those that carry data. *)
Definition kept (chunks : list Js.Blob) : list Js.Blob :=
  List.filter (fun c => (0 <? Js.blob_size c)%nat) chunks.

(** The interval the recorder component keeps running, if any. *)
Definition ticking (s : AudioRecorder.State) : list positive :=
  match AudioRecorder.timerRef s with
  | Some id => [id]
  | None => []
  end.

(** The seconds counter agrees with the recording flag: an interval
    runs exactly while the component says it is recording. *)
Definition display (s : AudioRecorder.State) : Prop :=
  if AudioRecorder.isRecording s
  then is_Some (AudioRecorder.timerRef s)
  else AudioRecorder.timerRef s = None.

(** [z] is an integer nearest to the fraction [num / den], for [0 < den]. *)
Definition nearestInteger (num den z : Z) : Prop :=
  (2 * Z.abs (den * z - num) <= den)%Z.

End Spec.

(** Concrete inputs used to exercise the statements below. *)
Module Examples.

(** The scenario of the specification: only the title is empty. *)
Definition emptyTitle : Types.DraftIdea := IdeaForm.mkDraft "" "x" "x" "x" "x" "x".

(** The title is one space. *)
Definition blankTitle : Types.DraftIdea := IdeaForm.mkDraft " " "x" "x" "x" "x" "x".

(** The title is one no-break space, U+00A0. *)
Definition nbspTitle : Types.DraftIdea := IdeaForm.mkDraft (Js.utf8 160) "x" "x" "x" "x" "x".

(** The title is empty and the summary is one space. *)
Definition blankSummary : Types.DraftIdea := IdeaForm.mkDraft "" " " "x" "x" "x" "x".

Definition complete : Types.DraftIdea := IdeaForm.mkDraft "a" "b" "c" "d" "e" "f".

Definition props (d : Types.DraftIdea) : IdeaForm.Props :=
  {| IdeaForm.transcript := "an idea";
     IdeaForm.language := Some "en";
     IdeaForm.dialect_hint := None;
     IdeaForm.extraction :=
       {| Types.draft := d;
          Types.field_meta := Some {[ "title" := {| Types.status := Types.guessed;
                                                    Types.confidence := 1 # 2 |} ]};
          Types.missing_fields := Some ["title"];
          Types.questions := Some ["What is the title?"] |} |}.

Definition form (d : Types.DraftIdea) : IdeaForm.State := IdeaForm.init (props d).

Definition answered (d : Types.DraftIdea) : IdeaForm.State :=
  IdeaForm.setAnswersText "Call it Lantern" (form d).

Definition clarified : Types.ExtractionResponse :=
  {| Types.draft := complete;
     Types.field_meta := None;
     Types.missing_fields := Some [];
     Types.questions := Some [] |}.

Definition reply {T} (status : Z) (statusText : string) (body : option string)
    (json : Js.Error + T) : Api.FetchOutcome T :=
  Api.Fulfilled
    {| Api.status := status; Api.statusText := statusText;
       Api.text := body; Api.json := json |}.

Definition submitted : Api.FetchOutcome Types.SubmitResponse :=
  reply 200 "OK" None (inr {| Types.id := "42" |}).

(** A browser that records WebM only. *)
Definition webmOnly : AudioRecorder.Browser :=
  {| AudioRecorder.mediaRecorderDefined := true;
     AudioRecorder.isTypeSupported := Some (fun c => Js.includes c "webm") |}.

Definition chunk : Js.Blob := Js.mkBlob [Byte.x52; Byte.x49] "".

(** A browser that supports none of the candidate types. *)
Definition noCandidate : AudioRecorder.Browser :=
  {| AudioRecorder.mediaRecorderDefined := true;
     AudioRecorder.isTypeSupported := Some (fun _ => false) |}.

(** The browser's side of a request that is granted stream [n], with a
    recorder that is built and starts. *)
Definition granted (n : nat) : AudioRecorder.Env :=
  {| AudioRecorder.media := inr n;
     AudioRecorder.constructorThrows := None;
     AudioRecorder.startThrows := None;
     AudioRecorder.defaultMimeType := "";
     AudioRecorder.timer := 7%positive;
     AudioRecorder.finalData := chunk |}.

(** The same, with a browser whose recorders report audio/mp4 when built
    without a type. *)
Definition grantedMp4 (n : nat) : AudioRecorder.Env :=
  {| AudioRecorder.media := inr n;
     AudioRecorder.constructorThrows := None;
     AudioRecorder.startThrows := None;
     AudioRecorder.defaultMimeType := "audio/mp4";
     AudioRecorder.timer := 7%positive;
     AudioRecorder.finalData := chunk |}.

(** The request is granted stream [n], but the recorder cannot be
    built. *)
Definition unbuildable (n : nat) : AudioRecorder.Env :=
  {| AudioRecorder.media := inr n;
     AudioRecorder.constructorThrows := Some (Js.mkError "NotSupportedError");
     AudioRecorder.startThrows := None;
     AudioRecorder.defaultMimeType := "";
     AudioRecorder.timer := 7%positive;
     AudioRecorder.finalData := chunk |}.

End Examples.

(* ===================================================================== *)
(** * Proof automation                                                    *)
(* ===================================================================== *)

(** Runs a handler symbolically: unfolds the monad and the setters. *)
Ltac run_handler :=
  cbv [mbind mret Handler.handler_bind Handler.handler_ret Handler.bind Handler.ret
       Handler.get Handler.modify Handler.emit Handler.state_of Handler.effects_of];
  cbn [fst snd List.app].

(** Case analysis on a scrutinee that is not itself a case analysis. *)
Ltac break_inner :=
  match goal with
  | |- context [match ?x with _ => _ end] =>
      lazymatch x with
      | context [match _ with _ => _ end] => fail
      | _ => destruct x eqn:?
      end
  end.

(* ===================================================================== *)
(** * Facts about the ECMAScript fragment                                 *)
(* ===================================================================== *)

Lemma prefix_app (n c : string) : String.prefix n (n ++ c) = true.
Proof.
  induction n as [|a n IH]; simpl; [destruct c; reflexivity|].
  destruct (ascii_dec a a); [exact IH | congruence].
Qed.

Lemma includes_unfold (h n : string) :
  Js.includes h n
  = String.prefix n h
    || match h with EmptyString => false | String _ r => Js.includes r n end.
Proof. destruct h; reflexivity. Qed.

(** A string includes any string it was built around. *)
Lemma includes_middle (a n c : string) : Js.includes (a ++ n ++ c) n = true.
Proof.
  induction a as [|x a IH].
  - change ("" ++ n ++ c) with (n ++ c).
    rewrite includes_unfold, prefix_app. reflexivity.
  - change (String x a ++ n ++ c) with (String x (a ++ n ++ c)).
    rewrite includes_unfold, IH. apply orb_true_r.
Qed.

Lemma append_nil_r (a : string) : a ++ "" = a.
Proof.
  induction a as [|x a IH]; [reflexivity|].
  change (String x (a ++ "") = String x a). rewrite IH. reflexivity.
Qed.

Lemma append_assoc (a b c : string) : (a ++ b) ++ c = a ++ b ++ c.
Proof.
  induction a as [|x a IH]; [reflexivity|].
  change (String x ((a ++ b) ++ c) = String x (a ++ b ++ c)). rewrite IH. reflexivity.
Qed.

(** Induction on the length of a string. *)
Lemma string_len_ind (P : string -> Prop) :
  (forall s, (forall t, (String.length t < String.length s)%nat -> P t) -> P s) ->
  forall s, P s.
Proof.
  intros H s. remember (String.length s) as n eqn:Hn.
  revert s Hn. induction n as [n IH] using lt_wf_ind.
  intros s ->. apply H. intros t Ht. eapply IH; [exact Ht | reflexivity].
Qed.

(** No code point of four bytes is white space. *)
Lemma codePoint4_not_white (a b c d : ascii) (cp : N) :
  Js.codePoint4 a b c d = Some cp -> Js.isWhiteSpace cp = false.
Proof.
  unfold Js.codePoint4.
  destruct (_ && _ && _ && _); [|discriminate].
  cbv zeta. destruct (_ && _) eqn:E; [|discriminate].
  intros [= <-]. apply andb_true_iff in E as [E1 E2]. apply N.leb_le in E1.
  unfold Js.isWhiteSpace.
  repeat match goal with
  | |- context [(?x =? ?y)%N] => destruct (N.eqb_spec x y); [lia|]
  | |- context [(?x <=? ?y)%N] => destruct (N.leb_spec x y); try lia
  end; reflexivity.
Qed.

(** The test [trimEnd] applies is the specification's: every character
    is white space. *)
Lemma isBlank_spec (s : string) : Js.isBlank s = Spec.onlyWhiteSpace s.
Proof.
  unfold Spec.onlyWhiteSpace.
  induction s as [s IH] using string_len_ind.
  destruct s as [|a r1]; [reflexivity|].
  cbn [Js.isBlank Spec.codePoints].
  destruct (Js.codePoint1 a) as [cp|] eqn:E1; cbn [forallb].
  { rewrite <- IH by (cbn; lia). reflexivity. }
  destruct r1 as [|b r2]; [reflexivity|].
  destruct (Js.codePoint2 a b) as [cp|] eqn:E2; cbn [forallb].
  { rewrite <- IH by (cbn; lia). reflexivity. }
  destruct r2 as [|c r3]; [reflexivity|].
  destruct (Js.codePoint3 a b c) as [cp|] eqn:E3; cbn [forallb].
  { rewrite <- IH by (cbn; lia). reflexivity. }
  destruct r3 as [|d r4]; [reflexivity|].
  destruct (Js.codePoint4 a b c d) as [cp|] eqn:E4; cbn [forallb].
  { rewrite (codePoint4_not_white _ _ _ _ _ E4). reflexivity. }
  reflexivity.
Qed.

Lemma trimStart_unfold (s : string) :
  Js.trimStart s
  = match Spec.afterWhiteSpace s with Some r => Js.trimStart r | None => s end.
Proof.
  destruct s as [|a r1]; [reflexivity|].
  cbn [Js.trimStart Spec.afterWhiteSpace].
  destruct (Js.codePoint1 a) as [cp|]; [destruct (Js.isWhiteSpace cp); reflexivity|].
  destruct r1 as [|b r2]; [reflexivity|].
  destruct (Js.codePoint2 a b) as [cp|]; [destruct (Js.isWhiteSpace cp); reflexivity|].
  destruct r2 as [|c r3]; [reflexivity|].
  destruct (Js.codePoint3 a b c) as [cp|]; [destruct (Js.isWhiteSpace cp); reflexivity|].
  reflexivity.
Qed.

Lemma isBlank_unfold (s : string) :
  Js.isBlank s
  = match s with
    | EmptyString => true
    | _ => match Spec.afterWhiteSpace s with Some r => Js.isBlank r | None => false end
    end.
Proof.
  destruct s as [|a r1]; [reflexivity|].
  cbn [Js.isBlank Spec.afterWhiteSpace].
  destruct (Js.codePoint1 a) as [cp|]; [destruct (Js.isWhiteSpace cp); reflexivity|].
  destruct r1 as [|b r2]; [reflexivity|].
  destruct (Js.codePoint2 a b) as [cp|]; [destruct (Js.isWhiteSpace cp); reflexivity|].
  destruct r2 as [|c r3]; [reflexivity|].
  destruct (Js.codePoint3 a b c) as [cp|]; [destruct (Js.isWhiteSpace cp); reflexivity|].
  reflexivity.
Qed.

(** A text that starts with a white-space character is that character
    followed by the rest, and so is any text that extends it. *)
Lemma afterWhiteSpace_split (s r : string) :
  Spec.afterWhiteSpace s = Some r ->
  exists p, s = p ++ r /\ (String.length r < String.length s)%nat
            /\ forall x, Spec.afterWhiteSpace (p ++ x) = Some x.
Proof.
  destruct s as [|a r1]; [discriminate|]. cbn [Spec.afterWhiteSpace].
  destruct (Js.codePoint1 a) as [cp|] eqn:E1.
  { destruct (Js.isWhiteSpace cp) eqn:W; [|discriminate]. intros [= <-].
    exists (String a ""). split_and!; [reflexivity | cbn; lia |].
    intros x. change (String a "" ++ x) with (String a x).
    cbn [Spec.afterWhiteSpace]. rewrite E1, W. reflexivity. }
  destruct r1 as [|b r2]; [discriminate|].
  destruct (Js.codePoint2 a b) as [cp|] eqn:E2.
  { destruct (Js.isWhiteSpace cp) eqn:W; [|discriminate]. intros [= <-].
    exists (String a (String b "")). split_and!; [reflexivity | cbn; lia |].
    intros x. change (String a (String b "") ++ x) with (String a (String b x)).
    cbn [Spec.afterWhiteSpace]. rewrite E1, E2, W. reflexivity. }
  destruct r2 as [|c r3]; [discriminate|].
  destruct (Js.codePoint3 a b c) as [cp|] eqn:E3; [|discriminate].
  destruct (Js.isWhiteSpace cp) eqn:W; [|discriminate]. intros [= <-].
  exists (String a (String b (String c ""))). split_and!; [reflexivity | cbn; lia |].
  intros x.
  change (String a (String b (String c "")) ++ x) with (String a (String b (String c x))).
  cbn [Spec.afterWhiteSpace]. rewrite E1, E2, E3, W. reflexivity.
Qed.

Lemma trimStart_blank (s : string) : Js.isBlank s = true -> Js.trimStart s = "".
Proof.
  induction s as [s IH] using string_len_ind.
  rewrite isBlank_unfold, trimStart_unfold.
  destruct s as [|a r1]; [reflexivity|].
  destruct (Spec.afterWhiteSpace (String a r1)) as [r|] eqn:E; [|discriminate].
  apply afterWhiteSpace_split in E as (p & _ & Hlen & _).
  intros H. apply IH; assumption.
Qed.

(** What [trimStart] returns does not start with white space. *)
Lemma trimStart_fixed (s : string) : Spec.afterWhiteSpace (Js.trimStart s) = None.
Proof.
  induction s as [s IH] using string_len_ind.
  rewrite trimStart_unfold.
  destruct (Spec.afterWhiteSpace s) as [r|] eqn:E; [|exact E].
  apply afterWhiteSpace_split in E as (p & _ & Hlen & _).
  apply IH; assumption.
Qed.

Lemma trimStart_suffix (s : string) : exists a, s = a ++ Js.trimStart s.
Proof.
  induction s as [s IH] using string_len_ind.
  rewrite trimStart_unfold.
  destruct (Spec.afterWhiteSpace s) as [r|] eqn:E; [|exists ""; reflexivity].
  apply afterWhiteSpace_split in E as (p & -> & Hlen & _).
  destruct (IH r Hlen) as [a Ha].
  exists (p ++ a). rewrite append_assoc, <- Ha. reflexivity.
Qed.

Lemma isBlank_starts (s : string) :
  Js.isBlank s = true -> s <> "" -> Spec.afterWhiteSpace s <> None.
Proof.
  rewrite isBlank_unfold. destruct s; [congruence|].
  destruct (Spec.afterWhiteSpace _); discriminate.
Qed.

Lemma trimEnd_empty (s : string) : Js.trimEnd s = "" <-> Js.isBlank s = true.
Proof.
  destruct s as [|c r]; [cbn; tauto|].
  cbn [Js.trimEnd]. destruct (Js.isBlank (String c r)); split; congruence.
Qed.

Lemma trimEnd_prefix (s : string) : exists c, s = Js.trimEnd s ++ c.
Proof.
  induction s as [|x r IH]; [exists ""; reflexivity|].
  cbn [Js.trimEnd]. destruct (Js.isBlank (String x r)).
  - exists (String x r). reflexivity.
  - destruct IH as [c Hc]. exists c.
    change (String x r = String x (Js.trimEnd r ++ c)). rewrite <- Hc. reflexivity.
Qed.

(** [trim] returns the empty string exactly on white-space-only input. *)
Lemma trim_empty_iff (s : string) :
  Js.trim s = "" <-> Spec.onlyWhiteSpace s = true.
Proof.
  rewrite <- isBlank_spec. unfold Js.trim. rewrite trimEnd_empty. split.
  - intros H.
    destruct (string_dec (Js.trimStart s) "") as [E|E].
    + clear H. revert E. induction s as [s IH] using string_len_ind.
      rewrite trimStart_unfold, isBlank_unfold.
      destruct (Spec.afterWhiteSpace s) as [r|] eqn:A.
      * apply afterWhiteSpace_split in A as (p & _ & Hlen & _).
        intros H. destruct s; [reflexivity|]. apply IH; assumption.
      * intros ->. reflexivity.
    + exfalso. apply (isBlank_starts _ H E). apply trimStart_fixed.
  - intros H. rewrite (trimStart_blank _ H). reflexivity.
Qed.

(** What [trim] returns, when not empty, is not white space only. *)
Lemma trim_nonblank (t : string) :
  Js.trim t <> "" -> Spec.onlyWhiteSpace (Js.trim t) = false.
Proof.
  intros Hne. rewrite <- isBlank_spec.
  destruct (Js.isBlank (Js.trim t)) eqn:B; [exfalso | reflexivity].
  pose proof (isBlank_starts _ B Hne) as Hs.
  destruct (Spec.afterWhiteSpace (Js.trim t)) as [r|] eqn:A; [|congruence].
  apply afterWhiteSpace_split in A as (p & Hp & _ & Hx).
  destruct (trimEnd_prefix (Js.trimStart t)) as [c Hc].
  pose proof (trimStart_fixed t) as F.
  rewrite Hc in F. unfold Js.trim in Hp. rewrite Hp, append_assoc, Hx in F.
  discriminate.
Qed.

(** [trim] on text with white space outside ASCII: a no-break space, a
    byte order mark and an ideographic space are stripped at the ends and
    kept inside; a zero-width space, U+200B, is not white space. *)
Lemma trim_beyond_ascii :
  Js.trim (Js.utf8 160 ++ " a" ++ Js.utf8 160 ++ "b" ++ Js.utf8 65279 ++ Js.utf8 12288)
  = "a" ++ Js.utf8 160 ++ "b"
  /\ Js.trim (Js.utf8 8203) = Js.utf8 8203
  /\ Js.trim (Js.utf8 8232 ++ Js.utf8 5760 ++ Js.utf8 8202) = "".
Proof. split_and!; vm_compute; reflexivity. Qed.

Lemma codePoint1_byte (a : ascii) :
  (Js.byte a < 128)%N -> Js.codePoint1 a = Some (Js.byte a).
Proof. unfold Js.codePoint1. intros H. apply N.ltb_lt in H. rewrite H. reflexivity. Qed.

Lemma codePoint1_none (a : ascii) : Js.codePoint1 a = None -> (128 <= Js.byte a)%N.
Proof.
  unfold Js.codePoint1. destruct (N.ltb_spec (Js.byte a) 128); [discriminate | auto].
Qed.

Lemma isContinuation_high (a : ascii) :
  Js.isContinuation a = true -> (128 <= Js.byte a)%N.
Proof.
  unfold Js.isContinuation. intros H. apply andb_true_iff in H as [H _].
  apply N.leb_le, H.
Qed.

Lemma codePoint2_high (a b : ascii) (cp : N) :
  Js.codePoint2 a b = Some cp -> (128 <= Js.byte b)%N.
Proof.
  unfold Js.codePoint2. destruct (_ && _ && Js.isContinuation b) eqn:E; [|discriminate].
  intros _. apply andb_true_iff in E as [_ E]. apply isContinuation_high, E.
Qed.

Lemma codePoint3_high (a b c : ascii) (cp : N) :
  Js.codePoint3 a b c = Some cp -> (128 <= Js.byte b)%N /\ (128 <= Js.byte c)%N.
Proof.
  unfold Js.codePoint3.
  destruct (_ && _ && Js.isContinuation b && Js.isContinuation c) eqn:E; [|discriminate].
  intros _. apply andb_true_iff in E as [E E3]. apply andb_true_iff in E as [_ E2].
  split; apply isContinuation_high; assumption.
Qed.

(** The ASCII bytes of a white-space-only text are ASCII white space. *)
Lemma isBlank_bytes (s : string) :
  Js.isBlank s = true ->
  forall c, In c (list_ascii_of_string s) ->
            (Js.byte c < 128)%N -> Js.isWhiteSpace (Js.byte c) = true.
Proof.
  induction s as [s IH] using string_len_ind.
  destruct s as [|a r1]; [intros _ c []|].
  cbn [Js.isBlank].
  destruct (Js.codePoint1 a) as [cp|] eqn:E1.
  { intros H. apply andb_true_iff in H as [W B].
    intros c [<-|Hc] Hlt.
    - rewrite codePoint1_byte in E1 by assumption. injection E1 as ->. exact W.
    - apply (IH r1); [cbn; lia | assumption..]. }
  apply codePoint1_none in E1.
  destruct r1 as [|b r2]; [discriminate|].
  destruct (Js.codePoint2 a b) as [cp|] eqn:E2.
  { intros H. apply andb_true_iff in H as [W B].
    apply codePoint2_high in E2.
    intros c [<-|[<-|Hc]] Hlt; [lia | lia |].
    apply (IH r2); [cbn; lia | assumption..]. }
  destruct r2 as [|c r3]; [discriminate|].
  destruct (Js.codePoint3 a b c) as [cp|] eqn:E3; [|discriminate].
  intros H. apply andb_true_iff in H as [W B].
  apply codePoint3_high in E3 as [? ?].
  intros x [<-|[<-|[<-|Hc]]] Hlt; [lia | lia | lia |].
  apply (IH r3); [cbn; lia | assumption..].
Qed.

Lemma list_ascii_of_string_app (a b : string) :
  list_ascii_of_string (a ++ b)
  = (list_ascii_of_string a ++ list_ascii_of_string b)%list.
Proof.
  induction a as [|c a IH]; [reflexivity|].
  change (c :: list_ascii_of_string (a ++ b)
          = c :: (list_ascii_of_string a ++ list_ascii_of_string b)%list).
  rewrite IH. reflexivity.
Qed.

Lemma allFrom_spec (f : N -> bool) (fuel : nat) : forall k,
  Spec.allFrom f k fuel = true ->
  forall x, (k <= x)%N -> (x < k + N.of_nat fuel)%N -> f x = true.
Proof.
  induction fuel as [|m IH]; intros k H x Hk Hx; [lia|].
  cbn [Spec.allFrom] in H. apply andb_true_iff in H as [H0 H1].
  destruct (N.eq_dec x k) as [->|Hne]; [assumption|].
  apply (IH (N.succ k)); [assumption | lia | lia].
Qed.

(** The model of [trim] against the table of ECMAScript: the text of one
    code point of the Basic Multilingual Plane is white space exactly
    when the code point is in the table. *)
Lemma onlyWhiteSpace_utf8 (cp : N) :
  (cp < 65536)%N -> Spec.onlyWhiteSpace (Js.utf8 cp) = Js.isWhiteSpace cp.
Proof.
  intros H. rewrite <- isBlank_spec.
  assert (A : Spec.allFrom
                (fun cp => Bool.eqb (Js.isBlank (Js.utf8 cp)) (Js.isWhiteSpace cp))
                0 (N.to_nat 65536) = true) by (vm_compute; reflexivity).
  apply Bool.eqb_prop.
  apply (allFrom_spec _ _ _ A); [lia|].
  rewrite N2Nat.id. exact H.
Qed.

(** A joined list is built around each of its members. *)
Lemma join_In (sep x : string) (l : list string) :
  In x l -> exists a c, Js.join sep l = a ++ x ++ c.
Proof.
  induction l as [|p ps IH]; [intros []|].
  intros [->|Hin].
  - destruct ps as [|q ps].
    + exists "", "". simpl. rewrite append_nil_r. reflexivity.
    + exists "", (sep ++ Js.join sep (q :: ps)). reflexivity.
  - destruct (IH Hin) as (a & c & E). destruct ps as [|q ps]; [destruct Hin|].
    exists (p ++ sep ++ a), c.
    change (Js.join sep (p :: q :: ps)) with (p ++ sep ++ Js.join sep (q :: ps)).
    rewrite E, !append_assoc. reflexivity.
Qed.

(* ===================================================================== *)
(** * The draft form: completeness and the submission guard              *)
(* ===================================================================== *)

Lemma filter_length_le {A} (f : A -> bool) (l : list A) :
  (List.length (List.filter f l) <= List.length l)%nat.
Proof.
  induction l as [|a l IH]; simpl; [lia|]. destruct (f a); simpl; lia.
Qed.

Lemma have_le_6 (d : Types.DraftIdea) : (IdeaForm.have d <= 6)%nat.
Proof. unfold IdeaForm.have. apply (filter_length_le _ IdeaForm.REQUIRED_FIELDS). Qed.

Lemma getField_insert (d : Types.DraftIdea) (f g : string) (v : Js.value) :
  Types.getField (<[f := v]> d) g = if decide (f = g) then v else Types.getField d g.
Proof.
  unfold Types.getField. rewrite lookup_insert.
  destruct (decide (f = g)); reflexivity.
Qed.

(** Whether a string field passes the form's test depends only on whether
    it consists of white space. *)
Lemma isFilled_Str (s : string) :
  IdeaForm.isFilled (Js.Str s) = negb (Spec.onlyWhiteSpace s).
Proof.
  simpl. destruct (Spec.onlyWhiteSpace s) eqn:H.
  - apply trim_empty_iff in H. rewrite H. reflexivity.
  - destruct (Js.trim s) eqn:E; [|reflexivity].
    apply trim_empty_iff in E. congruence.
Qed.

(** Replacing a field by a value the test judges alike changes neither memo. *)
Lemma filter_insert_same (d : Types.DraftIdea) (f : string) (v : Js.value)
    (P : Js.value -> bool) (l : list string) :
  P v = P (Types.getField d f) ->
  List.filter (fun g => P (Types.getField (<[f := v]> d) g)) l
  = List.filter (fun g => P (Types.getField d g)) l.
Proof.
  intros H. induction l as [|g l IH]; simpl; [reflexivity|].
  rewrite getField_insert. destruct (decide (f = g)) as [->|_].
  - rewrite H, IH. reflexivity.
  - rewrite IH. reflexivity.
Qed.

Lemma stillMissing_spec (d : Types.DraftIdea) (f : string) :
  In f (IdeaForm.stillMissing d)
  <-> In f IdeaForm.REQUIRED_FIELDS /\ IdeaForm.isFilled (Types.getField d f) = false.
Proof.
  unfold IdeaForm.stillMissing. rewrite List.filter_In, negb_true_iff. reflexivity.
Qed.

Lemma completeness_of_have (d : Types.DraftIdea) :
  IdeaForm.completeness d
  = List.nth (IdeaForm.have d) [0; 17; 33; 50; 67; 83; 100]%Z 0%Z.
Proof.
  unfold IdeaForm.completeness. pose proof (have_le_6 d) as H.
  destruct (IdeaForm.have d) as [|[|[|[|[|[|[|n]]]]]]]; try reflexivity. lia.
Qed.

Lemma getField_mkDraft (t s p ps ta ei : string) :
  List.map (Types.getField (IdeaForm.mkDraft t s p ps ta ei)) IdeaForm.REQUIRED_FIELDS
  = [Js.Str t; Js.Str s; Js.Str p; Js.Str ps; Js.Str ta; Js.Str ei].
Proof.
  unfold IdeaForm.mkDraft, IdeaForm.REQUIRED_FIELDS, Types.getField. cbn [List.map].
  repeat (rewrite lookup_insert; cbn [decide]).
  vm_compute. reflexivity.
Qed.

Lemma filter_map_length {A B} (P : B -> bool) (g : A -> B) (l : list A) :
  List.length (List.filter (fun a => P (g a)) l)
  = List.length (List.filter P (List.map g l)).
Proof.
  induction l as [|a l IH]; simpl; [reflexivity|].
  destruct (P (g a)); simpl; rewrite IH; reflexivity.
Qed.

Lemma have_mkDraft (t s p ps ta ei : string) :
  IdeaForm.have (IdeaForm.mkDraft t s p ps ta ei)
  = List.length (List.filter IdeaForm.isFilled
                   [Js.Str t; Js.Str s; Js.Str p; Js.Str ps; Js.Str ta; Js.Str ei]).
Proof.
  unfold IdeaForm.have.
  rewrite (filter_map_length IdeaForm.isFilled), getField_mkDraft. reflexivity.
Qed.

(** C2, as stated, fails on a draft whose title is a single space: the
    title is not the empty string, so all six required fields are
    non-empty and the stated formula gives 100, while the form shows 83. *)
Lemma C2_counterexample :
  Spec.nonEmptyCount Examples.blankTitle = 6%nat
  /\ Spec.completeness Examples.blankTitle = 100%Z
  /\ IdeaForm.completeness Examples.blankTitle = 83%Z
  /\ IdeaForm.completeness Examples.blankTitle <> Spec.completeness Examples.blankTitle.
Proof. repeat split; try (vm_compute; reflexivity). vm_compute. discriminate. Qed.

(** C2, amended: for every draft the completeness shown by the form is
    [Math.round] of 100 * k / 6, an integer nearest to that fraction, where
    k is the number of required fields (title, summary, problem,
    proposed_solution, target_audience, expected_impact) that are
    non-empty after trimming white space (a field holding something other
    than a string counts when the value is truthy); in particular a draft
    with an empty title and five required fields that are not blank
    yields 83. *)
Theorem C2_completeness (d : Types.DraftIdea) (s p ps ta ei : string) :
  Spec.onlyWhiteSpace s = false -> Spec.onlyWhiteSpace p = false ->
  Spec.onlyWhiteSpace ps = false -> Spec.onlyWhiteSpace ta = false ->
  Spec.onlyWhiteSpace ei = false ->
  IdeaForm.completeness d
    = Js.Math_round (100 * inject_Z (Z.of_nat (IdeaForm.have d)) / 6)
  /\ Spec.nearestInteger (100 * Z.of_nat (IdeaForm.have d)) 6 (IdeaForm.completeness d)
  /\ IdeaForm.have d
     = List.length
         (List.filter
            (fun f => match Types.getField d f with
                      | Js.Str v => negb (Spec.onlyWhiteSpace v)
                      | v => Js.truthy v
                      end)
            IdeaForm.REQUIRED_FIELDS)
  /\ IdeaForm.completeness (IdeaForm.mkDraft "" s p ps ta ei) = 83%Z.
Proof.
  intros Hs Hp Hps Hta Hei. split; [|split; [|split]].
  - rewrite completeness_of_have. pose proof (have_le_6 d) as H.
    destruct (IdeaForm.have d) as [|[|[|[|[|[|[|n]]]]]]]; try reflexivity. lia.
  - rewrite completeness_of_have. pose proof (have_le_6 d) as H.
    unfold Spec.nearestInteger.
    destruct (IdeaForm.have d) as [|[|[|[|[|[|[|n]]]]]]]; simpl; lia.
  - unfold IdeaForm.have. f_equal. apply List.filter_ext. intros f.
    destruct (Types.getField d f); try reflexivity. apply isFilled_Str.
  - rewrite completeness_of_have, have_mkDraft. cbn [List.filter].
    rewrite !isFilled_Str, Hs, Hp, Hps, Hta, Hei. reflexivity.
Qed.

Lemma C2_completeness_witness :
  IdeaForm.completeness Examples.emptyTitle = 83%Z
  /\ IdeaForm.completeness Examples.complete = 100%Z.
Proof.
  split.
  - apply (C2_completeness Examples.complete "x" "x" "x" "x" "x"); reflexivity.
  - rewrite (proj1 (C2_completeness Examples.complete "x" "x" "x" "x" "x"
                      eq_refl eq_refl eq_refl eq_refl eq_refl)).
    vm_compute. reflexivity.
Defined.

Lemma stillMissing_nonempty (d : Types.DraftIdea) (f : string) :
  In f IdeaForm.REQUIRED_FIELDS ->
  IdeaForm.isFilled (Types.getField d f) = false ->
  (0 <? List.length (IdeaForm.stillMissing d))%nat = true.
Proof.
  intros Hf Hb. apply Nat.ltb_lt.
  assert (H : In f (IdeaForm.stillMissing d)) by (apply stillMissing_spec; auto).
  destruct (IdeaForm.stillMissing d); [destruct H | simpl; lia].
Qed.

(** [runSubmit] stopped by its guard: a toast and nothing else. *)
Lemma runSubmit_blocked (p : IdeaForm.Props)
    (reply : Api.FetchOutcome Types.SubmitResponse) (s : IdeaForm.State) :
  (0 <? List.length (IdeaForm.stillMissing (IdeaForm.draft s)))%nat = true ->
  IdeaForm.runSubmit p reply s
  = (tt,
     IdeaForm.setToast
       (Some {| IdeaForm.type := IdeaForm.err;
                IdeaForm.text :=
                  "Missing required fields: "
                  ++ Js.join ", " (List.map IdeaForm.labelOf
                                     (IdeaForm.stillMissing (IdeaForm.draft s))) |}) s,
     [IdeaForm.SetTimeout 3500]).
Proof.
  intros H. unfold IdeaForm.runSubmit, IdeaForm.showToast. run_handler.
  rewrite H. reflexivity.
Qed.

Lemma labels_of_required_fields :
  List.map IdeaForm.labelOf IdeaForm.REQUIRED_FIELDS
  = ["Title"; "Summary"; "Problem"; "Proposed Solution";
     "Target Audience"; "Expected Impact"].
Proof. reflexivity. Qed.

Lemma required_fields_NoDup : List.NoDup IdeaForm.REQUIRED_FIELDS.
Proof.
  unfold IdeaForm.REQUIRED_FIELDS.
  repeat (apply List.NoDup_cons; [simpl; intuition discriminate|]).
  apply List.NoDup_nil.
Qed.

(** C3, as stated, fails on a draft whose title is empty and whose summary
    is a single space: the only empty required field is the title, yet the
    rejection message names the summary as well. *)
Lemma C3_counterexample :
  Spec.emptyFields Examples.blankSummary = ["title"]
  /\ IdeaForm.toast
       (Handler.state_of
          (IdeaForm.runSubmit (Examples.props Examples.blankSummary) Examples.submitted
             (Examples.form Examples.blankSummary)))
     = Some {| IdeaForm.type := IdeaForm.err;
               IdeaForm.text := "Missing required fields: Title, Summary" |}
  /\ IdeaForm.toast
       (Handler.state_of
          (IdeaForm.runSubmit (Examples.props Examples.blankSummary) Examples.submitted
             (Examples.form Examples.blankSummary)))
     <> Some {| IdeaForm.type := IdeaForm.err;
                IdeaForm.text :=
                  "Missing required fields: "
                  ++ Js.join ", " (List.map IdeaForm.labelOf
                                     (Spec.emptyFields Examples.blankSummary)) |}.
Proof.
  split; [vm_compute; reflexivity|].
  split; [vm_compute; reflexivity|].
  vm_compute. discriminate.
Qed.

(** The form's test on a required field, in the specification's terms: a
    string is blank when it is white space only, any other value when it
    is falsy. *)
Lemma isFilled_blank (v : Js.value) :
  negb (IdeaForm.isFilled v)
  = match v with
    | Js.Str w => Spec.onlyWhiteSpace w
    | _ => negb (Js.truthy v)
    end.
Proof.
  destruct v; try reflexivity. rewrite isFilled_Str. apply negb_involutive.
Qed.

(** C3, amended: for every draft in which at least one of the six required
    fields is blank (a string of white space only, the empty string
    included, or no value), submitting is rejected in the browser: the
    only effect is the timer of the notification, so no request is sent;
    the notification reads "Missing required fields: " followed by the
    labels, separated by ", ", of exactly the blank required fields, in
    the order title, summary, problem, proposed solution, target
    audience, expected impact; the draft and every other piece of form
    state are as before, the notification apart. *)
Theorem C3_submit_blocked (p : IdeaForm.Props)
    (reply : Api.FetchOutcome Types.SubmitResponse) (s : IdeaForm.State) (f : string) :
  let blank := fun g => match Types.getField (IdeaForm.draft s) g with
                        | Js.Str w => Spec.onlyWhiteSpace w
                        | v => negb (Js.truthy v)
                        end in
  let fields := [ "title"; "summary"; "problem"; "proposed_solution";
                  "target_audience"; "expected_impact" ] in
  In f fields ->
  blank f = true ->
  let r := IdeaForm.runSubmit p reply s in
  let missing := List.filter blank fields in
  Handler.effects_of r = [IdeaForm.SetTimeout 3500]
  /\ (forall q, ~ In (IdeaForm.Fetch q) (Handler.effects_of r))
  /\ Handler.state_of r
     = IdeaForm.setToast
         (Some {| IdeaForm.type := IdeaForm.err;
                  IdeaForm.text :=
                    "Missing required fields: "
                    ++ Js.join ", " (List.map IdeaForm.labelOf missing) |}) s
  /\ In f missing
  /\ List.map IdeaForm.labelOf fields
     = ["Title"; "Summary"; "Problem"; "Proposed Solution";
        "Target Audience"; "Expected Impact"].
Proof.
  intros blank fields Hf Hb r missing.
  assert (B : forall g, blank g
                        = negb (IdeaForm.isFilled (Types.getField (IdeaForm.draft s) g))).
  { intros g. subst blank. cbv beta. rewrite isFilled_blank.
    destruct (Types.getField (IdeaForm.draft s) g); reflexivity. }
  assert (E : missing = IdeaForm.stillMissing (IdeaForm.draft s)).
  { subst missing. unfold IdeaForm.stillMissing. apply List.filter_ext. exact B. }
  assert (Hb' : IdeaForm.isFilled (Types.getField (IdeaForm.draft s) f) = false).
  { apply negb_true_iff. rewrite <- B. exact Hb. }
  subst r. rewrite E.
  rewrite (runSubmit_blocked p reply s (stillMissing_nonempty _ _ Hf Hb')).
  unfold Handler.effects_of, Handler.state_of. cbn [fst snd].
  split_and!.
  - reflexivity.
  - intros q [H|[]]. discriminate.
  - reflexivity.
  - apply stillMissing_spec. split; assumption.
  - reflexivity.
Qed.

Lemma C3_submit_blocked_witness :
  IdeaForm.toast
    (Handler.state_of
       (IdeaForm.runSubmit (Examples.props Examples.nbspTitle) Examples.submitted
          (Examples.form Examples.nbspTitle)))
  = Some {| IdeaForm.type := IdeaForm.err;
            IdeaForm.text := "Missing required fields: Title" |}.
Proof.
  pose proof (C3_submit_blocked (Examples.props Examples.nbspTitle) Examples.submitted
                (Examples.form Examples.nbspTitle) "title") as H.
  destruct H as (_ & _ & H & _).
  - simpl. auto.
  - vm_compute. reflexivity.
  - rewrite H. vm_compute. reflexivity.
Defined.

Lemma filter_length_lt {A} (P : A -> bool) (l : list A) (a : A) :
  In a l -> P a = false -> (List.length (List.filter P l) < List.length l)%nat.
Proof.
  induction l as [|b l IH]; simpl; [tauto|].
  intros [->|Hin] Ha.
  - rewrite Ha. pose proof (filter_length_le P l). lia.
  - specialize (IH Hin Ha). destruct (P b); simpl; lia.
Qed.

(** C9: a required field holding only white space is treated as empty by
    both memos.  It is in the list of missing fields; it is not among the
    fields counted, so at most five are and the completeness is at most
    83; replacing it by the empty string changes neither the completeness
    nor the list; and submitting such a draft is rejected with no request
    sent and the field's label in the message. *)
Theorem C9_whitespace_is_empty (d : Types.DraftIdea) (f w : string) :
  In f IdeaForm.REQUIRED_FIELDS ->
  d !! f = Some (Js.Str w) ->
  Spec.onlyWhiteSpace w = true ->
  In f (IdeaForm.stillMissing d)
  /\ ~ In f (List.filter (fun g => IdeaForm.isFilled (Types.getField d g))
               IdeaForm.REQUIRED_FIELDS)
  /\ (IdeaForm.have d <= 5)%nat
  /\ (IdeaForm.completeness d <= 83)%Z
  /\ IdeaForm.completeness d = IdeaForm.completeness (<[f := Js.Str ""]> d)
  /\ IdeaForm.stillMissing d = IdeaForm.stillMissing (<[f := Js.Str ""]> d)
  /\ forall p reply s,
       IdeaForm.draft s = d ->
       Handler.effects_of (IdeaForm.runSubmit p reply s) = [IdeaForm.SetTimeout 3500]
       /\ exists msg,
            IdeaForm.toast (Handler.state_of (IdeaForm.runSubmit p reply s))
            = Some {| IdeaForm.type := IdeaForm.err; IdeaForm.text := msg |}
            /\ Js.includes msg (IdeaForm.labelOf f) = true.
Proof.
  intros Hf Hd Hw.
  assert (Hg : Types.getField d f = Js.Str w) by (unfold Types.getField; rewrite Hd; reflexivity).
  assert (Hb : IdeaForm.isFilled (Types.getField d f) = false)
    by (rewrite Hg, isFilled_Str, Hw; reflexivity).
  assert (Hm : In f (IdeaForm.stillMissing d)) by (apply stillMissing_spec; auto).
  assert (H5 : (IdeaForm.have d <= 5)%nat).
  { unfold IdeaForm.have.
    pose proof (filter_length_lt (fun g => IdeaForm.isFilled (Types.getField d g))
                  IdeaForm.REQUIRED_FIELDS f Hf Hb) as H.
    change (List.length IdeaForm.REQUIRED_FIELDS) with 6%nat in H. lia. }
  split_and!.
  - exact Hm.
  - rewrite List.filter_In. intros [_ H]. congruence.
  - exact H5.
  - rewrite completeness_of_have.
    destruct (IdeaForm.have d) as [|[|[|[|[|[|n]]]]]]; simpl; lia.
  - unfold IdeaForm.completeness, IdeaForm.have.
    rewrite (filter_insert_same d f (Js.Str "") IdeaForm.isFilled); [reflexivity|].
    rewrite Hb. reflexivity.
  - unfold IdeaForm.stillMissing.
    rewrite (filter_insert_same d f (Js.Str "") (fun v => negb (IdeaForm.isFilled v)));
      [reflexivity|].
    rewrite Hb. reflexivity.
  - intros p reply s E. subst d.
    rewrite (runSubmit_blocked p reply s (stillMissing_nonempty _ _ Hf Hb)).
    split; [reflexivity|]. eexists. split; [reflexivity|].
    destruct (join_In ", " (IdeaForm.labelOf f)
                (List.map IdeaForm.labelOf (IdeaForm.stillMissing (IdeaForm.draft s))))
      as (a & c & E); [apply List.in_map; exact Hm|].
    rewrite E, <- append_assoc. apply includes_middle.
Qed.

Lemma C9_whitespace_is_empty_witness :
  In "title" (IdeaForm.stillMissing Examples.nbspTitle)
  /\ (IdeaForm.completeness Examples.nbspTitle <= 83)%Z.
Proof.
  pose proof (C9_whitespace_is_empty Examples.nbspTitle "title" (Js.utf8 160)) as H.
  destruct H as (H1 & _ & _ & H2 & _).
  - simpl. auto.
  - vm_compute. reflexivity.
  - vm_compute. reflexivity.
  - split; assumption.
Defined.

(* ===================================================================== *)
(** * The draft form: edits, clarification and remote failures            *)
(* ===================================================================== *)

(** C4: for every field key, every value typed and every prior state,
    [updateField] leaves the field's meta at status confirmed with
    confidence 1, whatever it was before (or absent), and leaves the meta
    of every other key as it was.  The draft gets the new value at that
    key; nothing else changes and nothing is requested of the browser. *)
Theorem C4_updateField_confirms (k : string) (value : Js.value) (s : IdeaForm.State) :
  let r := IdeaForm.updateField k value s in
  let s' := Handler.state_of r in
  IdeaForm.fieldMeta s' !! k
    = Some {| Types.status := Types.confirmed; Types.confidence := 1 |}
  /\ (forall k', k' <> k -> IdeaForm.fieldMeta s' !! k' = IdeaForm.fieldMeta s !! k')
  /\ IdeaForm.draft s' = <[k := value]> (IdeaForm.draft s)
  /\ s' = IdeaForm.setFieldMeta (fun _ => IdeaForm.fieldMeta s')
            (IdeaForm.setDraft (fun _ => IdeaForm.draft s') s)
  /\ Handler.effects_of r = [].
Proof.
  unfold IdeaForm.updateField. run_handler. cbn.
  split_and!; try reflexivity.
  - apply lookup_insert_eq.
  - intros k' Hk. apply lookup_insert_ne. congruence.
Qed.

Lemma C4_updateField_confirms_witness :
  IdeaForm.fieldMeta
    (Handler.state_of
       (IdeaForm.updateField "title" (Js.Str "Lantern") (Examples.form Examples.emptyTitle)))
    !! "summary"
  = IdeaForm.fieldMeta (Examples.form Examples.emptyTitle) !! "summary".
Proof.
  apply (C4_updateField_confirms "title" (Js.Str "Lantern")
           (Examples.form Examples.emptyTitle)).
  discriminate.
Defined.

(** [runClarification] past its guard, by how the call settles. *)
Lemma runClarification_settled (reply : Api.FetchOutcome Types.ExtractionResponse)
    (s : IdeaForm.State) :
  Js.trim (IdeaForm.answersText s) <> "" ->
  IdeaForm.runClarification reply s
  = (tt,
     match Api.http reply with
     | inr res =>
         IdeaForm.mkState (Types.draft res)
           (default [] (Types.questions res))
           (default [] (Types.missing_fields res))
           (default ∅ (Types.field_meta res))
           ""
           false (IdeaForm.isSubmitting s) (IdeaForm.isRecording s)
           (IdeaForm.isTranscribing s)
           (Some {| IdeaForm.type := IdeaForm.ok;
                    IdeaForm.text := "Updated with your clarification ✅" |})
     | inl e =>
         IdeaForm.setIsClarifying false
           (IdeaForm.setToast
              (Some {| IdeaForm.type := IdeaForm.err;
                       IdeaForm.text := Js.orElse (Js.message e) "Clarification failed." |})
              s)
     end,
     [IdeaForm.Fetch
        (Api.clarifyIdeaRequest (IdeaForm.draft s) (IdeaForm.answersText s)
           (IdeaForm.questions s));
      IdeaForm.SetTimeout 3500]).
Proof.
  intros H. unfold IdeaForm.runClarification, IdeaForm.call, IdeaForm.showToast.
  run_handler. cbn [Js.truthy].
  destruct (Js.trim (IdeaForm.answersText s)) eqn:E; [congruence|].
  cbn. destruct (Api.http reply); reflexivity.
Qed.

(** [runSubmit] past its guard, by how the call settles. *)
Lemma runSubmit_settled (p : IdeaForm.Props)
    (reply : Api.FetchOutcome Types.SubmitResponse) (s : IdeaForm.State) :
  IdeaForm.stillMissing (IdeaForm.draft s) = [] ->
  IdeaForm.runSubmit p reply s
  = (tt,
     IdeaForm.setIsSubmitting false
       (IdeaForm.setToast
          (Some match Api.http reply with
                | inr res =>
                    {| IdeaForm.type := IdeaForm.ok;
                       IdeaForm.text := "Submitted ✅ (id: " ++ Types.id res ++ ")" |}
                | inl e =>
                    {| IdeaForm.type := IdeaForm.err;
                       IdeaForm.text := Js.orElse (Js.message e) "Submit failed." |}
                end)
          s),
     [IdeaForm.Fetch
        (Api.submitIdeaRequest (IdeaForm.transcript p) (IdeaForm.language p)
           (IdeaForm.dialect_hint p) (IdeaForm.draft s));
      IdeaForm.SetTimeout 3500]).
Proof.
  intros H. unfold IdeaForm.runSubmit, IdeaForm.call, IdeaForm.showToast.
  run_handler. rewrite H. cbn. destruct (Api.http reply); reflexivity.
Qed.

Lemma orElse_nonempty (a b : string) : a <> "" -> Js.orElse a b = a.
Proof. destruct a; [congruence | reflexivity]. Qed.

(** What [http] throws on a response outside 200..299. *)
Lemma http_not_ok {T} (res : Api.Response T) :
  Api.ok res = false ->
  Api.http (Api.Fulfilled res)
  = inl (Js.mkError
           ("API " ++ pretty (Api.status res) ++ ": "
            ++ Js.orElse (default "" (Api.text res)) (Api.statusText res))).
Proof. intros H. unfold Api.http. rewrite H. reflexivity. Qed.

(** C6: in every clarification round-trip that succeeds, one request goes
    to the clarify endpoint and carries the current draft, the answer
    buffer as typed and the outstanding questions; afterwards the draft is
    the response's draft, and field meta, missing fields and questions are
    the response's (empty where the response has none), so nothing of the
    old four survives; the answer buffer is empty. *)
Theorem C6_clarification_roundtrip (s : IdeaForm.State)
    (reply : Api.FetchOutcome Types.ExtractionResponse) (res : Types.ExtractionResponse) :
  Js.trim (IdeaForm.answersText s) <> "" ->
  Api.http reply = inr res ->
  let r := IdeaForm.runClarification reply s in
  let s' := Handler.state_of r in
  Handler.effects_of r
    = [IdeaForm.Fetch
         {| Api.path := "/v1/voice/clarify"; Api.method := "POST";
            Api.body := Api.ClarifyBody (IdeaForm.draft s) (IdeaForm.answersText s)
                          (IdeaForm.questions s) |};
       IdeaForm.SetTimeout 3500]
  /\ IdeaForm.draft s' = Types.draft res
  /\ IdeaForm.fieldMeta s' = default ∅ (Types.field_meta res)
  /\ IdeaForm.missingFields s' = default [] (Types.missing_fields res)
  /\ IdeaForm.questions s' = default [] (Types.questions res)
  /\ IdeaForm.answersText s' = ""
  /\ IdeaForm.isClarifying s' = false
  /\ IdeaForm.toast s'
     = Some {| IdeaForm.type := IdeaForm.ok;
               IdeaForm.text := "Updated with your clarification ✅" |}.
Proof.
  intros Ha Hr r s'. subst s' r.
  rewrite (runClarification_settled reply s Ha), Hr.
  split_and!; reflexivity.
Qed.

Lemma C6_clarification_roundtrip_witness :
  IdeaForm.draft
    (Handler.state_of
       (IdeaForm.runClarification (Examples.reply 200 "OK" None (inr Examples.clarified))
          (Examples.answered Examples.emptyTitle)))
  = Examples.complete
  /\ IdeaForm.answersText
       (Handler.state_of
          (IdeaForm.runClarification (Examples.reply 200 "OK" None (inr Examples.clarified))
             (Examples.answered Examples.emptyTitle)))
     = "".
Proof.
  pose proof (C6_clarification_roundtrip (Examples.answered Examples.emptyTitle)
                (Examples.reply 200 "OK" None (inr Examples.clarified))
                Examples.clarified) as H.
  destruct H as (_ & H1 & _ & _ & _ & H2 & _).
  - vm_compute. discriminate.
  - reflexivity.
  - split; assumption.
Defined.

(** C7: when the remote call of a clarification or of a submission fails
    (the request is rejected, the response is outside 200..299, or its
    body does not parse), exactly one request was sent, so nothing is
    retried; the failure shows only as an error notification, which the
    timer then clears; draft, field meta, missing fields, questions and
    answer buffer are as before.  A clarification reaches its remote call
    whenever the answer buffer is not blank, whatever the draft; a
    submission reaches it whenever no required field is missing, whatever
    the answer buffer.  For a response outside 200..299 the text is
    "API <status>: <body>", with the status text standing in for an empty
    or unreadable body, so it includes the status code and the body
    text. *)
Theorem C7_remote_failure (p : IdeaForm.Props) (s : IdeaForm.State)
    (cr : Api.FetchOutcome Types.ExtractionResponse)
    (sr : Api.FetchOutcome Types.SubmitResponse) :
  let unchanged := fun s' =>
    IdeaForm.draft s' = IdeaForm.draft s
    /\ IdeaForm.fieldMeta s' = IdeaForm.fieldMeta s
    /\ IdeaForm.missingFields s' = IdeaForm.missingFields s
    /\ IdeaForm.questions s' = IdeaForm.questions s
    /\ IdeaForm.answersText s' = IdeaForm.answersText s
    /\ IdeaForm.toast (Handler.state_of (IdeaForm.toastTimeout s')) = None in
  (forall ec,
     Js.trim (IdeaForm.answersText s) <> "" ->
     Api.http cr = inl ec ->
     let rc := IdeaForm.runClarification cr s in
     Handler.effects_of rc
       = [IdeaForm.Fetch
            (Api.clarifyIdeaRequest (IdeaForm.draft s) (IdeaForm.answersText s)
               (IdeaForm.questions s));
          IdeaForm.SetTimeout 3500]
     /\ Handler.state_of rc
        = IdeaForm.setIsClarifying false
            (IdeaForm.setToast
               (Some {| IdeaForm.type := IdeaForm.err;
                        IdeaForm.text :=
                          Js.orElse (Js.message ec) "Clarification failed." |})
               s)
     /\ unchanged (Handler.state_of rc))
  /\ (forall es,
        IdeaForm.stillMissing (IdeaForm.draft s) = [] ->
        Api.http sr = inl es ->
        let rs := IdeaForm.runSubmit p sr s in
        Handler.effects_of rs
          = [IdeaForm.Fetch
               (Api.submitIdeaRequest (IdeaForm.transcript p) (IdeaForm.language p)
                  (IdeaForm.dialect_hint p) (IdeaForm.draft s));
             IdeaForm.SetTimeout 3500]
        /\ Handler.state_of rs
           = IdeaForm.setIsSubmitting false
               (IdeaForm.setToast
                  (Some {| IdeaForm.type := IdeaForm.err;
                           IdeaForm.text := Js.orElse (Js.message es) "Submit failed." |})
                  s)
        /\ unchanged (Handler.state_of rs))
  /\ (forall T (res : Api.Response T),
        Api.ok res = false ->
        exists msg,
          Api.http (Api.Fulfilled res) = inl (Js.mkError msg)
          /\ msg = "API " ++ pretty (Api.status res) ++ ": "
                   ++ Js.orElse (default "" (Api.text res)) (Api.statusText res)
          /\ Js.includes msg (pretty (Api.status res)) = true
          /\ Js.includes msg (default "" (Api.text res)) = true
          /\ forall fallback, Js.orElse msg fallback = msg).
Proof.
  intros unchanged. subst unchanged. split_and!.
  - intros ec Ha Hc rc. subst rc.
    rewrite (runClarification_settled cr s Ha), Hc.
    unfold Handler.effects_of, Handler.state_of. cbn [fst snd].
    split_and!; reflexivity.
  - intros es Hm Hs rs. subst rs.
    rewrite (runSubmit_settled p sr s Hm), Hs.
    unfold Handler.effects_of, Handler.state_of. cbn [fst snd].
    split_and!; reflexivity.
  - intros T res Hok. eexists. split; [apply http_not_ok, Hok|].
    split_and!.
    + reflexivity.
    + apply includes_middle.
    + destruct (default "" (Api.text res)) as [|c body] eqn:E.
      * rewrite includes_unfold. destruct ("API " ++ _); reflexivity.
      * rewrite orElse_nonempty by discriminate.
        rewrite <- (append_nil_r (String c body)) at 1.
        rewrite <- !append_assoc. rewrite append_assoc. apply includes_middle.
    + reflexivity.
Qed.

(** A clarification that fails on a draft with a missing title, and a
    submission that fails while the answer box is empty. *)
Lemma C7_remote_failure_witness :
  IdeaForm.toast
    (Handler.state_of
       (IdeaForm.runClarification (Api.Rejected (Js.mkError "Failed to fetch"))
          (Examples.answered Examples.emptyTitle)))
  = Some {| IdeaForm.type := IdeaForm.err; IdeaForm.text := "Failed to fetch" |}
  /\ IdeaForm.toast
       (Handler.state_of
          (IdeaForm.runSubmit (Examples.props Examples.complete)
             (Examples.reply 500 "Internal Server Error" (Some "boom") (inl (Js.mkError "")))
             (Examples.form Examples.complete)))
     = Some {| IdeaForm.type := IdeaForm.err; IdeaForm.text := "API 500: boom" |}.
Proof.
  split.
  - pose proof (C7_remote_failure (Examples.props Examples.emptyTitle)
                  (Examples.answered Examples.emptyTitle)
                  (Api.Rejected (Js.mkError "Failed to fetch"))
                  Examples.submitted) as (H & _ & _).
    destruct (H (Js.mkError "Failed to fetch")) as (_ & E & _).
    + vm_compute. discriminate.
    + reflexivity.
    + rewrite E. reflexivity.
  - pose proof (C7_remote_failure (Examples.props Examples.complete)
                  (Examples.form Examples.complete)
                  (Api.Rejected (Js.mkError "Failed to fetch"))
                  (Examples.reply 500 "Internal Server Error" (Some "boom")
                     (inl (Js.mkError "")))) as (_ & H & _).
    destruct (H (Js.mkError "API 500: boom")) as (_ & E & _).
    + vm_compute. reflexivity.
    + vm_compute. reflexivity.
    + rewrite E. reflexivity.
Defined.

(* ===================================================================== *)
(** * The page: input modes                                               *)
(* ===================================================================== *)

(** C5: for every state of the page and every card of the mode selector,
    clicking the card makes its mode current and resets the audio file,
    the transcription, the extraction and the error to empty (also when
    the card is the one already selected); the typed text and the busy
    flag are kept, no request is sent, and outside text mode the
    transcript shown is empty. *)
Theorem C5_mode_switch_clears (s : Page.State) (it : ModeSelector.Item) :
  let r := ModeSelector.onClick Page.selectMode it s in
  let s' := Handler.state_of r in
  Page.mode s' = ModeSelector.key it
  /\ Page.audioFile s' = None
  /\ Page.transcribe s' = None
  /\ Page.extraction s' = None
  /\ Page.error s' = None
  /\ Page.manualText s' = Page.manualText s
  /\ Page.busy s' = Page.busy s
  /\ Handler.effects_of r = []
  /\ Page.transcriptText s'
     = match ModeSelector.key it with
       | Types.text => Js.trim (Page.manualText s)
       | _ => ""
       end
  /\ List.map ModeSelector.key ModeSelector.items
     = [Types.record; Types.upload; Types.text].
Proof.
  unfold ModeSelector.onClick, Page.selectMode. run_handler. cbn.
  split_and!; reflexivity.
Qed.

(** Only the text area writes the typed text. *)
Lemma handle_keeps_manualText (ev : Page.Event) (s : Page.State) :
  Page.isTextChange ev = false ->
  Page.manualText (Handler.state_of (Page.handle ev s)) = Page.manualText s.
Proof.
  destruct ev as [m|f|f|v|tr er]; cbn [Page.isTextChange Page.handle];
    intros H; try discriminate; try reflexivity.
  unfold Page.runProcess, Page.gatherInput, Page.call. run_handler. cbn.
  repeat (break_inner; cbn; try reflexivity).
Qed.

Lemma run_keeps_manualText (evs : list Page.Event) (s : Page.State) :
  List.Forall (fun ev => Page.isTextChange ev = false) evs ->
  Page.manualText (Page.run evs s) = Page.manualText s.
Proof.
  intros H. revert s. induction H as [|ev evs Hev _ IH]; intros s; [reflexivity|].
  cbn [Page.run]. rewrite IH. apply handle_keeps_manualText, Hev.
Qed.

(** C10: switching input mode never clears the typed text.  For every
    state, one switch to any mode keeps it, and so does any sequence of
    user actions other than typing into the text area (switching modes,
    recording or choosing a file, processing with any outcome); after such
    a sequence, selecting text mode shows as transcript the typed text,
    trimmed, exactly as before leaving. *)
Theorem C10_manual_text_survives (s : Page.State) (evs : list Page.Event)
    (m : Types.InputMode) :
  List.Forall (fun ev => Page.isTextChange ev = false) evs ->
  Page.manualText (Handler.state_of (Page.selectMode m s)) = Page.manualText s
  /\ Page.manualText (Page.run evs s) = Page.manualText s
  /\ Page.manualText (Page.run (Page.SelectMode m :: evs ++ [Page.SelectMode Types.text]) s)
     = Page.manualText s
  /\ Page.transcriptText
       (Page.run (Page.SelectMode m :: evs ++ [Page.SelectMode Types.text]) s)
     = Js.trim (Page.manualText s).
Proof.
  intros H.
  assert (H' : List.Forall (fun ev => Page.isTextChange ev = false)
                 (Page.SelectMode m :: evs ++ [Page.SelectMode Types.text])).
  { constructor; [reflexivity|]. apply List.Forall_app. split; [exact H|].
    constructor; [reflexivity | constructor]. }
  split_and!.
  - reflexivity.
  - apply run_keeps_manualText, H.
  - apply run_keeps_manualText, H'.
  - rewrite <- (run_keeps_manualText _ s H').
    assert (Hm : forall l t, Page.mode (Page.run (l ++ [Page.SelectMode Types.text]) t)
                             = Types.text).
    { induction l as [|e l IH]; intros t; [reflexivity|]. cbn [List.app Page.run]. apply IH. }
    unfold Page.transcriptText.
    change (Page.SelectMode m :: evs ++ [Page.SelectMode Types.text])
      with ((Page.SelectMode m :: evs) ++ [Page.SelectMode Types.text])%list.
    rewrite Hm. reflexivity.
Qed.

Lemma C10_manual_text_survives_witness :
  Page.transcriptText
    (Page.run
       [Page.SelectMode Types.record;
        Page.RecordedFile (Js.mkFile "recording.webm" [] "audio/webm");
        Page.Process (Api.Rejected (Js.mkError "Failed to fetch"))
                     (Api.Rejected (Js.mkError "Failed to fetch"));
        Page.SelectMode Types.text]
       (Page.setManualText " a lantern for every street " (Page.setMode Types.text Page.init)))
  = "a lantern for every street".
Proof.
  apply (C10_manual_text_survives
           (Page.setManualText " a lantern for every street "
              (Page.setMode Types.text Page.init))
           [Page.RecordedFile (Js.mkFile "recording.webm" [] "audio/webm");
            Page.Process (Api.Rejected (Js.mkError "Failed to fetch"))
                         (Api.Rejected (Js.mkError "Failed to fetch"))]
           Types.record).
  repeat constructor.
Defined.

(* ===================================================================== *)
(** * The recorder                                                        *)
(* ===================================================================== *)

Lemma acquired_app (l1 l2 : list AudioRecorder.Effect) :
  AudioRecorder.acquired (l1 ++ l2)
  = (AudioRecorder.acquired l1 ++ AudioRecorder.acquired l2)%list.
Proof. apply List.flat_map_app. Qed.

Lemma released_app (l1 l2 : list AudioRecorder.Effect) :
  AudioRecorder.released (l1 ++ l2)
  = (AudioRecorder.released l1 ++ AudioRecorder.released l2)%list.
Proof. apply List.flat_map_app. Qed.

Lemma recordedFiles_app (l1 l2 : list AudioRecorder.Effect) :
  AudioRecorder.recordedFiles (l1 ++ l2)
  = (AudioRecorder.recordedFiles l1 ++ AudioRecorder.recordedFiles l2)%list.
Proof. apply List.flat_map_app. Qed.

(** The second half of [start] when the microphone is granted and the
    recorder is built and starts. *)
Lemma startSettled_granted (b : AudioRecorder.Browser) (e : AudioRecorder.Env)
    (stream : AudioRecorder.MediaStream) (s : AudioRecorder.State) :
  AudioRecorder.media e = inr stream ->
  AudioRecorder.constructorThrows e = None ->
  AudioRecorder.startThrows e = None ->
  AudioRecorder.startSettled b e s
  = (tt,
     AudioRecorder.mkState (AudioRecorder.supported s) (AudioRecorder.permissionError s)
       true (AudioRecorder.seconds s) (AudioRecorder.audioUrl s) (Some stream)
       (Some (AudioRecorder.recording
                (AudioRecorder.newMediaRecorder stream (AudioRecorder.pickMimeType b)
                   (AudioRecorder.defaultMimeType e))))
       [] (Some (AudioRecorder.timer e)),
     AudioRecorder.GetUserMedia (inr stream)
     :: match AudioRecorder.timerRef s with
        | Some id => [AudioRecorder.ClearInterval id]
        | None => []
        end ++ [AudioRecorder.SetInterval (AudioRecorder.timer e)])%list.
Proof.
  intros H1 H2 H3.
  unfold AudioRecorder.startSettled, AudioRecorder.startTimer, AudioRecorder.stopTimer.
  rewrite H1, H2, H3. run_handler. cbn. destruct (AudioRecorder.timerRef s); reflexivity.
Qed.

(** [stop] when the recorder in the ref is recording. *)
Lemma stop_recorder (e : AudioRecorder.Env) (rec : AudioRecorder.MediaRecorder)
    (s : AudioRecorder.State) :
  AudioRecorder.recorderRef s = Some rec ->
  AudioRecorder.rec_recording rec = true ->
  let chunks := (AudioRecorder.chunksRef s ++ Spec.kept [AudioRecorder.finalData e])%list in
  let blob := Js.newBlob chunks (AudioRecorder.blobType rec) in
  AudioRecorder.stop e s
  = (tt,
     AudioRecorder.mkState (AudioRecorder.supported s) (AudioRecorder.permissionError s)
       false (AudioRecorder.seconds s) (Some blob) None None chunks None,
     match AudioRecorder.timerRef s with
     | Some id => [AudioRecorder.ClearInterval id]
     | None => []
     end
     ++ AudioRecorder.OnRecordedFile
          (Js.newFile [blob] ("recording." ++ AudioRecorder.extension rec)
             (AudioRecorder.blobType rec))
        :: List.map AudioRecorder.StopTracks (Spec.held s))%list.
Proof.
  intros H Hrec. unfold AudioRecorder.stop, AudioRecorder.stopTimer, AudioRecorder.onstop,
    AudioRecorder.ondataavailable, Spec.held, Spec.kept.
  run_handler.
  destruct s as [sup pe ir sec au [stream|] rr ch [id|]]; cbn in H; subst rr;
    cbn -[Nat.ltb]; rewrite Hrec;
    destruct (0 <? Js.blob_size (AudioRecorder.finalData e))%nat; cbn;
    rewrite ?List.app_nil_r; reflexivity.
Qed.

(** [stop] when there is no recorder, or one that never started. *)
Lemma stop_idle (e : AudioRecorder.Env) (s : AudioRecorder.State) :
  match AudioRecorder.recorderRef s with
  | Some rec => AudioRecorder.rec_recording rec = false
  | None => True
  end ->
  AudioRecorder.stop e s
  = (tt,
     AudioRecorder.setRecorderRef None
       (AudioRecorder.setIsRecording false (AudioRecorder.setTimerRef None s)),
     match AudioRecorder.timerRef s with
     | Some id => [AudioRecorder.ClearInterval id]
     | None => []
     end).
Proof.
  intros H. unfold AudioRecorder.stop, AudioRecorder.stopTimer. run_handler.
  destruct s as [? ? ? ? ? ? [rec|] ? [id|]]; cbn in *; rewrite ?H; reflexivity.
Qed.

(** Sequencing: the second handler runs on the state the first leaves, and
    the logs are appended. *)
Lemma then_state {S E A B} (m : Handler.t S E A) (k : Handler.t S E B) (s : S) :
  Handler.state_of ((m;; k) s) = Handler.state_of (k (Handler.state_of (m s))).
Proof.
  run_handler. destruct (m s) as [[a s1] e1]. cbn.
  destruct (k s1) as [[c s2] e2]. reflexivity.
Qed.

Lemma then_effects {S E A B} (m : Handler.t S E A) (k : Handler.t S E B) (s : S) :
  Handler.effects_of ((m;; k) s)
  = (Handler.effects_of (m s) ++ Handler.effects_of (k (Handler.state_of (m s))))%list.
Proof.
  run_handler. destruct (m s) as [[a s1] e1]. cbn.
  destruct (k s1) as [[c s2] e2]. reflexivity.
Qed.

(** C1 does not hold of the component.  The Start button stays a Start
    button until the microphone request has settled, so it can be clicked
    again while the first request is pending.  For any two streams: click,
    click, the first request is granted the one stream, the second the
    other, click to stop.  Both starts succeed; the stop releases the
    second stream only, and afterwards the component is idle and holds
    neither a recorder nor a stream, so the first stream is never
    released.  A stream is also left open when the request is granted but
    the recorder cannot be built: the component stays idle with the
    stream acquired and not released.  A start that settles before the
    next click, followed by a stop, does release its stream. *)
Theorem C1_overlapping_starts_leak (s1 s2 : AudioRecorder.MediaStream) :
  let r0 := (AudioRecorder.start Examples.webmOnly (Examples.granted s1);;
             AudioRecorder.stop (Examples.granted s1))
              (AudioRecorder.init Examples.webmOnly) in
  let r := AudioRecorder.play Examples.webmOnly
             [AudioRecorder.Click (Examples.granted 0);
              AudioRecorder.Click (Examples.granted 0);
              AudioRecorder.Settled (Examples.granted s1);
              AudioRecorder.Settled (Examples.granted s2);
              AudioRecorder.Click (Examples.granted 0)]
             0 (AudioRecorder.init Examples.webmOnly) in
  let r' := AudioRecorder.play Examples.webmOnly
              [AudioRecorder.Click (Examples.granted 0);
               AudioRecorder.Settled (Examples.unbuildable s1)]
              0 (AudioRecorder.init Examples.webmOnly) in
  (AudioRecorder.acquired (Handler.effects_of r) = [s1; s2]
   /\ AudioRecorder.released (Handler.effects_of r) = [s2]
   /\ AudioRecorder.isRecording (Handler.state_of r) = false
   /\ AudioRecorder.recorderRef (Handler.state_of r) = None
   /\ AudioRecorder.streamRef (Handler.state_of r) = None)
  /\ (AudioRecorder.acquired (Handler.effects_of r') = [s1]
      /\ AudioRecorder.released (Handler.effects_of r') = []
      /\ AudioRecorder.isRecording (Handler.state_of r') = false
      /\ AudioRecorder.recorderRef (Handler.state_of r') = None
      /\ AudioRecorder.permissionError (Handler.state_of r') = Some "NotSupportedError")
  /\ (AudioRecorder.acquired (Handler.effects_of r0) = [s1]
      /\ AudioRecorder.released (Handler.effects_of r0) = [s1]).
Proof. intros r0 r r'. subst r0 r r'. split_and!; reflexivity. Qed.

Lemma ondataavailable_eq (d : Js.Blob) (s : AudioRecorder.State) :
  AudioRecorder.ondataavailable d s
  = (tt,
     if (0 <? Js.blob_size d)%nat
     then AudioRecorder.setChunksRef (AudioRecorder.chunksRef s ++ [d])%list s
     else s,
     []).
Proof.
  unfold AudioRecorder.ondataavailable. destruct (0 <? Js.blob_size d)%nat; reflexivity.
Qed.

(** Data events append the chunks that carry data, in order. *)
Lemma data_events (ds : list Js.Blob) (s : AudioRecorder.State) :
  AudioRecorder.sequence (List.map AudioRecorder.ondataavailable ds) s
  = (tt, AudioRecorder.setChunksRef (AudioRecorder.chunksRef s ++ Spec.kept ds)%list s, []).
Proof.
  revert s. induction ds as [|d ds IH]; intros s.
  - destruct s. cbn. rewrite List.app_nil_r. reflexivity.
  - cbn [List.map AudioRecorder.sequence]. unfold Spec.kept. cbn [List.filter].
    run_handler. rewrite ondataavailable_eq, IH.
    destruct (0 <? Js.blob_size d)%nat; [|reflexivity].
    destruct s. cbn. rewrite <- List.app_assoc. reflexivity.
Qed.

(** A file made of one blob has the blob's bytes. *)
Lemma newFile_of_blob (chunks : list Js.Blob) (name ty ty' : string) :
  Js.newFile [Js.newBlob chunks ty] name ty'
  = {| Js.file_name := name;
       Js.file_data := List.concat (List.map Js.blob_data chunks);
       Js.file_type := Js.normalizeType ty' |}.
Proof. unfold Js.newFile, Js.newBlob. cbn. rewrite List.app_nil_r. reflexivity. Qed.

Lemma kept_app (l1 l2 : list Js.Blob) :
  Spec.kept (l1 ++ l2) = (Spec.kept l1 ++ Spec.kept l2)%list.
Proof. apply List.filter_app. Qed.

(** The loop of [pickMimeType] finds the first supported candidate. *)
Lemma firstSupported_find (b : AudioRecorder.Browser) (cs : list string) :
  AudioRecorder.firstSupported b cs = default "" (List.find (AudioRecorder.supports b) cs).
Proof.
  induction cs as [|c cs IH]; [reflexivity|]. cbn.
  destruct (AudioRecorder.supports b c); [reflexivity | exact IH].
Qed.

(** C8, as stated, fails in a browser that supports none of the four
    candidate types and whose recorders report audio/mp4: no type is
    negotiated, yet the file is not tagged with a generic default but
    with audio/mp4, under the name recording.webm. *)
Lemma C8_counterexample :
  let e := Examples.grantedMp4 1 in
  let r := (AudioRecorder.startSettled Examples.noCandidate e;; AudioRecorder.stop e)
             (AudioRecorder.init Examples.noCandidate) in
  List.find (AudioRecorder.supports Examples.noCandidate) AudioRecorder.candidates = None
  /\ AudioRecorder.pickMimeType Examples.noCandidate = ""
  /\ AudioRecorder.recordedFiles (Handler.effects_of r)
     = [ {| Js.file_name := "recording.webm";
            Js.file_data := [Byte.x52; Byte.x49];
            Js.file_type := "audio/mp4" |} ]
  /\ Js.file_type <$> AudioRecorder.recordedFiles (Handler.effects_of r) <> ["audio/webm"].
Proof. split_and!; try (vm_compute; reflexivity). vm_compute. discriminate. Qed.

(** C8, amended: when a recording that was started with the microphone
    granted has received any data events and is stopped, the parent is
    handed exactly one file.  Its bytes are the chunks accumulated (those
    of non-zero size, the data delivered at stop included) concatenated
    in order; the preview blob has the same bytes and the same type.  The
    recorder is built with the first entry of the list
    audio/webm;codecs=opus, audio/webm, audio/ogg;codecs=opus, audio/ogg
    that [MediaRecorder.isTypeSupported] accepts, and then that entry is
    the type of the file; when [MediaRecorder] or [isTypeSupported] is
    missing or no entry is accepted, the recorder is built without a type
    and the file carries the type the recorder reports, lower-cased as
    every blob type is, and audio/webm only when the recorder reports
    none.  The file is named recording.ogg when the type reported
    contains "ogg" and recording.webm otherwise.  The stream held is
    released. *)
Theorem C8_recorded_file (b : AudioRecorder.Browser) (s0 : AudioRecorder.State)
    (stream : AudioRecorder.MediaStream) (ua : string) (t : positive)
    (ds : list Js.Blob) (final : Js.Blob) :
  let e := {| AudioRecorder.media := inr stream;
              AudioRecorder.constructorThrows := None;
              AudioRecorder.startThrows := None;
              AudioRecorder.defaultMimeType := ua;
              AudioRecorder.timer := t; AudioRecorder.finalData := final |} in
  let r := (AudioRecorder.startSettled b e;;
            AudioRecorder.sequence (List.map AudioRecorder.ondataavailable ds);;
            AudioRecorder.stop e) s0 in
  let preferred :=
    [ "audio/webm;codecs=opus"; "audio/webm"; "audio/ogg;codecs=opus"; "audio/ogg" ] in
  let chosen := match AudioRecorder.isTypeSupported b with
                | Some accepts =>
                    if AudioRecorder.mediaRecorderDefined b
                    then List.find accepts preferred
                    else None
                | None => None
                end in
  let reported := match chosen with Some c => c | None => ua end in
  let ty := Js.orElse reported "audio/webm" in
  let ext := if Js.includes ty "ogg" then "ogg" else "webm" in
  let bytes :=
    List.concat
      (List.map Js.blob_data
         (List.filter (fun c => (0 <? Js.blob_size c)%nat) (ds ++ [final]))) in
  AudioRecorder.pickMimeType b = default "" chosen
  /\ AudioRecorder.recordedFiles (Handler.effects_of r)
     = [ {| Js.file_name := "recording." ++ ext; Js.file_data := bytes;
            Js.file_type := Js.normalizeType ty |} ]
  /\ (exists blob, AudioRecorder.audioUrl (Handler.state_of r) = Some blob
                   /\ Js.blob_data blob = bytes
                   /\ Js.blob_type blob = Js.normalizeType ty)
  /\ AudioRecorder.released (Handler.effects_of r) = [stream]
  /\ (forall c, chosen = Some c -> ty = c /\ Js.normalizeType ty = c)
  /\ List.map (fun c => if Js.includes c "ogg" then "ogg" else "webm") preferred
     = ["webm"; "webm"; "ogg"; "ogg"].
Proof.
  intros e r preferred chosen reported ty ext bytes.
  assert (Hchosen : chosen = List.find (AudioRecorder.supports b) AudioRecorder.candidates).
  { subst chosen preferred. unfold AudioRecorder.supports, AudioRecorder.candidates.
    destruct (AudioRecorder.isTypeSupported b) as [accepts|],
      (AudioRecorder.mediaRecorderDefined b); cbn [andb List.find]; reflexivity. }
  assert (Hpick : AudioRecorder.pickMimeType b = default "" chosen).
  { rewrite Hchosen. apply firstSupported_find. }
  assert (Hin : forall c, chosen = Some c -> In c preferred).
  { intros c Hc. rewrite Hchosen in Hc. apply List.find_some in Hc. apply Hc. }
  set (rec := AudioRecorder.recording
                (AudioRecorder.newMediaRecorder stream (AudioRecorder.pickMimeType b) ua)).
  assert (Hty : AudioRecorder.blobType rec = ty).
  { subst rec ty reported. unfold AudioRecorder.blobType, AudioRecorder.recording,
      AudioRecorder.newMediaRecorder. cbn [AudioRecorder.rec_mimeType]. rewrite Hpick.
    destruct chosen as [c|] eqn:Hc; cbn [default id]; [|reflexivity].
    destruct (Hin c eq_refl) as [<-|[<-|[<-|[<-|[]]]]]; reflexivity. }
  assert (Hext : AudioRecorder.extension rec = ext).
  { unfold AudioRecorder.extension. rewrite Hty. reflexivity. }
  assert (Hr : r = (tt,
                    AudioRecorder.mkState (AudioRecorder.supported s0)
                      (AudioRecorder.permissionError s0) false (AudioRecorder.seconds s0)
                      (Some (Js.newBlob (Spec.kept (ds ++ [final])) ty)) None None
                      (Spec.kept (ds ++ [final])) None,
                    (AudioRecorder.GetUserMedia (inr stream)
                     :: match AudioRecorder.timerRef s0 with
                        | Some id => [AudioRecorder.ClearInterval id]
                        | None => []
                        end
                     ++ [AudioRecorder.SetInterval t; AudioRecorder.ClearInterval t;
                         AudioRecorder.OnRecordedFile
                           (Js.newFile [Js.newBlob (Spec.kept (ds ++ [final])) ty]
                              ("recording." ++ ext) ty);
                         AudioRecorder.StopTracks stream])%list)).
  { subst r. run_handler.
    rewrite (startSettled_granted b e stream s0 eq_refl eq_refl eq_refl).
    cbn [AudioRecorder.timer AudioRecorder.defaultMimeType e]. fold rec.
    rewrite data_events. cbn [AudioRecorder.setChunksRef AudioRecorder.chunksRef
      AudioRecorder.supported AudioRecorder.permissionError AudioRecorder.isRecording
      AudioRecorder.seconds AudioRecorder.audioUrl AudioRecorder.streamRef
      AudioRecorder.recorderRef AudioRecorder.timerRef List.app].
    erewrite stop_recorder by reflexivity.
    cbn [AudioRecorder.setChunksRef AudioRecorder.chunksRef
      AudioRecorder.supported AudioRecorder.permissionError AudioRecorder.isRecording
      AudioRecorder.seconds AudioRecorder.audioUrl AudioRecorder.streamRef
      AudioRecorder.recorderRef AudioRecorder.timerRef List.app Spec.held List.map
      AudioRecorder.finalData e].
    rewrite Hty, Hext, kept_app.
    destruct (AudioRecorder.timerRef s0); reflexivity. }
  split_and!.
  - exact Hpick.
  - rewrite Hr. unfold Handler.effects_of. cbn [snd].
    rewrite newFile_of_blob.
    destruct (AudioRecorder.timerRef s0); reflexivity.
  - rewrite Hr. eexists. split; [reflexivity|]. split; reflexivity.
  - rewrite Hr. unfold Handler.effects_of. cbn [snd].
    destruct (AudioRecorder.timerRef s0); reflexivity.
  - intros c Hc. subst ty reported. rewrite Hc.
    destruct (Hin c Hc) as [<-|[<-|[<-|[<-|[]]]]]; split; reflexivity.
  - reflexivity.
Qed.

(* ===================================================================== *)
(** * Further properties of the draft form                                *)
(* ===================================================================== *)

Lemma filter_partition_length {A} (P : A -> bool) (l : list A) :
  (List.length (List.filter P l) + List.length (List.filter (fun a => negb (P a)) l)
   = List.length l)%nat.
Proof.
  induction l as [|a l IH]; [reflexivity|]. cbn [List.filter].
  destruct (P a); cbn; lia.
Qed.

Lemma have_plus_missing (d : Types.DraftIdea) :
  (IdeaForm.have d + List.length (IdeaForm.stillMissing d) = 6)%nat.
Proof.
  unfold IdeaForm.have, IdeaForm.stillMissing.
  apply (filter_partition_length
           (fun f => IdeaForm.isFilled (Types.getField d f)) IdeaForm.REQUIRED_FIELDS).
Qed.

Lemma completeness_mono (d1 d2 : Types.DraftIdea) :
  (IdeaForm.have d1 <= IdeaForm.have d2)%nat ->
  (IdeaForm.completeness d1 <= IdeaForm.completeness d2)%Z.
Proof.
  rewrite !completeness_of_have.
  pose proof (have_le_6 d1) as H1. pose proof (have_le_6 d2) as H2.
  destruct (IdeaForm.have d1) as [|[|[|[|[|[|[|n]]]]]]];
    destruct (IdeaForm.have d2) as [|[|[|[|[|[|[|m]]]]]]]; cbn; lia.
Qed.

Lemma complete_when_none_missing (d : Types.DraftIdea) :
  IdeaForm.stillMissing d = [] -> IdeaForm.completeness d = 100%Z.
Proof.
  intros E. pose proof (have_plus_missing d) as H. rewrite E in H.
  cbn [List.length] in H. rewrite completeness_of_have.
  assert (IdeaForm.have d = 6%nat) as -> by lia. reflexivity.
Qed.

(** The two badges of the form agree: the completeness reads 100 exactly
    when no required field is missing, that is exactly when the form says
    "Ready to submit"; the fields counted and the fields missing always
    add up to six, and the percentage lies between 0 and 100. *)
Theorem ready_iff_complete (d : Types.DraftIdea) :
  (IdeaForm.have d + List.length (IdeaForm.stillMissing d) = 6)%nat
  /\ (IdeaForm.completeness d = 100%Z <-> IdeaForm.stillMissing d = [])
  /\ (0 <= IdeaForm.completeness d <= 100)%Z.
Proof.
  pose proof (have_plus_missing d) as H. split; [exact H|].
  rewrite completeness_of_have. split.
  - split.
    + intros E. destruct (IdeaForm.stillMissing d); [reflexivity|].
      cbn [List.length] in H.
      destruct (IdeaForm.have d) as [|[|[|[|[|[|[|n]]]]]]]; cbn in E; try discriminate; lia.
    + intros E. rewrite <- completeness_of_have. apply complete_when_none_missing, E.
  - destruct (IdeaForm.have d) as [|[|[|[|[|[|[|n]]]]]]]; cbn; lia.
Qed.

Lemma filter_length_mono {A} (P Q : A -> bool) (l : list A) :
  (forall a, P a = true -> Q a = true) ->
  (List.length (List.filter P l) <= List.length (List.filter Q l))%nat.
Proof.
  intros H. induction l as [|a l IH]; [reflexivity|]. cbn [List.filter].
  destruct (P a) eqn:E.
  - rewrite (H a E). cbn. lia.
  - destruct (Q a); cbn; lia.
Qed.

Lemma updateField_draft (k : string) (v : Js.value) (s : IdeaForm.State) :
  IdeaForm.draft (Handler.state_of (IdeaForm.updateField k v s))
  = <[k := v]> (IdeaForm.draft s).
Proof. reflexivity. Qed.

(** An edit moves only the edited field in or out of the missing list:
    every other required field is missing after the edit exactly when it
    was before; the edited field is missing afterwards exactly when it is
    required and the new value is blank.  Editing a field that is not
    required changes neither the list nor the completeness; a non-blank
    value never lowers the completeness and a blank one never raises it. *)
Theorem edit_moves_only_its_field (k : string) (v : Js.value) (s : IdeaForm.State) :
  let d := IdeaForm.draft s in
  let d' := IdeaForm.draft (Handler.state_of (IdeaForm.updateField k v s)) in
  (forall f, f <> k -> (In f (IdeaForm.stillMissing d') <-> In f (IdeaForm.stillMissing d)))
  /\ (In k (IdeaForm.stillMissing d')
      <-> In k IdeaForm.REQUIRED_FIELDS /\ IdeaForm.isFilled v = false)
  /\ (~ In k IdeaForm.REQUIRED_FIELDS ->
      IdeaForm.stillMissing d' = IdeaForm.stillMissing d
      /\ IdeaForm.completeness d' = IdeaForm.completeness d)
  /\ (IdeaForm.isFilled v = true -> (IdeaForm.completeness d <= IdeaForm.completeness d')%Z)
  /\ (IdeaForm.isFilled v = false -> (IdeaForm.completeness d' <= IdeaForm.completeness d)%Z).
Proof.
  intros d d'. subst d d'. rewrite updateField_draft.
  set (d := IdeaForm.draft s). split_and!.
  - intros f Hf. rewrite !stillMissing_spec, getField_insert.
    destruct (decide (k = f)); [congruence | reflexivity].
  - rewrite stillMissing_spec, getField_insert.
    destruct (decide (k = k)); [reflexivity | congruence].
  - intros Hk.
    assert (E : forall P : Js.value -> bool,
               List.filter (fun g => P (Types.getField (<[k := v]> d) g))
                 IdeaForm.REQUIRED_FIELDS
               = List.filter (fun g => P (Types.getField d g)) IdeaForm.REQUIRED_FIELDS).
    { intros P. apply List.filter_ext_in. intros g Hg. rewrite getField_insert.
      destruct (decide (k = g)); [congruence | reflexivity]. }
    split.
    + apply (E (fun x => negb (IdeaForm.isFilled x))).
    + unfold IdeaForm.completeness, IdeaForm.have. rewrite (E IdeaForm.isFilled). reflexivity.
  - intros Hv. apply completeness_mono. unfold IdeaForm.have.
    apply filter_length_mono. intros g Hg. rewrite getField_insert.
    destruct (decide (k = g)); [exact Hv | exact Hg].
  - intros Hv. apply completeness_mono. unfold IdeaForm.have.
    apply filter_length_mono. intros g. rewrite getField_insert.
    destruct (decide (k = g)); [congruence | tauto].
Qed.

Lemma edit_moves_only_its_field_witness :
  IdeaForm.stillMissing
    (IdeaForm.draft
       (Handler.state_of
          (IdeaForm.updateField "category" (Js.Str "Operations")
             (Examples.form Examples.emptyTitle))))
  = ["title"]
  /\ (83 <= IdeaForm.completeness
              (IdeaForm.draft
                 (Handler.state_of
                    (IdeaForm.updateField "title" (Js.Str "Lantern")
                       (Examples.form Examples.emptyTitle)))))%Z.
Proof.
  split.
  - pose proof (edit_moves_only_its_field "category" (Js.Str "Operations")
                  (Examples.form Examples.emptyTitle)) as (_ & _ & H & _).
    destruct H as [H _].
    + cbn. intuition discriminate.
    + rewrite H. vm_compute. reflexivity.
  - pose proof (edit_moves_only_its_field "title" (Js.Str "Lantern")
                  (Examples.form Examples.emptyTitle)) as (_ & _ & _ & H & _).
    etransitivity; [|apply H; reflexivity]. vm_compute. discriminate.
Defined.

(** Edits compose as writes to a map: edits of two different fields give
    the same form state in either order, and of two edits of one field
    the later one stands, as if the earlier had not been made. *)
Theorem edits_commute (k1 k2 : string) (v1 v2 : Js.value) (s : IdeaForm.State) :
  (k1 <> k2 ->
   Handler.state_of ((IdeaForm.updateField k1 v1;; IdeaForm.updateField k2 v2) s)
   = Handler.state_of ((IdeaForm.updateField k2 v2;; IdeaForm.updateField k1 v1) s))
  /\ Handler.state_of ((IdeaForm.updateField k1 v1;; IdeaForm.updateField k1 v2) s)
     = Handler.state_of (IdeaForm.updateField k1 v2 s).
Proof.
  unfold IdeaForm.updateField. run_handler. cbn.
  unfold IdeaForm.setFieldMeta, IdeaForm.setDraft. cbn. split.
  - intros H. f_equal; apply insert_insert_ne; congruence.
  - f_equal; apply insert_insert_eq.
Qed.

Lemma edits_commute_witness :
  Handler.state_of
    ((IdeaForm.updateField "title" (Js.Str "Lantern");;
      IdeaForm.updateField "summary" (Js.Str "Light"))
       (Examples.form Examples.emptyTitle))
  = Handler.state_of
      ((IdeaForm.updateField "summary" (Js.Str "Light");;
        IdeaForm.updateField "title" (Js.Str "Lantern"))
         (Examples.form Examples.emptyTitle)).
Proof.
  apply (edits_commute "title" "summary" (Js.Str "Lantern") (Js.Str "Light")
           (Examples.form Examples.emptyTitle)).
  discriminate.
Defined.

(** [runSubmit] asks the server exactly when nothing is missing: one
    request to the ideas endpoint, carrying the props and the draft as it
    stands, when every required field is filled, and none otherwise.
    Whatever the reply, the draft, the field meta, the questions, the
    missing-field list and the answer box are as before, so the form is
    not reset by a successful submission; a notification is always shown
    and the submitting flag is down when the request has settled. *)
Theorem submit_sends_iff_ready (p : IdeaForm.Props)
    (reply : Api.FetchOutcome Types.SubmitResponse) (s : IdeaForm.State) :
  let r := IdeaForm.runSubmit p reply s in
  let s' := Handler.state_of r in
  IdeaForm.requests (Handler.effects_of r)
    = match IdeaForm.stillMissing (IdeaForm.draft s) with
      | [] => [ {| Api.path := "/v1/ideas"; Api.method := "POST";
                   Api.body := Api.SubmitBody (IdeaForm.transcript p) (IdeaForm.language p)
                                 (IdeaForm.dialect_hint p) (IdeaForm.draft s) |} ]
      | _ :: _ => []
      end
  /\ IdeaForm.draft s' = IdeaForm.draft s
  /\ IdeaForm.fieldMeta s' = IdeaForm.fieldMeta s
  /\ IdeaForm.questions s' = IdeaForm.questions s
  /\ IdeaForm.missingFields s' = IdeaForm.missingFields s
  /\ IdeaForm.answersText s' = IdeaForm.answersText s
  /\ is_Some (IdeaForm.toast s')
  /\ IdeaForm.isSubmitting s'
     = match IdeaForm.stillMissing (IdeaForm.draft s) with
       | [] => false
       | _ :: _ => IdeaForm.isSubmitting s
       end.
Proof.
  intros r s'. subst s' r.
  destruct (IdeaForm.stillMissing (IdeaForm.draft s)) as [|f l] eqn:E.
  - rewrite (runSubmit_settled p reply s E). split_and!; try reflexivity.
    cbn. eexists. reflexivity.
  - rewrite (runSubmit_blocked p reply s) by (rewrite E; reflexivity).
    split_and!; try reflexivity. cbn. eexists. reflexivity.
Qed.

Lemma runClarification_blank (reply : Api.FetchOutcome Types.ExtractionResponse)
    (s : IdeaForm.State) :
  Spec.onlyWhiteSpace (IdeaForm.answersText s) = true ->
  IdeaForm.runClarification reply s
  = (tt,
     IdeaForm.setToast
       (Some {| IdeaForm.type := IdeaForm.err;
                IdeaForm.text :=
                  "Type or record your answers first (one message is fine)." |}) s,
     [IdeaForm.SetTimeout 3500]).
Proof.
  intros H. apply trim_empty_iff in H.
  unfold IdeaForm.runClarification, IdeaForm.showToast. run_handler.
  rewrite H. reflexivity.
Qed.

(** [runClarification] asks the server exactly when the answer box holds
    something other than white space: then one request goes to the
    clarify endpoint; with an empty or blank box no request is made and
    nothing changes but the notification asking for answers. *)
Theorem clarification_needs_answers (reply : Api.FetchOutcome Types.ExtractionResponse)
    (s : IdeaForm.State) :
  let r := IdeaForm.runClarification reply s in
  IdeaForm.requests (Handler.effects_of r)
    = (if Spec.onlyWhiteSpace (IdeaForm.answersText s) then []
       else [Api.clarifyIdeaRequest (IdeaForm.draft s) (IdeaForm.answersText s)
               (IdeaForm.questions s)])
  /\ (Spec.onlyWhiteSpace (IdeaForm.answersText s) = true ->
      Handler.state_of r
      = IdeaForm.setToast
          (Some {| IdeaForm.type := IdeaForm.err;
                   IdeaForm.text :=
                     "Type or record your answers first (one message is fine)." |}) s).
Proof.
  intros r. subst r.
  destruct (Spec.onlyWhiteSpace (IdeaForm.answersText s)) eqn:E.
  - rewrite (runClarification_blank reply s E). split; reflexivity.
  - rewrite runClarification_settled.
    + split; [reflexivity | discriminate].
    + intros H. apply trim_empty_iff in H. congruence.
Qed.

Lemma clarification_needs_answers_witness :
  Handler.state_of
    (IdeaForm.runClarification (Examples.reply 200 "OK" None (inr Examples.clarified))
       (IdeaForm.setAnswersText "   " (Examples.form Examples.emptyTitle)))
  = IdeaForm.setToast
      (Some {| IdeaForm.type := IdeaForm.err;
               IdeaForm.text :=
                 "Type or record your answers first (one message is fine)." |})
      (IdeaForm.setAnswersText "   " (Examples.form Examples.emptyTitle)).
Proof.
  apply (clarification_needs_answers (Examples.reply 200 "OK" None (inr Examples.clarified))
           (IdeaForm.setAnswersText "   " (Examples.form Examples.emptyTitle))).
  reflexivity.
Defined.

(** Clarifying and then submitting: when the clarification succeeds with
    a draft in which no required field is missing, and the submission
    succeeds, exactly two requests are made, the clarification with the
    old draft and then the submission with the draft the server returned;
    the completeness reads 100 and the notification shows the identifier
    the server assigned. *)
Theorem clarify_then_submit (p : IdeaForm.Props) (s : IdeaForm.State)
    (cr : Api.FetchOutcome Types.ExtractionResponse)
    (sr : Api.FetchOutcome Types.SubmitResponse)
    (res : Types.ExtractionResponse) (sub : Types.SubmitResponse) :
  Js.trim (IdeaForm.answersText s) <> "" ->
  Api.http cr = inr res ->
  Api.http sr = inr sub ->
  IdeaForm.stillMissing (Types.draft res) = [] ->
  let r := (IdeaForm.runClarification cr;; IdeaForm.runSubmit p sr) s in
  let s' := Handler.state_of r in
  IdeaForm.requests (Handler.effects_of r)
    = [Api.clarifyIdeaRequest (IdeaForm.draft s) (IdeaForm.answersText s)
         (IdeaForm.questions s);
       Api.submitIdeaRequest (IdeaForm.transcript p) (IdeaForm.language p)
         (IdeaForm.dialect_hint p) (Types.draft res)]
  /\ IdeaForm.draft s' = Types.draft res
  /\ IdeaForm.completeness (IdeaForm.draft s') = 100%Z
  /\ IdeaForm.toast s'
     = Some {| IdeaForm.type := IdeaForm.ok;
               IdeaForm.text := "Submitted ✅ (id: " ++ Types.id sub ++ ")" |}.
Proof.
  intros Ha Hc Hs Hm r s'. subst s' r.
  rewrite then_state, then_effects.
  rewrite (runClarification_settled cr s Ha), Hc.
  unfold Handler.state_of at 2 4. unfold Handler.effects_of at 2. cbn [fst snd].
  rewrite runSubmit_settled by exact Hm. rewrite Hs.
  split_and!; try reflexivity.
  cbn. apply complete_when_none_missing, Hm.
Qed.

Lemma clarify_then_submit_witness :
  IdeaForm.toast
    (Handler.state_of
       ((IdeaForm.runClarification (Examples.reply 200 "OK" None (inr Examples.clarified));;
         IdeaForm.runSubmit (Examples.props Examples.emptyTitle) Examples.submitted)
          (Examples.answered Examples.emptyTitle)))
  = Some {| IdeaForm.type := IdeaForm.ok; IdeaForm.text := "Submitted ✅ (id: 42)" |}.
Proof.
  pose proof (clarify_then_submit (Examples.props Examples.emptyTitle)
                (Examples.answered Examples.emptyTitle)
                (Examples.reply 200 "OK" None (inr Examples.clarified))
                Examples.submitted Examples.clarified {| Types.id := "42" |}) as H.
  destruct H as (_ & _ & _ & H).
  - vm_compute. discriminate.
  - reflexivity.
  - reflexivity.
  - vm_compute. reflexivity.
  - exact H.
Defined.

Lemma toUpperCase_facts (c : ascii) :
  Js.toUpperCase (Js.toUpperCase c) = Js.toUpperCase c
  /\ Js.isWordChar (Js.toUpperCase c) = Js.isWordChar c
  /\ (Ascii.eqb c "_" = false -> Ascii.eqb (Js.toUpperCase c) "_" = false).
Proof.
  destruct c as [[] [] [] [] [] [] [] []]; vm_compute; repeat split; congruence.
Qed.

Lemma replaceUnderscores_length (s : string) :
  String.length (Js.replaceUnderscores s) = String.length s.
Proof. induction s as [|c r IH]; cbn; [reflexivity | rewrite IH; reflexivity]. Qed.

Lemma capitalizeFrom_length (b : bool) (s : string) :
  String.length (Js.capitalizeFrom b s) = String.length s.
Proof.
  revert b. induction s as [|c r IH]; intros b; cbn; [reflexivity | rewrite IH; reflexivity].
Qed.

(** No underscore, as a property of the characters of a string. *)
Lemma includes_underscore (s : string) :
  Js.includes s "_"
  = match s with
    | EmptyString => false
    | String c r => Ascii.eqb c "_" || Js.includes r "_"
    end.
Proof.
  destruct s as [|c r]; [reflexivity|]. rewrite includes_unfold.
  change (String.prefix "_" (String c r))
    with (if ascii_dec "_" c then String.prefix "" r else false).
  destruct (ascii_dec "_" c) as [<-|H].
  - destruct r; reflexivity.
  - destruct (Ascii.eqb_spec c "_"); [congruence | reflexivity].
Qed.

Lemma replaceUnderscores_clean (s : string) :
  Js.includes (Js.replaceUnderscores s) "_" = false.
Proof.
  induction s as [|c r IH]; [reflexivity|].
  cbn [Js.replaceUnderscores]. rewrite includes_underscore, IH.
  destruct (Ascii.eqb_spec c "_"); [reflexivity|].
  destruct (Ascii.eqb_spec c "_"); [congruence | reflexivity].
Qed.

Lemma capitalizeFrom_clean (b : bool) (s : string) :
  Js.includes s "_" = false -> Js.includes (Js.capitalizeFrom b s) "_" = false.
Proof.
  revert b. induction s as [|c r IH]; intros b; [reflexivity|].
  rewrite includes_underscore. intros [Hc Hr]%orb_false_elim.
  cbn [Js.capitalizeFrom]. rewrite includes_underscore, (IH _ Hr).
  destruct (Js.isWordChar c && negb b); [|rewrite Hc; reflexivity].
  rewrite (proj2 (proj2 (toUpperCase_facts c)) Hc). reflexivity.
Qed.

Lemma replaceUnderscores_id (s : string) :
  Js.includes s "_" = false -> Js.replaceUnderscores s = s.
Proof.
  induction s as [|c r IH]; [reflexivity|].
  rewrite includes_underscore. intros [Hc Hr]%orb_false_elim.
  cbn. rewrite Hc, (IH Hr). reflexivity.
Qed.

Lemma capitalizeFrom_idem (b : bool) (s : string) :
  Js.capitalizeFrom b (Js.capitalizeFrom b s) = Js.capitalizeFrom b s.
Proof.
  revert b. induction s as [|c r IH]; intros b; [reflexivity|].
  cbn [Js.capitalizeFrom].
  destruct (toUpperCase_facts c) as (H1 & H2 & _).
  destruct (Js.isWordChar c && negb b) eqn:E.
  - rewrite H2, E, H1, IH. reflexivity.
  - rewrite E, IH. reflexivity.
Qed.

(** The label of a field key has as many characters as the key and no
    underscore, and labelling a label again changes nothing. *)
Theorem labelOf_shape (k : string) :
  String.length (IdeaForm.labelOf k) = String.length k
  /\ Js.includes (IdeaForm.labelOf k) "_" = false
  /\ IdeaForm.labelOf (IdeaForm.labelOf k) = IdeaForm.labelOf k.
Proof.
  unfold IdeaForm.labelOf, Js.capitalizeWords. split_and!.
  - rewrite capitalizeFrom_length. apply replaceUnderscores_length.
  - apply capitalizeFrom_clean, replaceUnderscores_clean.
  - rewrite (replaceUnderscores_id (Js.capitalizeFrom false _))
      by apply capitalizeFrom_clean, replaceUnderscores_clean.
    apply capitalizeFrom_idem.
Qed.

(* ===================================================================== *)
(** * Further properties of lib/api.ts                                    *)
(* ===================================================================== *)

(** [http] resolves exactly when the request was answered with a status
    from 200 to 299 and a body that parses, and then with the parsed
    body.  An answer with any other status is always an error, even when
    its body parses, and the error's message starts with "API ". *)
Theorem http_succeeds_iff {T} (o : Api.FetchOutcome T) (v : T) (res : Api.Response T) :
  (Api.http o = inr v
   <-> exists r, o = Api.Fulfilled r
                 /\ (200 <= Api.status r <= 299)%Z
                 /\ Api.json r = inr v)
  /\ (~ (200 <= Api.status res <= 299)%Z ->
      exists e, Api.http (Api.Fulfilled res) = inl e
                /\ String.prefix "API " (Js.message e) = true).
Proof.
  assert (Hok : forall r : Api.Response T,
             Api.ok r = true <-> (200 <= Api.status r <= 299)%Z).
  { intros r. unfold Api.ok. rewrite andb_true_iff, !Z.leb_le. reflexivity. }
  split.
  - split.
    + destruct o as [e|r]; cbn; [discriminate|].
      destruct (Api.ok r) eqn:E; cbn; [|discriminate].
      intros H. exists r. split; [reflexivity|]. split; [apply Hok, E | exact H].
    + intros (r & -> & Hs & Hj). cbn. rewrite (proj2 (Hok r) Hs). exact Hj.
  - intros H. destruct (Api.ok res) eqn:E; [apply Hok in E; tauto|].
    rewrite (http_not_ok res E). eexists. split; [reflexivity|].
    cbn [Js.message]. apply prefix_app.
Qed.

Lemma http_succeeds_iff_witness :
  exists e, Api.http (Examples.reply 404 "Not Found" (Some "{}")
                        (inr {| Types.id := "42" |})) = inl e
            /\ String.prefix "API " (Js.message e) = true.
Proof.
  apply (http_succeeds_iff Examples.submitted {| Types.id := "42" |}
           {| Api.status := 404; Api.statusText := "Not Found"; Api.text := Some "{}";
              Api.json := inr {| Types.id := "42" |} |}).
  cbn. lia.
Defined.

Lemma stripTrailingSlash_app (b : string) : Api.stripTrailingSlash (b ++ "/") = b.
Proof.
  induction b as [|c r IH]; [reflexivity|].
  change (String c r ++ "/") with (String c (r ++ "/")).
  cbn [Api.stripTrailingSlash]. rewrite IH.
  destruct r; reflexivity.
Qed.

Lemma stripTrailingSlash_id (b : string) :
  (forall a, b <> a ++ "/") -> Api.stripTrailingSlash b = b.
Proof.
  induction b as [|c r IH]; [reflexivity|]. intros H.
  destruct r as [|c' r'].
  - cbn. destruct (Ascii.eqb_spec c "/") as [->|]; [|reflexivity].
    exfalso. apply (H ""). reflexivity.
  - change (Api.stripTrailingSlash (String c (String c' r')))
      with (String c (Api.stripTrailingSlash (String c' r'))).
    rewrite IH; [reflexivity|]. intros a E. apply (H (String c a)).
    rewrite E. reflexivity.
Qed.

(** The base address of lib/api.ts is never empty.  It is
    http://localhost:8000 when the environment variable is unset, empty
    or a lone slash; a configured address that ends in a slash loses that
    one slash, and any other configured address is used as it is.  The
    form's own [getApiBaseUrl] keeps the slash. *)
Theorem base_url (env win : option string) (b : string) :
  Api.BASE env <> ""
  /\ Api.BASE None = "http://localhost:8000"
  /\ Api.BASE (Some "") = "http://localhost:8000"
  /\ Api.BASE (Some "/") = "http://localhost:8000"
  /\ (b <> "" -> Api.BASE (Some (b ++ "/")) = b)
  /\ (b <> "" -> (forall a, b <> a ++ "/") -> Api.BASE (Some b) = b)
  /\ (b <> "" -> IdeaForm.getApiBaseUrl (Some b) win = b).
Proof.
  unfold Api.BASE. split_and!; try reflexivity.
  - destruct env as [e|]; cbn; [|discriminate].
    destruct (Api.stripTrailingSlash e); discriminate.
  - intros H. cbn. rewrite stripTrailingSlash_app. apply orElse_nonempty, H.
  - intros H1 H2. cbn. rewrite (stripTrailingSlash_id b H2). apply orElse_nonempty, H1.
  - intros H. unfold IdeaForm.getApiBaseUrl. cbn. apply orElse_nonempty, H.
Qed.

Lemma base_url_witness :
  Api.BASE (Some "https://ideas.example/") = "https://ideas.example"
  /\ Api.BASE (Some "https://ideas.example") = "https://ideas.example"
  /\ IdeaForm.getApiBaseUrl (Some "https://ideas.example/") None = "https://ideas.example/".
Proof.
  pose proof (base_url None None "https://ideas.example") as (_ & _ & _ & _ & H1 & H2 & _).
  pose proof (base_url None None "https://ideas.example/") as (_ & _ & _ & _ & _ & _ & H3).
  split_and!.
  - apply H1. discriminate.
  - apply H2; [discriminate|]. intros a E.
    assert (L : Api.stripTrailingSlash "https://ideas.example"
                = Api.stripTrailingSlash (a ++ "/")) by (rewrite <- E; reflexivity).
    rewrite stripTrailingSlash_app in L. subst a. vm_compute in E. discriminate.
  - apply H3. discriminate.
Defined.

(* ===================================================================== *)
(** * The answer box: voice input                                         *)
(* ===================================================================== *)

(** A string includes its trimmed form. *)
Lemma includes_trim (s : string) : Js.includes s (Js.trim s) = true.
Proof.
  unfold Js.trim. destruct (trimStart_suffix s) as [a Ha].
  destruct (trimEnd_prefix (Js.trimStart s)) as [c Hc].
  rewrite Ha at 1. rewrite Hc at 1. apply includes_middle.
Qed.

Lemma includes_self (s : string) : Js.includes s s = true.
Proof.
  pose proof (includes_middle "" s "") as H.
  change ("" ++ s ++ "") with (s ++ "") in H. rewrite append_nil_r in H. exact H.
Qed.

Lemma includes_empty (s : string) : Js.includes s "" = true.
Proof. rewrite includes_unfold. destruct s; reflexivity. Qed.

Lemma appendVoice_keeps (text prev : string) :
  Js.includes (IdeaForm.appendVoice text prev) (Js.trim prev) = true
  /\ Js.includes (IdeaForm.appendVoice text prev) text = true.
Proof.
  unfold IdeaForm.appendVoice. destruct (Js.trim prev) as [|c p].
  - split; [apply includes_empty | apply includes_self].
  - split.
    + apply (includes_middle "" (String c p)).
    + assert (E : String c p ++ String "010" (String "010" "[Voice]") ++ String "010" text
                  = (String c p ++ String "010" (String "010" "[Voice]") ++ String "010" "")
                    ++ text ++ "").
      { rewrite append_nil_r, !append_assoc. reflexivity. }
      rewrite E. apply includes_middle.
Qed.

Lemma appendVoice_nonblank (text prev : string) :
  Spec.onlyWhiteSpace text = false ->
  Spec.onlyWhiteSpace (IdeaForm.appendVoice text prev) = false.
Proof.
  intros H. unfold IdeaForm.appendVoice. destruct (Js.trim prev) as [|c p]; [exact H|].
  rewrite <- isBlank_spec.
  destruct (Js.isBlank _) eqn:B; [exfalso | reflexivity].
  assert (W : Js.isWhiteSpace (Js.byte "[") = true).
  { apply (isBlank_bytes _ B); [|reflexivity].
    rewrite !list_ascii_of_string_app, !in_app_iff. right. left. cbn. auto. }
  discriminate W.
Qed.

Lemma toLowerCase_facts (c : ascii) :
  Js.toLowerCase (Js.toLowerCase c) = Js.toLowerCase c
  /\ ((32 <=? nat_of_ascii (Js.toLowerCase c)) && (nat_of_ascii (Js.toLowerCase c) <=? 126))%nat
     = ((32 <=? nat_of_ascii c) && (nat_of_ascii c <=? 126))%nat.
Proof.
  destruct c as [[] [] [] [] [] [] [] []]; vm_compute; split; reflexivity.
Qed.

Lemma lowerCase_facts (s : string) :
  Js.lowerCase (Js.lowerCase s) = Js.lowerCase s
  /\ Js.isPrintable (Js.lowerCase s) = Js.isPrintable s.
Proof.
  induction s as [|c r [IH1 IH2]]; [split; reflexivity|].
  cbn [Js.lowerCase Js.isPrintable].
  destruct (toLowerCase_facts c) as [H1 H2]. rewrite H1, H2, IH1, IH2.
  split; reflexivity.
Qed.

(** The type a blob shows is already in the form a blob shows. *)
Lemma normalizeType_idem (t : string) :
  Js.normalizeType (Js.normalizeType t) = Js.normalizeType t.
Proof.
  unfold Js.normalizeType. destruct (Js.isPrintable t) eqn:E; [|reflexivity].
  destruct (lowerCase_facts t) as [H1 H2]. rewrite H2, E, H1. reflexivity.
Qed.

(** [transcribeAndFill] always makes its one request and always ends with
    the transcribing flag down and a notification up; only the answer box
    and the notification can differ afterwards. *)
Lemma transcribeAndFill_shape (blob : Js.Blob) (now : Z)
    (reply : Api.FetchOutcome (option string)) (s : IdeaForm.State) :
  exists answers note,
    IdeaForm.transcribeAndFill blob now reply s
    = (tt,
       IdeaForm.mkState (IdeaForm.draft s) (IdeaForm.questions s) (IdeaForm.missingFields s)
         (IdeaForm.fieldMeta s) answers (IdeaForm.isClarifying s) (IdeaForm.isSubmitting s)
         (IdeaForm.isRecording s) false (Some note),
       [IdeaForm.Fetch
          {| Api.path := "/v1/voice/transcribe"; Api.method := "POST";
             Api.body :=
               Api.TranscribeBody
                 {| Js.file_name := "answer-" ++ pretty now ++ ".webm";
                    Js.file_data := Js.blob_data blob;
                    Js.file_type := Js.blob_type blob |} |};
        IdeaForm.SetTimeout 3500])
    /\ (answers = IdeaForm.answersText s /\ IdeaForm.type note = IdeaForm.err
        \/ exists resp data,
             reply = Api.Fulfilled resp /\ Api.ok resp = true
             /\ Api.json resp = inr (Some data) /\ Js.trim data <> ""
             /\ answers = IdeaForm.appendVoice (Js.trim data) (IdeaForm.answersText s)
             /\ note = {| IdeaForm.type := IdeaForm.ok;
                          IdeaForm.text := "Voice added to answers ✅" |}).
Proof.
  assert (F : Js.newFile [blob] ("answer-" ++ pretty now ++ ".webm") (Js.blob_type blob)
              = {| Js.file_name := "answer-" ++ pretty now ++ ".webm";
                   Js.file_data := Js.blob_data blob;
                   Js.file_type := Js.blob_type blob |}).
  { unfold Js.newFile, Js.blob_type. cbn [List.map List.concat].
    rewrite List.app_nil_r, normalizeType_idem. reflexivity. }
  unfold IdeaForm.transcribeAndFill, IdeaForm.showToast. rewrite F. run_handler.
  destruct reply as [e|resp].
  - do 2 eexists. split; [reflexivity|]. left. split; reflexivity.
  - destruct (Api.ok resp) eqn:Hok; cbn [negb].
    2:{ do 2 eexists. split; [reflexivity|]. left. split; reflexivity. }
    destruct (Api.json resp) as [e|data] eqn:Hj.
    { do 2 eexists. split; [reflexivity|]. left. split; reflexivity. }
    destruct data as [data|]; cbn [default id].
    + assert (Ho : Js.orElse data "" = data) by (destruct data; reflexivity).
      rewrite Ho. cbn [Js.truthy].
      destruct (Js.trim data) eqn:Ht; cbn.
      * do 2 eexists. split; [reflexivity|]. left. split; reflexivity.
      * do 2 eexists. split; [reflexivity|]. right.
        exists resp, data. rewrite Ht.
        split_and!; try reflexivity; try assumption. discriminate.
    + do 2 eexists. split; [reflexivity|]. left. split; reflexivity.
Qed.

(** Dictating never loses what was typed.  Whatever the transcription
    request settles with, [transcribeAndFill] makes exactly one request,
    to the transcription endpoint, with a file that has the bytes and the
    type of the recording; afterwards the transcribing flag is down, the
    draft, field meta, questions and missing fields are as before, and
    the answer box still includes its previous content, trimmed. *)
Theorem voice_never_discards (blob : Js.Blob) (now : Z)
    (reply : Api.FetchOutcome (option string)) (s : IdeaForm.State) :
  let r := IdeaForm.transcribeAndFill blob now reply s in
  let s' := Handler.state_of r in
  IdeaForm.requests (Handler.effects_of r)
    = [ {| Api.path := "/v1/voice/transcribe"; Api.method := "POST";
           Api.body :=
             Api.TranscribeBody
               {| Js.file_name := "answer-" ++ pretty now ++ ".webm";
                  Js.file_data := Js.blob_data blob;
                  Js.file_type := Js.blob_type blob |} |} ]
  /\ IdeaForm.isTranscribing s' = false
  /\ IdeaForm.draft s' = IdeaForm.draft s
  /\ IdeaForm.fieldMeta s' = IdeaForm.fieldMeta s
  /\ IdeaForm.questions s' = IdeaForm.questions s
  /\ IdeaForm.missingFields s' = IdeaForm.missingFields s
  /\ is_Some (IdeaForm.toast s')
  /\ Js.includes (IdeaForm.answersText s') (Js.trim (IdeaForm.answersText s)) = true.
Proof.
  intros r s'. subst s' r.
  destruct (transcribeAndFill_shape blob now reply s) as (answers & note & -> & H).
  cbn. split_and!; try reflexivity; [eexists; reflexivity|].
  destruct H as [[-> _]|(resp & data & _ & _ & _ & _ & -> & _)].
  - apply includes_trim.
  - apply appendVoice_keeps.
Qed.

Lemma transcribeAndFill_success (blob : Js.Blob) (now : Z)
    (resp : Api.Response (option string)) (data : string) (s : IdeaForm.State) :
  Api.ok resp = true ->
  Api.json resp = inr (Some data) ->
  Js.trim data <> "" ->
  Handler.state_of (IdeaForm.transcribeAndFill blob now (Api.Fulfilled resp) s)
  = IdeaForm.mkState (IdeaForm.draft s) (IdeaForm.questions s) (IdeaForm.missingFields s)
      (IdeaForm.fieldMeta s)
      (IdeaForm.appendVoice (Js.trim data) (IdeaForm.answersText s))
      (IdeaForm.isClarifying s) (IdeaForm.isSubmitting s) (IdeaForm.isRecording s) false
      (Some {| IdeaForm.type := IdeaForm.ok; IdeaForm.text := "Voice added to answers ✅" |}).
Proof.
  intros Hok Hj Ht.
  unfold IdeaForm.transcribeAndFill, IdeaForm.showToast. run_handler.
  rewrite Hok, Hj. cbn [negb default id].
  assert (Ho : Js.orElse data "" = data) by (destruct data; reflexivity).
  rewrite Ho. cbn [Js.truthy].
  destruct (Js.trim data) eqn:E; [congruence|]. reflexivity.
Qed.

(** A transcription that succeeds with a transcript that is not blank is
    added to the answer box: when the box was blank it now holds the
    transcript, trimmed, and otherwise its trimmed content followed by a
    blank line, the line "[Voice]" and the transcript.  The box is then
    not blank, so a clarification started next does send its request,
    with the box's new content. *)
Theorem voice_appends (blob : Js.Blob) (now : Z) (resp : Api.Response (option string))
    (data : string) (s : IdeaForm.State)
    (cr : Api.FetchOutcome Types.ExtractionResponse) :
  Api.ok resp = true ->
  Api.json resp = inr (Some data) ->
  Js.trim data <> "" ->
  let s' := Handler.state_of (IdeaForm.transcribeAndFill blob now (Api.Fulfilled resp) s) in
  IdeaForm.answersText s'
    = match Js.trim (IdeaForm.answersText s) with
      | EmptyString => Js.trim data
      | p => p ++ String "010" (String "010" "[Voice]") ++ String "010" (Js.trim data)
      end
  /\ Js.includes (IdeaForm.answersText s') (Js.trim data) = true
  /\ IdeaForm.toast s'
     = Some {| IdeaForm.type := IdeaForm.ok; IdeaForm.text := "Voice added to answers ✅" |}
  /\ IdeaForm.requests (Handler.effects_of (IdeaForm.runClarification cr s'))
     = [Api.clarifyIdeaRequest (IdeaForm.draft s) (IdeaForm.answersText s')
          (IdeaForm.questions s)].
Proof.
  intros Hok Hj Ht s'. subst s'.
  rewrite (transcribeAndFill_success blob now resp data s Hok Hj Ht).
  cbn [IdeaForm.answersText IdeaForm.toast].
  split_and!; try reflexivity.
  - apply appendVoice_keeps.
  - rewrite runClarification_settled; [reflexivity|].
    cbn [IdeaForm.answersText]. intros H. apply trim_empty_iff in H.
    rewrite appendVoice_nonblank in H; [discriminate | apply trim_nonblank, Ht].
Qed.

Lemma voice_appends_witness :
  IdeaForm.answersText
    (Handler.state_of
       (IdeaForm.transcribeAndFill Examples.chunk 1700000000000
          (Examples.reply 200 "OK" None (inr (Some " for every street ")))
          (Examples.answered Examples.emptyTitle)))
  = "Call it Lantern" ++ String "010" (String "010" "[Voice]")
    ++ String "010" "for every street".
Proof.
  apply (voice_appends Examples.chunk 1700000000000
           {| Api.status := 200; Api.statusText := "OK"; Api.text := None;
              Api.json := inr (Some " for every street ") |}
           " for every street " (Examples.answered Examples.emptyTitle)
           (Api.Rejected (Js.mkError "offline"))).
  - reflexivity.
  - reflexivity.
  - vm_compute. discriminate.
Defined.

Lemma voiceReleased_app (l1 l2 : list IdeaForm.VoiceEffect) :
  IdeaForm.voiceReleased (l1 ++ l2)
  = (IdeaForm.voiceReleased l1 ++ IdeaForm.voiceReleased l2)%list.
Proof. apply List.flat_map_app. Qed.

Lemma voiceRequests_app (l1 l2 : list IdeaForm.VoiceEffect) :
  IdeaForm.voiceRequests (l1 ++ l2)
  = (IdeaForm.voiceRequests l1 ++ IdeaForm.voiceRequests l2)%list.
Proof. apply List.flat_map_app. Qed.

Ltac use_transcribe_shape :=
  match goal with
  | |- context [IdeaForm.transcribeAndFill ?b ?n ?r ?s] =>
      let answers := fresh "answers" in
      let note := fresh "note" in
      let E := fresh "E" in
      destruct (transcribeAndFill_shape b n r s) as (answers & note & E & _);
      rewrite E; clear E
  end.

(** [stopRecording] on a recorder that is recording. *)
Lemma stopRecording_active (e : IdeaForm.VoiceEnv) (r : IdeaForm.Recorder)
    (v : IdeaForm.Voice) :
  IdeaForm.mediaRecorderRef v = Some r ->
  IdeaForm.recorder_active r = true ->
  exists s',
    IdeaForm.stopRecording e v
    = (tt,
       IdeaForm.mkVoice s'
         (Some {| IdeaForm.recorder_stream := IdeaForm.recorder_stream r;
                  IdeaForm.recorder_mimeType := IdeaForm.recorder_mimeType r;
                  IdeaForm.recorder_active := false |})
         [] None,
       [IdeaForm.Form (IdeaForm.SetTimeout 3500);
        IdeaForm.StopTracks (IdeaForm.recorder_stream r);
        IdeaForm.Form
          (IdeaForm.Fetch
             {| Api.path := "/v1/voice/transcribe"; Api.method := "POST";
                Api.body :=
                  Api.TranscribeBody
                    {| Js.file_name := "answer-" ++ pretty (IdeaForm.now e) ++ ".webm";
                       Js.file_data :=
                         List.concat
                           (List.map Js.blob_data
                              (IdeaForm.chunksRef v ++ Spec.kept [IdeaForm.finalData e]));
                       Js.file_type :=
                         Js.normalizeType
                           (Js.orElse (IdeaForm.recorder_mimeType r) "audio/webm") |} |});
        IdeaForm.Form (IdeaForm.SetTimeout 3500)])
    /\ IdeaForm.isRecording s' = false
    /\ IdeaForm.isTranscribing s' = false
    /\ IdeaForm.isClarifying s' = IdeaForm.isClarifying (IdeaForm.hooks v)
    /\ IdeaForm.draft s' = IdeaForm.draft (IdeaForm.hooks v).
Proof.
  intros Hr Ha. destruct v as [h m ch st]. cbn in Hr. subst m.
  unfold IdeaForm.stopRecording, IdeaForm.voiceStopped, IdeaForm.voiceData,
    IdeaForm.onHooks, IdeaForm.showToast, Spec.kept.
  run_handler. cbn -[IdeaForm.transcribeAndFill Nat.ltb]. rewrite Ha.
  destruct (0 <? Js.blob_size (IdeaForm.finalData e))%nat;
    cbn -[IdeaForm.transcribeAndFill]; use_transcribe_shape;
    cbn; rewrite ?List.app_nil_r; eexists; (split; [reflexivity|]); cbn;
    split_and!; reflexivity.
Qed.

(** [stopRecording] when there is no recorder or it has already stopped:
    the flag and the notification, nothing else. *)
Lemma stopRecording_inactive (e : IdeaForm.VoiceEnv) (v : IdeaForm.Voice) :
  match IdeaForm.mediaRecorderRef v with
  | Some r => IdeaForm.recorder_active r = false
  | None => True
  end ->
  IdeaForm.stopRecording e v
  = (tt,
     IdeaForm.setHooks
       (fun h => IdeaForm.setToast
                   (Some {| IdeaForm.type := IdeaForm.ok;
                            IdeaForm.text := "Recording stopped. Transcribing…" |})
                   (IdeaForm.setIsRecording false h)) v,
     [IdeaForm.Form (IdeaForm.SetTimeout 3500)]).
Proof.
  intros H. destruct v as [h [r|] ch st]; cbn in H;
    unfold IdeaForm.stopRecording, IdeaForm.onHooks, IdeaForm.showToast; run_handler;
    cbn; rewrite ?H; reflexivity.
Qed.

(** Stopping the answer-box recorder releases that recorder's own
    stream.  When the recorder in the ref is recording, [stopRecording]
    releases the stream the recorder was built on, once, whatever the
    stream ref holds at the time, and clears the stream ref; it sends
    exactly one request, to the transcription endpoint, with a file named
    after the clock whose bytes are the chunks accumulated followed by
    the data delivered at stop (chunks of size zero left out) and whose
    type is the type the recorder reports, or audio/webm when it reports
    none, in the form every blob shows its type; afterwards the chunk
    buffer is empty, the recorder is inactive, the form neither records
    nor transcribes, and the draft is as before. *)
Theorem voice_stop_releases_own_stream (e : IdeaForm.VoiceEnv) (r : IdeaForm.Recorder)
    (v : IdeaForm.Voice) :
  IdeaForm.mediaRecorderRef v = Some r ->
  IdeaForm.recorder_active r = true ->
  let res := IdeaForm.stopRecording e v in
  let v' := Handler.state_of res in
  IdeaForm.voiceReleased (Handler.effects_of res) = [IdeaForm.recorder_stream r]
  /\ IdeaForm.voiceRequests (Handler.effects_of res)
     = [ {| Api.path := "/v1/voice/transcribe"; Api.method := "POST";
            Api.body :=
              Api.TranscribeBody
                {| Js.file_name := "answer-" ++ pretty (IdeaForm.now e) ++ ".webm";
                   Js.file_data :=
                     List.concat
                       (List.map Js.blob_data
                          (IdeaForm.chunksRef v
                           ++ List.filter (fun c => (0 <? Js.blob_size c)%nat)
                                [IdeaForm.finalData e]));
                   Js.file_type :=
                     Js.normalizeType
                       (Js.orElse (IdeaForm.recorder_mimeType r) "audio/webm") |} |} ]
  /\ IdeaForm.chunksRef v' = []
  /\ IdeaForm.streamRef v' = None
  /\ IdeaForm.recorder_active <$> IdeaForm.mediaRecorderRef v' = Some false
  /\ IdeaForm.isRecording (IdeaForm.hooks v') = false
  /\ IdeaForm.isTranscribing (IdeaForm.hooks v') = false
  /\ IdeaForm.draft (IdeaForm.hooks v') = IdeaForm.draft (IdeaForm.hooks v).
Proof.
  intros Hm Ha res v'. subst v' res.
  destruct (stopRecording_active e r v Hm Ha) as (s' & -> & H1 & H2 & _ & H3).
  unfold Handler.effects_of, Handler.state_of. cbn [fst snd].
  split_and!; try reflexivity; assumption.
Qed.

(** The stream ref has been overwritten with stream 9 by a later start;
    the recorder stopped was built on stream 5. *)
Lemma voice_stop_releases_own_stream_witness :
  IdeaForm.voiceReleased
    (Handler.effects_of
       (IdeaForm.stopRecording
          {| IdeaForm.finalData := Examples.chunk; IdeaForm.now := 1700000000000;
             IdeaForm.transcription := Api.Rejected (Js.mkError "offline") |}
          (IdeaForm.mkVoice (Examples.form Examples.emptyTitle)
             (Some {| IdeaForm.recorder_stream := 5; IdeaForm.recorder_mimeType := "";
                      IdeaForm.recorder_active := true |})
             [] (Some 9%nat))))
  = [5%nat].
Proof.
  apply (voice_stop_releases_own_stream
           {| IdeaForm.finalData := Examples.chunk; IdeaForm.now := 1700000000000;
              IdeaForm.transcription := Api.Rejected (Js.mkError "offline") |}
           {| IdeaForm.recorder_stream := 5; IdeaForm.recorder_mimeType := "";
              IdeaForm.recorder_active := true |}
           (IdeaForm.mkVoice (Examples.form Examples.emptyTitle)
              (Some {| IdeaForm.recorder_stream := 5; IdeaForm.recorder_mimeType := "";
                       IdeaForm.recorder_active := true |})
              [] (Some 9%nat))); reflexivity.
Defined.

(** Stopping twice is harmless, for both recorders: in any state, a second
    call of the stop function right after the first releases nothing,
    hands over no file and sends no request beyond what the first did. *)
Theorem second_stop_is_idle (e1 e2 : IdeaForm.VoiceEnv) (v : IdeaForm.Voice)
    (a1 a2 : AudioRecorder.Env) (s : AudioRecorder.State) :
  let once := IdeaForm.stopRecording e1 v in
  let twice := (IdeaForm.stopRecording e1;; IdeaForm.stopRecording e2) v in
  let once' := AudioRecorder.stop a1 s in
  let twice' := (AudioRecorder.stop a1;; AudioRecorder.stop a2) s in
  IdeaForm.voiceReleased (Handler.effects_of twice)
    = IdeaForm.voiceReleased (Handler.effects_of once)
  /\ IdeaForm.voiceRequests (Handler.effects_of twice)
     = IdeaForm.voiceRequests (Handler.effects_of once)
  /\ AudioRecorder.released (Handler.effects_of twice')
     = AudioRecorder.released (Handler.effects_of once')
  /\ AudioRecorder.recordedFiles (Handler.effects_of twice')
     = AudioRecorder.recordedFiles (Handler.effects_of once')
  /\ AudioRecorder.recorderRef (Handler.state_of once') = None
  /\ AudioRecorder.isRecording (Handler.state_of once') = false.
Proof.
  intros once twice once' twice'. subst once twice once' twice'.
  rewrite !then_effects, voiceReleased_app, voiceRequests_app, released_app,
    recordedFiles_app.
  assert (V : match IdeaForm.mediaRecorderRef
                      (Handler.state_of (IdeaForm.stopRecording e1 v)) with
              | Some r => IdeaForm.recorder_active r = false
              | None => True
              end).
  { destruct (IdeaForm.mediaRecorderRef v) as [r|] eqn:Hm.
    - destruct (IdeaForm.recorder_active r) eqn:Ha.
      + destruct (stopRecording_active e1 r v Hm Ha) as (s' & -> & _). reflexivity.
      + rewrite stopRecording_inactive by (rewrite Hm; exact Ha).
        cbn. rewrite Hm. exact Ha.
    - rewrite stopRecording_inactive by (rewrite Hm; exact I). cbn. rewrite Hm. exact I. }
  rewrite (stopRecording_inactive e2 _ V).
  assert (A : AudioRecorder.recorderRef (Handler.state_of (AudioRecorder.stop a1 s)) = None
              /\ AudioRecorder.isRecording (Handler.state_of (AudioRecorder.stop a1 s))
                 = false).
  { destruct (AudioRecorder.recorderRef s) as [rec|] eqn:Hr.
    - destruct (AudioRecorder.rec_recording rec) eqn:Hrec.
      + rewrite (stop_recorder a1 rec s Hr Hrec). split; reflexivity.
      + rewrite (stop_idle a1 s) by (rewrite Hr; exact Hrec). split; reflexivity.
    - rewrite (stop_idle a1 s) by (rewrite Hr; exact I). split; reflexivity. }
  destruct A as [A1 A2]. rewrite (stop_idle a2 _) by (rewrite A1; exact I).
  cbn [Handler.effects_of snd IdeaForm.voiceReleased IdeaForm.voiceRequests List.flat_map].
  rewrite !List.app_nil_r.
  split_and!; try reflexivity; try assumption.
  - destruct (AudioRecorder.timerRef _); cbn; rewrite List.app_nil_r; reflexivity.
  - destruct (AudioRecorder.timerRef _); cbn; rewrite List.app_nil_r; reflexivity.
Qed.

(* ===================================================================== *)
(** * Further properties of the page                                      *)
(* ===================================================================== *)

Ltac run_process :=
  unfold Page.runProcess, Page.gatherInput, Page.call; run_handler; cbn;
  repeat (break_inner; cbn).

(** Processing ends in exactly one of two ways: with an extraction and
    no error, or with an error and no extraction.  Either way the busy
    flag is down, the mode, the audio file and the typed text are as
    before, and at most two requests were made. *)
Theorem process_outcome (tr : Api.FetchOutcome Types.TranscribeResponse)
    (er : Api.FetchOutcome Types.ExtractionResponse) (s : Page.State) :
  let r := Page.runProcess tr er s in
  let s' := Handler.state_of r in
  match Page.extraction s', Page.error s' with
  | Some _, None | None, Some _ => True
  | _, _ => False
  end
  /\ Page.busy s' = false
  /\ Page.mode s' = Page.mode s
  /\ Page.audioFile s' = Page.audioFile s
  /\ Page.manualText s' = Page.manualText s
  /\ (List.length (Handler.effects_of r) <= 2)%nat.
Proof.
  run_process; split_and!; try reflexivity; try exact I; try assumption; lia.
Qed.

(** The requests of [runProcess], case by case. *)
Lemma process_effects (tr : Api.FetchOutcome Types.TranscribeResponse)
    (er : Api.FetchOutcome Types.ExtractionResponse) (s : Page.State) :
  Handler.effects_of (Page.runProcess tr er s)
  = match Page.mode s with
    | Types.text =>
        if String.eqb (Js.trim (Page.manualText s)) "" then []
        else [Api.extractIdeaRequest (Js.trim (Page.manualText s)) (Some "unknown") None]
    | _ =>
        match Page.audioFile s with
        | None => []
        | Some file =>
            Api.transcribeAudioRequest file
            :: match Api.http tr with
               | inl _ => []
               | inr t =>
                   if String.eqb (Js.trim (Types.transcript t)) "" then []
                   else [Api.extractIdeaRequest (Types.transcript t)
                           (Some (Types.languageName (Types.language t)))
                           (Types.dialect_hint t)]
               end
        end
    end.
Proof.
  unfold Page.runProcess, Page.gatherInput, Page.call. run_handler. cbn -[Js.trim].
  destruct (Page.mode s); cbn -[Js.trim].
  3:{ destruct (String.eqb_spec (Js.trim (Page.manualText s)) "") as [E|E];
        cbn -[Js.trim]; [reflexivity|].
      destruct (String.eqb_spec (Js.trim (Js.trim (Page.manualText s))) "") as [E'|E'].
      - exfalso. apply trim_empty_iff in E'. apply trim_nonblank in E. congruence.
      - cbn -[Js.trim]. destruct (Api.http er); reflexivity. }
  all: destruct (Page.audioFile s); cbn -[Js.trim]; [|reflexivity].
  all: destruct (Api.http tr) as [e|t]; cbn -[Js.trim]; [reflexivity|].
  all: destruct (String.eqb (Js.trim (Types.transcript t)) ""); cbn -[Js.trim];
    [reflexivity|].
  all: destruct (Api.http er); reflexivity.
Qed.

(** What processing sends.  The extraction endpoint is never sent a blank
    text; in text mode it is sent the typed text, trimmed, with the
    language hint "unknown" and no dialect hint, and the transcription
    endpoint is not called; a transcription request is made only in an
    audio mode and carries the file selected. *)
Theorem process_requests (tr : Api.FetchOutcome Types.TranscribeResponse)
    (er : Api.FetchOutcome Types.ExtractionResponse) (s : Page.State) (req : Api.Request) :
  In req (Handler.effects_of (Page.runProcess tr er s)) ->
  match Api.body req with
  | Api.ExtractBody t language dialect =>
      Js.trim t <> ""
      /\ Api.path req = "/v1/voice/extract"
      /\ match Page.mode s with
         | Types.text =>
             t = Js.trim (Page.manualText s) /\ language = Some "unknown" /\ dialect = None
         | _ =>
             exists tres, Api.http tr = inr tres
                          /\ t = Types.transcript tres
                          /\ language = Some (Types.languageName (Types.language tres))
                          /\ dialect = Types.dialect_hint tres
         end
  | Api.TranscribeBody file =>
      Page.mode s <> Types.text /\ Page.audioFile s = Some file
      /\ Api.path req = "/v1/voice/transcribe"
  | _ => False
  end.
Proof.
  rewrite process_effects.
  destruct (Page.mode s) eqn:Hm.
  3:{ destruct (String.eqb_spec (Js.trim (Page.manualText s)) "") as [E|E]; [intros []|].
      intros [<-|[]]. cbn. split_and!; try reflexivity.
      intros H. apply trim_nonblank in E. apply trim_empty_iff in H. congruence. }
  all: destruct (Page.audioFile s) as [file|]; [|intros []].
  all: intros [<-|H]; [cbn; split_and!; [discriminate | reflexivity | reflexivity]|].
  all: destruct (Api.http tr) as [e|t]; [destruct H|].
  all: destruct (String.eqb_spec (Js.trim (Types.transcript t)) "") as [E|E]; [destruct H|].
  all: destruct H as [<-|[]]; cbn; split_and!; [exact E | reflexivity|].
  all: exists t; split_and!; reflexivity.
Qed.

Lemma process_requests_witness :
  Js.trim "a lantern" <> "".
Proof.
  pose proof (process_requests (Api.Rejected (Js.mkError "unused"))
                (Api.Rejected (Js.mkError "offline"))
                (Page.setManualText " a lantern " (Page.setMode Types.text Page.init))
                (Api.extractIdeaRequest "a lantern" (Some "unknown") None)) as H.
  destruct H as [H _].
  - left. reflexivity.
  - exact H.
Defined.

(** Every occurrence keeps the busy flag in step with the call in
    flight. *)
Lemma occur_busy (o : Page.Occurrence) (waiting : option Page.Await) (s : Page.State) :
  Page.busy s = bool_decide (is_Some waiting) ->
  Page.busy (Handler.state_of (Page.occur o waiting s))
  = bool_decide (is_Some (fst (fst (Page.occur o waiting s)))).
Proof.
  intros H.
  destruct o as [m|f|f|v| |tr|er]; cbn [Page.occur].
  1-4: exact H.
  - unfold Page.processBegin, Page.requestExtraction, Page.processFailed.
    run_handler. rewrite H. destruct waiting as [w|]; cbn -[Js.trim]; [exact H|].
    repeat (break_inner; cbn -[Js.trim]); reflexivity.
  - destruct waiting as [[]|]; try exact H.
    unfold Page.processTranscribed, Page.requestExtraction, Page.processFailed.
    run_handler. repeat (break_inner; cbn -[Js.trim]); rewrite ?H; reflexivity.
  - destruct waiting as [[]|]; try exact H.
    unfold Page.processExtracted, Page.processFailed.
    run_handler. repeat (break_inner; cbn -[Js.trim]); reflexivity.
Qed.

(** [runProcess] is the run of its three parts with nothing in between;
    between them, the page goes on.  The three parts of [runProcess],
    each run when the call before it has settled, make up [runProcess].
    For every sequence of user actions, clicks on the Process button and
    calls settling, from the initial page, the busy flag is up at the end
    exactly when a call of [runProcess] is waiting, so at most one is in
    flight and the button is enabled exactly when none is.  The other
    controls stay enabled: when the user types an idea, clicks Process
    and selects the recording mode before the extraction has settled, the
    extraction arrives all the same, and the page ends in recording mode,
    not busy, with no audio and no transcription, showing the extraction
    of the text that was typed. *)
Theorem process_interleaved (tr : Api.FetchOutcome Types.TranscribeResponse)
    (er : Api.FetchOutcome Types.ExtractionResponse) (s : Page.State)
    (os : list Page.Occurrence) (ex : Types.ExtractionResponse) :
  Page.runProcess tr er s
  = (a ← Page.processBegin;
     b ← match a with
         | Some Page.AwaitTranscribe => Page.processTranscribed tr
         | _ => mret a
         end;
     c ← match b with
         | Some Page.AwaitExtract => Page.processExtracted er
         | _ => mret b
         end;
     mret tt) s
  /\ (let r := Page.unfold os None Page.init in
      Page.busy (Handler.state_of r) = bool_decide (is_Some (fst (fst r))))
  /\ (let r := Page.unfold
                 [Page.SelectsMode Types.text; Page.TypesText "a lantern"; Page.ClicksProcess;
                  Page.SelectsMode Types.record;
                  Page.ExtractionSettles (Api.Fulfilled
                     {| Api.status := 200; Api.statusText := "OK"; Api.text := None;
                        Api.json := inr ex |})]
                 None Page.init in
      Handler.effects_of r = [Api.extractIdeaRequest "a lantern" (Some "unknown") None]
      /\ Handler.state_of r
         = {| Page.mode := Types.record; Page.audioFile := None;
              Page.manualText := "a lantern"; Page.transcribe := None;
              Page.extraction := Some ex; Page.busy := false; Page.error := None |}
      /\ Page.transcriptText (Handler.state_of r) = "").
Proof.
  split_and!.
  - unfold Page.runProcess, Page.gatherInput, Page.call, Page.processBegin,
      Page.processTranscribed, Page.processExtracted, Page.requestExtraction,
      Page.processFailed.
    run_handler. cbn -[Js.trim].
    repeat (break_inner; cbn -[Js.trim]; try reflexivity).
  - cbv zeta.
    assert (G : forall os w s0,
               Page.busy s0 = bool_decide (is_Some w) ->
               Page.busy (Handler.state_of (Page.unfold os w s0))
               = bool_decide (is_Some (fst (fst (Page.unfold os w s0))))).
    { clear os. induction os as [|o os IH]; intros w s0 H; [exact H|].
      cbn [Page.unfold]. pose proof (occur_busy o w s0 H) as H1.
      run_handler. destruct (Page.occur o w s0) as [[w1 s1] e1]. cbn in H1.
      specialize (IH w1 s1 H1). cbn [fst snd].
      destruct (Page.unfold os w1 s1) as [[w2 s2] e2]. exact IH. }
    apply G. reflexivity.
  - vm_compute. split_and!; reflexivity.
Qed.

(** The cards of the mode selector: whatever the current mode, exactly
    one card is marked as selected, and after a card is clicked it is
    that card. *)
Theorem one_card_selected (s : Page.State) (it : ModeSelector.Item) (m : Types.InputMode) :
  List.length (List.filter (ModeSelector.active m) ModeSelector.items) = 1%nat
  /\ (In it ModeSelector.items ->
      List.filter
        (ModeSelector.active
           (Page.mode (Handler.state_of (ModeSelector.onClick Page.selectMode it s))))
        ModeSelector.items
      = [it]).
Proof.
  split.
  - destruct m; reflexivity.
  - intros [<-|[<-|[<-|[]]]]; reflexivity.
Qed.

Lemma one_card_selected_witness :
  List.filter
    (ModeSelector.active
       (Page.mode
          (Handler.state_of
             (ModeSelector.onClick Page.selectMode
                {| ModeSelector.key := Types.upload; ModeSelector.title := "Audio Upload";
                   ModeSelector.desc := "Upload a voice note or file." |} Page.init))))
    ModeSelector.items
  = [ {| ModeSelector.key := Types.upload; ModeSelector.title := "Audio Upload";
         ModeSelector.desc := "Upload a voice note or file." |} ].
Proof.
  apply (one_card_selected Page.init
           {| ModeSelector.key := Types.upload; ModeSelector.title := "Audio Upload";
              ModeSelector.desc := "Upload a voice note or file." |} Types.record).
  cbn. auto.
Defined.

(* ===================================================================== *)
(** * Further properties of the recorder                                  *)
(* ===================================================================== *)

Lemma intervalsSet_app (l1 l2 : list AudioRecorder.Effect) :
  AudioRecorder.intervalsSet (l1 ++ l2)
  = (AudioRecorder.intervalsSet l1 ++ AudioRecorder.intervalsSet l2)%list.
Proof. apply List.flat_map_app. Qed.

Lemma intervalsCleared_app (l1 l2 : list AudioRecorder.Effect) :
  AudioRecorder.intervalsCleared (l1 ++ l2)
  = (AudioRecorder.intervalsCleared l1 ++ AudioRecorder.intervalsCleared l2)%list.
Proof. apply List.flat_map_app. Qed.

Lemma get_then {S E A} (k : S -> Handler.t S E A) (s : S) :
  (s' ← Handler.get; k s') s = k s s.
Proof. run_handler. destruct (k s s) as [[a s1] e1]. reflexivity. Qed.

(** Each handler keeps the seconds counter in step with the recording
    flag and balances the ledger of intervals: what was running plus what
    the handler starts is what it clears plus what runs afterwards. *)
Lemma handler_display (h : AudioRecorder.Handler unit) (b : AudioRecorder.Browser)
    (e : AudioRecorder.Env) (s : AudioRecorder.State) :
  h = AudioRecorder.onClick e \/ h = AudioRecorder.startSettled b e ->
  Spec.display s ->
  Spec.display (Handler.state_of (h s))
  /\ (Spec.ticking s ++ AudioRecorder.intervalsSet (Handler.effects_of (h s))
      = AudioRecorder.intervalsCleared (Handler.effects_of (h s))
        ++ Spec.ticking (Handler.state_of (h s)))%list.
Proof.
  unfold Spec.display, Spec.ticking.
  intros [-> | ->] Hd.
  - unfold AudioRecorder.onClick, AudioRecorder.stop, AudioRecorder.stopTimer,
      AudioRecorder.startRequest, AudioRecorder.onstop, AudioRecorder.ondataavailable.
    run_handler.
    destruct s as [sup pe ir sec au st rr ch ti]; cbn -[Nat.ltb] in Hd |- *.
    destruct sup; cbn [negb].
    2:{ cbn. split; [exact Hd | apply List.app_nil_r]. }
    destruct ir; cbn in Hd.
    + destruct Hd as [id Hid]. subst ti. cbn -[Nat.ltb].
      destruct rr as [rec|]; cbn -[Nat.ltb]; [|split; reflexivity].
      destruct (AudioRecorder.rec_recording rec); cbn -[Nat.ltb]; [|split; reflexivity].
      destruct (0 <? Js.blob_size (AudioRecorder.finalData e))%nat; cbn;
        destruct st; cbn; split; reflexivity.
    + cbn. subst ti. split; reflexivity.
  - unfold AudioRecorder.startSettled, AudioRecorder.startFailed, AudioRecorder.startTimer,
      AudioRecorder.stopTimer.
    run_handler.
    destruct s as [sup pe ir sec au st rr ch ti]; cbn in Hd |- *.
    destruct (AudioRecorder.media e) as [error|stream]; cbn.
    { split; [exact Hd | apply List.app_nil_r]. }
    destruct (AudioRecorder.constructorThrows e); cbn.
    { split; [exact Hd | apply List.app_nil_r]. }
    destruct (AudioRecorder.startThrows e); cbn.
    { split; [exact Hd | apply List.app_nil_r]. }
    destruct ti as [id|]; cbn; (split; [eexists; reflexivity | reflexivity]).
Qed.

(** The seconds counter of the recorder runs exactly while the recording
    flag is up.  For every sequence of clicks on the record button and of
    microphone requests settling, in any order and however each request
    settles (refused, granted, granted with a recorder that cannot be
    built or started), with any number of requests pending at the start:
    the intervals started are, in order, the intervals cleared followed
    by the one still running, and one is running at the end exactly when
    the component says it is recording.  So at most one interval runs at
    a time and none is left running by a stop. *)
Theorem recorder_display (b : AudioRecorder.Browser) (evs : list AudioRecorder.Event)
    (pending : nat) :
  let r := AudioRecorder.play b evs pending (AudioRecorder.init b) in
  let s := Handler.state_of r in
  AudioRecorder.intervalsSet (Handler.effects_of r)
    = (AudioRecorder.intervalsCleared (Handler.effects_of r) ++ Spec.ticking s)%list
  /\ List.length (Spec.ticking s) = (if AudioRecorder.isRecording s then 1 else 0)%nat.
Proof.
  assert (G : forall evs pending s0,
             Spec.display s0 ->
             let r := AudioRecorder.play b evs pending s0 in
             Spec.display (Handler.state_of r)
             /\ (Spec.ticking s0 ++ AudioRecorder.intervalsSet (Handler.effects_of r)
                 = AudioRecorder.intervalsCleared (Handler.effects_of r)
                   ++ Spec.ticking (Handler.state_of r))%list).
  { clear evs pending. induction evs as [|ev evs IH]; intros pending s0 Hd.
    - cbn. split; [exact Hd | apply List.app_nil_r].
    - assert (Step : forall (h : AudioRecorder.Handler unit) e n,
                 h = AudioRecorder.onClick e \/ h = AudioRecorder.startSettled b e ->
                 let r := (h;; AudioRecorder.play b evs n) s0 in
                 Spec.display (Handler.state_of r)
                 /\ (Spec.ticking s0 ++ AudioRecorder.intervalsSet (Handler.effects_of r)
                     = AudioRecorder.intervalsCleared (Handler.effects_of r)
                       ++ Spec.ticking (Handler.state_of r))%list).
      { intros h e n Hh. cbv zeta.
        rewrite then_state, then_effects, intervalsSet_app, intervalsCleared_app.
        destruct (handler_display h b e s0 Hh Hd) as [Hd1 E1].
        destruct (IH n _ Hd1) as [Hd2 E2].
        split; [exact Hd2|].
        rewrite List.app_assoc, E1, <- List.app_assoc, E2, List.app_assoc. reflexivity. }
      destruct ev as [e|e]; cbn [AudioRecorder.play].
      + rewrite get_then.
        apply (Step _ e). left. reflexivity.
      + destruct pending as [|n]; [apply IH, Hd|].
        apply (Step _ e). right. reflexivity. }
  intros r s. subst s r.
  destruct (G evs pending _ (eq_refl : Spec.display (AudioRecorder.init b))) as [Hd E].
  unfold Spec.display, Spec.ticking in *.
  destruct (AudioRecorder.isRecording _).
  - destruct Hd as [id Ht]. rewrite Ht in *. split; auto.
  - rewrite Hd in *. split; auto.
Qed.

(* ===================================================================== *)
(** * The theme toggle                                                    *)
(* ===================================================================== *)

Lemma classToggle_dark (force : bool) (l : gset string) :
  ("dark" ∈ ThemeToggle.classToggle "dark" force l <-> force = true)
  /\ forall c, c <> "dark" -> (c ∈ ThemeToggle.classToggle "dark" force l <-> c ∈ l).
Proof.
  unfold ThemeToggle.classToggle. destruct force; split.
  - split; [reflexivity | set_solver].
  - intros c Hc. set_solver.
  - split; [set_solver | discriminate].
  - intros c Hc. set_solver.
Qed.

(** The page follows the toggle.  After the mount effect and any number
    of clicks, the document element carries the class "dark" exactly when
    the component's state says dark; every other class and every other
    key of the local storage is as it was; and the state is the mounted
    one flipped once per click. *)
Theorem theme_in_sync (prefersDark : option bool) (w : ThemeToggle.World) (n : nat) :
  let w0 := ThemeToggle.mount prefersDark w in
  let w' := Nat.iter n ThemeToggle.toggle w0 in
  ("dark" ∈ ThemeToggle.classList w' <-> ThemeToggle.isDark w' = true)
  /\ (forall c, c <> "dark" -> (c ∈ ThemeToggle.classList w' <-> c ∈ ThemeToggle.classList w))
  /\ (forall k, k <> "theme" ->
        ThemeToggle.localStorage w' !! k = ThemeToggle.localStorage w !! k)
  /\ ThemeToggle.isDark w' = xorb (ThemeToggle.isDark w0) (Nat.odd n).
Proof.
  intros w0 w'. subst w' w0. induction n as [|n (IH1 & IH2 & IH3 & IH4)].
  - cbn. split_and!.
    + apply classToggle_dark.
    + apply classToggle_dark.
    + reflexivity.
    + destruct (ThemeToggle.shouldDark _ _); reflexivity.
  - rewrite Nat.iter_succ. set (w' := Nat.iter n ThemeToggle.toggle _) in *.
    cbn [ThemeToggle.toggle ThemeToggle.classList ThemeToggle.isDark
         ThemeToggle.localStorage]. split_and!.
    + apply classToggle_dark.
    + intros c Hc. rewrite <- (IH2 c Hc). apply classToggle_dark, Hc.
    + intros k Hk. rewrite lookup_insert_ne by congruence. apply IH3, Hk.
    + rewrite IH4, Nat.odd_succ, <- Nat.negb_odd.
      destruct (ThemeToggle.isDark (ThemeToggle.mount prefersDark w)), (Nat.odd n);
        reflexivity.
Qed.

Lemma theme_in_sync_witness :
  "no-js" ∈ ThemeToggle.classList
              (Nat.iter 3 ThemeToggle.toggle
                 (ThemeToggle.mount (Some true) (ThemeToggle.render ∅ {[ "no-js" ]})))
  <-> "no-js" ∈ ThemeToggle.classList (ThemeToggle.render ∅ {[ "no-js" ]}).
Proof.
  apply (theme_in_sync (Some true) (ThemeToggle.render ∅ {[ "no-js" ]}) 3).
  discriminate.
Defined.

(** The choice survives a reload.  Once the toggle has been clicked at
    least once, the local storage holds "dark" or "light" according to
    the state, and mounting the component afresh on a page with that
    storage restores the same theme, class included, whatever the system
    preference and whatever classes the fresh page carries. *)
Theorem theme_survives_reload (prefersDark prefersDark' : option bool)
    (w : ThemeToggle.World) (n : nat) (classes : gset string) :
  let w' := Nat.iter (S n) ThemeToggle.toggle (ThemeToggle.mount prefersDark w) in
  let again := ThemeToggle.mount prefersDark'
                 (ThemeToggle.render (ThemeToggle.localStorage w') classes) in
  ThemeToggle.localStorage w' !! "theme"
    = Some (if ThemeToggle.isDark w' then "dark" else "light")
  /\ ThemeToggle.isDark again = ThemeToggle.isDark w'
  /\ ("dark" ∈ ThemeToggle.classList again <-> ThemeToggle.isDark w' = true)
  /\ ThemeToggle.localStorage again = ThemeToggle.localStorage w'.
Proof.
  intros w' again.
  assert (H : ThemeToggle.localStorage w' !! "theme"
              = Some (if ThemeToggle.isDark w' then "dark" else "light")).
  { subst w'. rewrite Nat.iter_succ.
    cbn [ThemeToggle.toggle ThemeToggle.localStorage ThemeToggle.isDark].
    apply lookup_insert_eq. }
  assert (E : ThemeToggle.isDark again = ThemeToggle.isDark w').
  { subst again. cbn [ThemeToggle.mount ThemeToggle.render ThemeToggle.localStorage
                      ThemeToggle.isDark]. rewrite H.
    destruct (ThemeToggle.isDark w'); reflexivity. }
  split_and!; [exact H | exact E | | reflexivity].
  rewrite <- E. subst again. cbn [ThemeToggle.mount ThemeToggle.classList ThemeToggle.isDark].
  apply classToggle_dark.
Qed.
